(** * Unified payments API: gateway adapters and gateway factory

    A shallow embedding of the adapter layer of the unified payments
    service ([BaseGatewayAdapter], [StripeAdapter], [PaystackAdapter]) and of
    its [GatewayFactory], followed by the properties the written
    specification states about them.

    Modelling conventions.
    - JavaScript numbers are IEEE-754 binary64 values: the kernel's primitive
      [float], so [amount * 100] is the very multiplication the program runs.
    - An object property that may be absent is an [option]; [None] stands for
      [undefined].  Request and provider records carry the fields the source
      reads, with the types the API documents for them.
    - A string is the sequence of bytes of its UTF-8 text.  On a string of
      ASCII characters [toLowerCase] and [toUpperCase] are computed; on any
      other string they are the engine's Unicode case mappings, which the
      [Runtime] supplies uninterpreted, as it does the conversion of a value
      that is not a string to a string.
    - The clock, the random source, the provider transports and the
      cryptographic library are oracles gathered in a [Runtime] record; every
      use is threaded through a [World] that counts the readings and logs the
      transport and cryptographic calls in the order they are made.
    - A request body handed to [fetch] is kept as the structured payload
      whose JSON text is posted; an envelope's [timestamp] is the clock
      reading whose ISO rendering the program stores.
    - [async] methods are run to completion: a rejected promise is the
      completion [Throw], a fulfilled one is [Normal]. *)

From Stdlib Require Import ZArith NArith PrimFloat Ascii.
From stdpp Require Import gmap strings list pretty.

Set Warnings "-register-all".

Local Open Scope string_scope.

(** ** JavaScript values *)

(** JSON-like values passed through opaquely (provider payload fields,
    metadata entries, webhook bodies and events). *)
Inductive value : Type :=
| VUndefined
| VNull
| VBool (b : bool)
| VNum (f : float)
| VStr (s : string)
| VArr (items : list value)
| VObj (fields : list (string * value)).

(** What [throw new Error(msg)] and the provider libraries raise: an object
    with a [message] and, for provider errors, possibly a [code] and
    [details]. *)
Record JsError : Type := mkError {
  message : string;
  code : option string;
  details : option value
}.

Definition new_Error (msg : string) : JsError :=
  {| message := msg; code := None; details := None |}.

Definition TypeError (msg : string) : JsError := new_Error msg.

(** Truthiness, the test behind [!x], [x || y], [x ? a : b] and [if (x)]. *)
Class Truthy (A : Type) := truthy : A -> bool.
#[global] Hint Mode Truthy ! : typeclass_instances.

#[global] Instance truthy_float : Truthy float :=
  fun f => negb (PrimFloat.eqb f 0%float || PrimFloat.is_nan f).

#[global] Instance truthy_string : Truthy string :=
  fun s => match s with EmptyString => false | String _ _ => true end.

#[global] Instance truthy_bool : Truthy bool := fun b => b.

#[global] Instance truthy_value : Truthy value :=
  fun v =>
    match v with
    | VUndefined | VNull => false
    | VBool b => b
    | VNum f => truthy f
    | VStr s => truthy s
    | VArr _ | VObj _ => true
    end.

#[global] Instance truthy_option {A} `{Truthy A} : Truthy (option A) :=
  fun o => match o with Some x => truthy x | None => false end.

(** [x || dflt] on a property of string type. *)
Definition or_else (o : option string) (dflt : string) : string :=
  match o with
  | Some s => if truthy s then s else dflt
  | None => dflt
  end.

(** [ToNumber] on a numeric property: [undefined] becomes [NaN]. *)
Definition ToNumber (o : option float) : float :=
  match o with Some f => f | None => PrimFloat.nan end.

Definition of_num (o : option float) : value :=
  match o with Some f => VNum f | None => VUndefined end.

Definition of_str (o : option string) : value :=
  match o with Some s => VStr s | None => VUndefined end.

(** [process.env.NAME] *)
Definition getenv (env : gmap string string) (name : string) : option string :=
  env !! name.

(** A template literal prints [undefined] as the word. *)
Definition template (o : option string) : string :=
  match o with Some s => s | None => "undefined" end.

(** ** String methods *)

Definition lower_char (c : ascii) : ascii :=
  let n := nat_of_ascii c in
  if (65 <=? n)%nat && (n <=? 90)%nat then ascii_of_nat (n + 32) else c.

Definition upper_char (c : ascii) : ascii :=
  let n := nat_of_ascii c in
  if (97 <=? n)%nat && (n <=? 122)%nat then ascii_of_nat (n - 32) else c.

Fixpoint map_string (f : ascii -> ascii) (s : string) : string :=
  match s with
  | EmptyString => EmptyString
  | String c r => String (f c) (map_string f r)
  end.

(** Every character of the string is an ASCII character. *)
Fixpoint ascii_only (s : string) : bool :=
  match s with
  | EmptyString => true
  | String c r => (nat_of_ascii c <? 128)%nat && ascii_only r
  end.

(** [s.substr(start, len)] for non-negative arguments: at most [len]
    characters from index [start], fewer when the string ends first. *)
Definition substr (start len : nat) (s : string) : string :=
  String.substring start len s.

(** [arr.join(sep)] *)
Definition join (sep : string) (l : list string) : string :=
  String.concat sep l.

(** ** [Number.prototype.toString(36)] on a non-negative integer *)

Definition digit36 (d : N) : ascii :=
  if (d <? 10)%N then ascii_of_N (48 + d) else ascii_of_N (87 + d).

Fixpoint toString36_go (fuel : nat) (n : N) (acc : string) : string :=
  match fuel with
  | O => acc
  | S k =>
      let acc' := String (digit36 (n mod 36)) acc in
      if (n / 36 =? 0)%N then acc' else toString36_go k (n / 36) acc'
  end.

(** A number below [2^k] has at most [k] digits in base 36, so the fuel
    [N.size_nat n] (and one more for zero) is never exhausted. *)
Definition toString36 (n : N) : string :=
  toString36_go (S (N.size_nat n)) n EmptyString.

(** The inverse reading, [parseInt(s, 36)] on lower-case digit strings. *)
Definition value36 (c : ascii) : option N :=
  let n := N_of_ascii c in
  if (48 <=? n)%N && (n <=? 57)%N then Some (n - 48)%N
  else if (97 <=? n)%N && (n <=? 122)%N then Some (n - 87)%N
  else None.

Fixpoint parse36_go (s : string) (acc : N) : option N :=
  match s with
  | EmptyString => Some acc
  | String c r =>
      match value36 c with
      | Some d => parse36_go r (acc * 36 + d)%N
      | None => None
      end
  end.

Definition parse36 (s : string) : option N :=
  match s with
  | EmptyString => None
  | _ => parse36_go s 0%N
  end.

(** ** Request and provider records *)

(** The payment request handed to [processPayment] and
    [createPaymentIntent].  An absent [metadata] spreads to nothing, as the
    empty mapping does. *)
Record PaymentData : Type := mkPaymentData {
  amount : option float;
  currency : option string;
  customerEmail : option string;
  description : option string;
  paymentMethodId : option string;
  paymentIntentId : option string;
  callbackUrl : option string;
  channel : option string;
  metadata : gmap string value
}.

Record RefundData : Type := mkRefundData {
  transactionReference : option string;
  refund_amount : option float;
  reason : option string
}.

Record WebhookData : Type := mkWebhookData {
  body : value;
  signature : option string
}.

(** The verdict of [verifyWebhook]: [{isValid, event}] or
    [{isValid, error}]. *)
Record WebhookResult : Type := mkWebhookResult {
  isValid : bool;
  event : option value;
  error : option string
}.

(** Argument of [stripe.paymentIntents.create]. *)
Record StripeCreateParams : Type := mkStripeCreateParams {
  sc_amount : option float;
  sc_currency : string;
  sc_payment_method : option string;
  sc_confirm : option bool;
  sc_description : string;
  sc_metadata : gmap string value
}.

(** The payment intent object the Stripe SDK resolves to. *)
Record PaymentIntent : Type := mkPaymentIntent {
  pi_id : value;
  pi_status : value;
  pi_amount : value;
  pi_currency : value;
  pi_client_secret : value;
  pi_next_action : value
}.

(** Bodies posted to the Paystack REST API. *)
Record TransactionData : Type := mkTransactionData {
  td_amount : float;
  td_email : option string;
  td_currency : string;
  td_reference : string;
  td_callback_url : string;
  td_metadata : gmap string value;
  td_channels : option (list string)
}.

Record RefundPayload : Type := mkRefundPayload {
  rp_transaction : option string;
  rp_amount : option float;
  rp_reason : string
}.

Inductive PaystackBody : Type :=
| BodyTransaction (t : TransactionData)
| BodyRefund (r : RefundPayload).

(** The [data] member of a Paystack reply and the reply itself. *)
Record PaystackRecord : Type := mkPaystackRecord {
  pd_id : value;
  pd_reference : value;
  pd_authorization_url : value;
  pd_access_code : value;
  pd_status : value;
  pd_amount : option float;
  pd_currency : value;
  pd_gateway : value;
  pd_channel : value;
  pd_paid_at : value;
  pd_created_at : value
}.

Record PaystackReply : Type := mkPaystackReply {
  reply_message : option string;
  reply_data : option PaystackRecord
}.

(** ** Completions, events and the world *)

Inductive Completion (A : Type) : Type :=
| Normal (a : A)
| Throw (e : JsError).
Arguments Normal {A} a.
Arguments Throw {A} e.

(** What [fetch] does with a request: it rejects, or it resolves to a
    response with its [ok] flag, its [status] and the outcome of
    [response.json()]. *)
Inductive FetchOutcome : Type :=
| FetchRejects (e : JsError)
| FetchResolves (ok : bool) (status : N) (json : Completion PaystackReply).

Record FetchRequest : Type := mkFetchRequest {
  fr_url : string;
  fr_method : string;
  fr_authorization : string;
  fr_body : option PaystackBody
}.

(** Every call that leaves the adapter: provider transport calls and calls
    into the cryptographic libraries. *)
Inductive Event : Type :=
| EvFetch (req : FetchRequest)
| EvStripeCreate (params : StripeCreateParams)
| EvStripeConfirm (id : string)
| EvStripeConstructEvent (payload : value) (sig : string) (secret : option string)
| EvCreateHmac (algorithm : string) (key : option string)
| EvHmacUpdate (data : string).

Definition is_network (e : Event) : bool :=
  match e with
  | EvFetch _ | EvStripeCreate _ | EvStripeConfirm _ => true
  | EvStripeConstructEvent _ _ _ | EvCreateHmac _ _ | EvHmacUpdate _ => false
  end.

(** The oracles of the surrounding process.  [Date_now k] is the k-th reading
    of the clock in milliseconds since the epoch; [Math_random_toString36 k]
    is the text [Math.random().toString(36)] yields at the k-th draw (["0"]
    for a draw of zero, otherwise ["0."] followed by the base-36 digits the
    engine prints).  [String_toLowerCase] and [String_toUpperCase] are the
    engine's case mappings, consulted for strings that are not plain ASCII;
    [ToString] is the engine's conversion to a string, consulted for values
    that are not strings (it throws for an object that has no usable
    [toString]). *)
Record Runtime : Type := mkRuntime {
  Date_now : nat -> N;
  Math_random_toString36 : nat -> string;
  process_env : gmap string string;
  fetch : FetchRequest -> FetchOutcome;
  stripe_paymentIntents_create : StripeCreateParams -> Completion PaymentIntent;
  stripe_paymentIntents_confirm : string -> Completion PaymentIntent;
  stripe_webhooks_constructEvent :
    value -> string -> option string -> Completion value;
  JSON_stringify : value -> option string;
  hmac_sha512_hex : string -> string -> string;
  String_toLowerCase : string -> string;
  String_toUpperCase : string -> string;
  ToString : value -> Completion string
}.

(** [s.toLowerCase()] and [s.toUpperCase()] *)
Definition toLowerCase (rt : Runtime) (s : string) : string :=
  if ascii_only s then map_string lower_char s else String_toLowerCase rt s.

Definition toUpperCase (rt : Runtime) (s : string) : string :=
  if ascii_only s then map_string upper_char s else String_toUpperCase rt s.

(** A value printed in a template literal. *)
Definition template_value (rt : Runtime) (v : value) : Completion string :=
  match v with
  | VStr s => Normal s
  | _ => ToString rt v
  end.

Record World : Type := mkWorld {
  clock_reads : nat;
  random_draws : nat;
  trace : list Event
}.

Definition M (A : Type) : Type := World -> Completion A * World.

#[global] Instance M_ret : MRet M := fun A a w => (Normal a, w).

#[global] Instance M_bind : MBind M := fun A B f m w =>
  match m w with
  | (Normal a, w') => f a w'
  | (Throw e, w') => (Throw e, w')
  end.

Definition throw {A} (e : JsError) : M A := fun w => (Throw e, w).

(** [try { body } catch (error) { handler }] *)
Definition try_catch {A} (body : M A) (handler : JsError -> M A) : M A :=
  fun w =>
    match body w with
    | (Normal a, w') => (Normal a, w')
    | (Throw e, w') => handler e w'
    end.

Definition emit (e : Event) : M unit := fun w =>
  (Normal tt,
   {| clock_reads := clock_reads w; random_draws := random_draws w;
      trace := (trace w ++ [e])%list |}).

(** Settle an oracle's completion in the monad. *)
Definition settle {A} (c : Completion A) : M A := fun w => (c, w).

Section Oracles.
Variable rt : Runtime.

  (** [Date.now()] and [new Date()] read the clock. *)
Definition read_clock : M N := fun w =>
    (Normal (Date_now rt (clock_reads w)),
     {| clock_reads := S (clock_reads w); random_draws := random_draws w;
        trace := trace w |}).

  (** [Math.random().toString(36)] *)
Definition draw_random36 : M string := fun w =>
    (Normal (Math_random_toString36 rt (random_draws w)),
     {| clock_reads := clock_reads w; random_draws := S (random_draws w);
        trace := trace w |}).
End Oracles.

(** ** The unified envelope *)

Record ErrorBody : Type := mkErrorBody {
  err_message : string;
  err_code : string;
  err_details : value
}.

(** [{success: true, gateway, gatewayResponse, timestamp, unifiedId}] and
    [{success: false, gateway, error, timestamp, unifiedId}].  The
    [timestamp] is the clock reading whose ISO rendering the program
    stores. *)
Inductive Envelope : Type :=
| UnifiedResponse (gateway : string) (gatewayResponse : value)
    (timestamp : N) (unifiedId : string)
| UnifiedError (gateway : string) (error : ErrorBody)
    (timestamp : N) (unifiedId : string).

Definition success (e : Envelope) : bool :=
  match e with UnifiedResponse _ _ _ _ => true | UnifiedError _ _ _ _ => false end.

Definition gateway (e : Envelope) : string :=
  match e with UnifiedResponse g _ _ _ | UnifiedError g _ _ _ => g end.

Definition unifiedId (e : Envelope) : string :=
  match e with UnifiedResponse _ _ _ i | UnifiedError _ _ _ i => i end.

Definition envelope_error (e : Envelope) : option ErrorBody :=
  match e with UnifiedResponse _ _ _ _ => None | UnifiedError _ b _ _ => Some b end.

Definition gatewayResponse (e : Envelope) : option value :=
  match e with UnifiedResponse _ r _ _ => Some r | UnifiedError _ _ _ _ => None end.

(** [obj.key] on an object literal. *)
Fixpoint assoc (key : string) (fields : list (string * value)) : value :=
  match fields with
  | [] => VUndefined
  | (k, v) :: rest => if String.eqb k key then v else assoc key rest
  end.

Definition prop (key : string) (v : value) : value :=
  match v with VObj fields => assoc key fields | _ => VUndefined end.

(** [o.method()] on a string property: a [TypeError] when [o] is
    [undefined]. *)
Definition call_method (name : string) (f : string -> string)
    (o : option string) : M string :=
  match o with
  | Some s => mret (f s)
  | None =>
      throw (TypeError
        ("Cannot read properties of undefined (reading '" +:+ name +:+ "')"))
  end.

(** [{unified_payment_id: id, customer_email: email, ...metadata}]: the
    spread comes last, so its keys replace the two written before it. *)
Definition payment_metadata (id : string) (email : option string)
    (md : gmap string value) : gmap string value :=
  md ∪ <["unified_payment_id" := VStr id]>
         (<["customer_email" := of_str email]> ∅).

(** ** BaseGatewayAdapter *)

Module BaseGatewayAdapter.

Record Validation : Type := mkValidation {
    valid : bool;
    errors : list string
  }.

  (** [paymentData[field]] is truthy *)
Definition field_truthy (paymentData : PaymentData) (field : string) : bool :=
    if String.eqb field "amount" then truthy (amount paymentData)
    else if String.eqb field "currency" then truthy (currency paymentData)
    else false.

Definition validatePaymentData (paymentData : PaymentData) : Validation :=
    let required := ["amount"; "currency"] in
    let missing :=
      List.filter (fun field => negb (field_truthy paymentData field)) required in
    if (0 <? length missing)%nat then
      {| valid := false;
         errors := List.map (fun field => field +:+ " is required") missing |}
    else if PrimFloat.leb (ToNumber (amount paymentData)) 0%float then
      {| valid := false; errors := ["amount must be greater than 0"] |}
    else {| valid := true; errors := [] |}.

Section Methods.
Variable rt : Runtime.
    (** [this.gatewayName], set to [this.constructor.name]. *)
Variable gatewayName : string.

Definition generateUnifiedId : M string :=
      now ← read_clock rt;
      let timestamp := toString36 now in
      printed ← draw_random36 rt;
      let random := substr 2 5 printed in
      mret ("unified_" +:+ toLowerCase rt gatewayName +:+ "_" +:+ timestamp
              +:+ "_" +:+ random).

Definition formatResponse (gatewayResponse : value) : M Envelope :=
      timestamp ← read_clock rt;
      id ← generateUnifiedId;
      mret (UnifiedResponse (toLowerCase rt gatewayName) gatewayResponse
              timestamp id).

Definition formatError (error : JsError) : M Envelope :=
      let body :=
        {| err_message := message error;
           err_code := or_else (code error) "UNKNOWN_ERROR";
           err_details :=
             match details error with
             | Some d => if truthy d then d else VNull
             | None => VNull
             end |} in
      timestamp ← read_clock rt;
      id ← generateUnifiedId;
      mret (UnifiedError (toLowerCase rt gatewayName) body timestamp id).
End Methods.

End BaseGatewayAdapter.

(** ** StripeAdapter *)

Module StripeAdapter.
Import BaseGatewayAdapter.

Record Config : Type := mkConfig {
    secretKey : option string;
    publishableKey : option string;
    webhookSecret : option string
  }.

Definition gatewayName : string := "StripeAdapter".

Section Methods.
Variable rt : Runtime.
Variable this : Config.

Definition create (params : StripeCreateParams) : M PaymentIntent :=
      emit (EvStripeCreate params);;
      settle (stripe_paymentIntents_create rt params).

Definition confirm (id : string) : M PaymentIntent :=
      emit (EvStripeConfirm id);;
      settle (stripe_paymentIntents_confirm rt id).

Definition processPayment (paymentData : PaymentData) : M Envelope :=
      try_catch
        (let validation := validatePaymentData paymentData in
         (if negb (valid validation) then
            throw (new_Error
              ("Validation failed: " +:+ join ", " (errors validation)))
          else mret tt);;
         let create_unconfirmed : M PaymentIntent :=
           cur ← call_method "toLowerCase" (toLowerCase rt) (currency paymentData);
           id ← generateUnifiedId rt gatewayName;
           create
             {| sc_amount := amount paymentData;
                sc_currency := cur;
                sc_payment_method := None;
                sc_confirm := None;
                sc_description :=
                  or_else (description paymentData)
                    "Payment via Unified Payments API";
                sc_metadata :=
                  payment_metadata id (customerEmail paymentData)
                    (metadata paymentData) |} in
         paymentIntent ←
           (if truthy (paymentMethodId paymentData) then
              cur ← call_method "toLowerCase" (toLowerCase rt) (currency paymentData);
              id ← generateUnifiedId rt gatewayName;
              create
                {| sc_amount := amount paymentData;
                   sc_currency := cur;
                   sc_payment_method := paymentMethodId paymentData;
                   sc_confirm := Some true;
                   sc_description :=
                     or_else (description paymentData)
                       "Payment via Unified Payments API";
                   sc_metadata :=
                     payment_metadata id (customerEmail paymentData)
                       (metadata paymentData) |}
            else
              match paymentIntentId paymentData with
              | Some intent =>
                  if truthy intent then confirm intent else create_unconfirmed
              | None => create_unconfirmed
              end);
         formatResponse rt gatewayName
           (VObj [("paymentIntentId", pi_id paymentIntent);
                  ("status", pi_status paymentIntent);
                  ("amount", pi_amount paymentIntent);
                  ("currency", pi_currency paymentIntent);
                  ("clientSecret", pi_client_secret paymentIntent);
                  ("requiresAction",
                   VBool match pi_status paymentIntent with
                         | VStr s => String.eqb s "requires_action"
                         | _ => false
                         end);
                  ("nextAction", pi_next_action paymentIntent)]))
        (fun error => formatError rt gatewayName error).

Definition verifyWebhook (webhookData : WebhookData) : M WebhookResult :=
      try_catch
        (match signature webhookData with
         | Some sig =>
             if truthy sig then
               emit (EvStripeConstructEvent (body webhookData) sig
                       (webhookSecret this));;
               ev ← settle (stripe_webhooks_constructEvent rt
                              (body webhookData) sig (webhookSecret this));
               mret {| isValid := true; event := Some ev; error := None |}
             else throw (new_Error "No signature provided")
         | None => throw (new_Error "No signature provided")
         end)
        (fun err =>
           mret {| isValid := false; event := None;
                   error := Some (message err) |}).

Definition createPaymentIntent (intentData : PaymentData) : M Envelope :=
      try_catch
        (let validation := validatePaymentData intentData in
         (if negb (valid validation) then
            throw (new_Error
              ("Validation failed: " +:+ join ", " (errors validation)))
          else mret tt);;
         cur ← call_method "toLowerCase" (toLowerCase rt) (currency intentData);
         id ← generateUnifiedId rt gatewayName;
         paymentIntent ←
           create
             {| sc_amount := amount intentData;
                sc_currency := cur;
                sc_payment_method := None;
                sc_confirm := None;
                sc_description :=
                  or_else (description intentData)
                    "Payment intent via Unified Payments API";
                sc_metadata :=
                  payment_metadata id (customerEmail intentData)
                    (metadata intentData) |};
         formatResponse rt gatewayName
           (VObj [("paymentIntentId", pi_id paymentIntent);
                  ("clientSecret", pi_client_secret paymentIntent);
                  ("status", pi_status paymentIntent);
                  ("amount", pi_amount paymentIntent);
                  ("currency", pi_currency paymentIntent)]))
        (fun error => formatError rt gatewayName error).
End Methods.

Definition getSupportedCurrencies : list string :=
  ["usd"; "eur"; "gbp"; "cad"; "aud"; "jpy"; "chf"; "sek"; "nok"; "dkk";
   "pln"; "czk"; "huf"; "ron"; "bgn"; "hrk"; "rub"; "try"; "brl"; "mxn";
   "ars"; "clp"; "cop"; "pen"; "uyu"; "pyg"; "bob"; "ecv"; "gtq"; "hnl";
   "nio"; "crc"; "pab"; "vef"; "dop"; "jmd"; "ttd"; "bbd"; "bzd"; "xcd";
   "htg"; "awg"; "ang"; "srd"; "gyd"; "fjd"; "pgk"; "wst"; "vuv"; "top";
   "sbd"; "kwd"; "bhd"; "omr"; "qar"; "aed"; "sar"; "jod"; "lbp"; "egp";
   "mad"; "tnd"; "lyd"; "dzd"; "mro"; "mru"; "ngn"; "ghs"; "kes"; "ugx";
   "tzs"; "bif"; "rwf"; "djf"; "kmf"; "mga"; "mur"; "scr"; "szl"; "zmw";
   "mwk"; "bwp"; "naf"; "szl"; "ls"; "stn"; "aoa"; "cve"; "gmd"; "gnb";
   "gw"; "mrt"; "ml"; "bf"; "bj"; "tg"; "ci"; "sn"; "gm"; "gn"; "sl"; "lr";
   "cm"; "cf"; "td"; "ne"; "sd"; "er"; "et"; "so"; "dj"; "yt"; "km"; "mg";
   "re"; "mu"; "sc"; "com"; "km"; "yt"; "dj"; "so"; "et"; "er"; "sd"; "ne";
   "td"; "cf"; "cm"; "lr"; "sl"; "gn"; "gm"; "sn"; "ci"; "tg"; "bj"; "bf";
   "ml"; "mrt"; "gw"; "gnb"; "gmd"; "cve"; "aoa"].

Definition getSupportedPaymentMethods : list string :=
  ["card"; "bank_transfer"; "sepa_debit"; "sofort"; "ideal"; "bancontact";
   "eps"; "giropay"; "p24"; "alipay"; "wechat_pay"; "klarna"; "affirm";
   "afterpay_clearpay"].

End StripeAdapter.

(** ** PaystackAdapter *)

Module PaystackAdapter.
Import BaseGatewayAdapter.

Record Config : Type := mkConfig {
    secretKey : option string;
    publicKey : option string
  }.

Definition gatewayName : string := "PaystackAdapter".
Definition baseUrl : string := "https://api.paystack.co".

Section Methods.
Variable rt : Runtime.
Variable this : Config.

Definition makeRequest (endpoint method : string)
        (data : option PaystackBody) : M PaystackReply :=
      let url := baseUrl +:+ endpoint in
      let request :=
        {| fr_url := url;
           fr_method := method;
           fr_authorization := "Bearer " +:+ template (secretKey this);
           fr_body :=
             if String.eqb method "POST" || String.eqb method "PUT"
             then data else None |} in
      try_catch
        (emit (EvFetch request);;
         match fetch rt request with
         | FetchRejects e => throw e
         | FetchResolves ok status json =>
             result ← settle json;
             if negb ok then
               throw (new_Error
                 (or_else (reply_message result)
                    ("Paystack API error: " +:+ pretty status)))
             else mret result
         end)
        (fun error =>
           throw (new_Error ("Paystack request failed: " +:+ message error))).

    (** [reply.data.<first>]: reading a property of [reply.data] raises a
        [TypeError] when the reply has no [data]. *)
Definition data_of (reply : PaystackReply) (first : string)
        : M PaystackRecord :=
      match reply_data reply with
      | Some d => mret d
      | None =>
          throw (TypeError
            ("Cannot read properties of undefined (reading '" +:+ first
               +:+ "')"))
      end.

Definition callback_url (d : PaymentData) : string :=
      or_else (callbackUrl d)
        (template (getenv (process_env rt) "BASE_URL") +:+ "/api/payments/callback").

Definition processPayment (paymentData : PaymentData) : M Envelope :=
      try_catch
        (let validation := validatePaymentData paymentData in
         (if negb (valid validation) then
            throw (new_Error
              ("Validation failed: " +:+ join ", " (errors validation)))
          else mret tt);;
         (if negb (truthy (customerEmail paymentData)) then
            throw (new_Error "customerEmail is required for Paystack payments")
          else mret tt);;
         cur ← call_method "toUpperCase" (toUpperCase rt) (currency paymentData);
         reference ← generateUnifiedId rt gatewayName;
         unified_payment_id ← generateUnifiedId rt gatewayName;
         let transactionData :=
           {| td_amount := PrimFloat.mul (ToNumber (amount paymentData)) 100%float;
              td_email := customerEmail paymentData;
              td_currency := cur;
              td_reference := reference;
              td_callback_url := callback_url paymentData;
              td_metadata :=
                payment_metadata unified_payment_id
                  (customerEmail paymentData) (metadata paymentData);
              td_channels :=
                match channel paymentData with
                | Some c => if truthy c then Some [c] else None
                | None => None
                end |} in
         transaction ←
           makeRequest "/transaction/initialize" "POST"
             (Some (BodyTransaction transactionData));
         d ← data_of transaction "id";
         formatResponse rt gatewayName
           (VObj [("transactionId", pd_id d);
                  ("reference", pd_reference d);
                  ("authorizationUrl", pd_authorization_url d);
                  ("accessCode", pd_access_code d);
                  ("status", VStr "pending");
                  ("amount", of_num (amount paymentData));
                  ("currency", of_str (currency paymentData))]))
        (fun error => formatError rt gatewayName error).

Definition processRefund (refundData : RefundData) : M Envelope :=
      try_catch
        ((if negb (truthy (transactionReference refundData)) then
            throw (new_Error
              "transactionReference is required for Paystack refunds")
          else mret tt);;
         let refundDataPayload :=
           {| rp_transaction := transactionReference refundData;
              rp_amount :=
                if truthy (refund_amount refundData)
                then Some (PrimFloat.mul (ToNumber (refund_amount refundData))
                             100%float)
                else None;
              rp_reason := or_else (reason refundData) "requested_by_customer" |} in
         refund ← makeRequest "/refund" "POST" (Some (BodyRefund refundDataPayload));
         d ← data_of refund "id";
         formatResponse rt gatewayName
           (VObj [("refundId", pd_id d);
                  ("status", pd_status d);
                  ("amount",
                   VNum (PrimFloat.div (ToNumber (pd_amount d)) 100%float));
                  ("currency", pd_currency d);
                  ("reference", pd_reference d)]))
        (fun error => formatError rt gatewayName error).

Definition verifyWebhook (webhookData : WebhookData) : M WebhookResult :=
      try_catch
        ((if negb (truthy (signature webhookData)) then
            throw (new_Error "No signature provided")
          else mret tt);;
         emit (EvCreateHmac "sha512" (secretKey this));;
         key ←
           match secretKey this with
           | Some k => mret k
           | None =>
               throw (TypeError
                 "The key argument must be of type string. Received undefined")
           end;
         text ←
           match JSON_stringify rt (body webhookData) with
           | Some t => mret t
           | None =>
               throw (TypeError
                 "The data argument must be of type string. Received undefined")
           end;
         emit (EvHmacUpdate text);;
         let hash := hmac_sha512_hex rt key text in
         (if negb (bool_decide (signature webhookData = Some hash)) then
            throw (new_Error "Invalid webhook signature")
          else mret tt);;
         mret {| isValid := true; event := Some (body webhookData);
                 error := None |})
        (fun err =>
           mret {| isValid := false; event := None;
                   error := Some (message err) |}).

Definition getPaymentStatus (paymentReference : option string)
        : M Envelope :=
      try_catch
        ((if negb (truthy paymentReference) then
            throw (new_Error "Payment reference is required")
          else mret tt);;
         transaction ←
           makeRequest ("/transaction/verify/" +:+ template paymentReference)
             "GET" None;
         d ← data_of transaction "status";
         formatResponse rt gatewayName
           (VObj [("status", pd_status d);
                  ("amount",
                   VNum (PrimFloat.div (ToNumber (pd_amount d)) 100%float));
                  ("currency", pd_currency d);
                  ("reference", pd_reference d);
                  ("gateway", pd_gateway d);
                  ("channel", pd_channel d);
                  ("paidAt", pd_paid_at d);
                  ("createdAt", pd_created_at d)]))
        (fun error => formatError rt gatewayName error).

Definition createPaymentIntent (intentData : PaymentData) : M Envelope :=
      try_catch
        (let validation := validatePaymentData intentData in
         (if negb (valid validation) then
            throw (new_Error
              ("Validation failed: " +:+ join ", " (errors validation)))
          else mret tt);;
         (if negb (truthy (customerEmail intentData)) then
            throw (new_Error
              "customerEmail is required for Paystack payment intents")
          else mret tt);;
         cur ← call_method "toUpperCase" (toUpperCase rt) (currency intentData);
         reference ← generateUnifiedId rt gatewayName;
         unified_payment_id ← generateUnifiedId rt gatewayName;
         let transactionData :=
           {| td_amount := PrimFloat.mul (ToNumber (amount intentData)) 100%float;
              td_email := customerEmail intentData;
              td_currency := cur;
              td_reference := reference;
              td_callback_url := callback_url intentData;
              td_metadata :=
                payment_metadata unified_payment_id
                  (customerEmail intentData) (metadata intentData);
              td_channels := None |} in
         transaction ←
           makeRequest "/transaction/initialize" "POST"
             (Some (BodyTransaction transactionData));
         d ← data_of transaction "id";
         formatResponse rt gatewayName
           (VObj [("transactionId", pd_id d);
                  ("reference", pd_reference d);
                  ("authorizationUrl", pd_authorization_url d);
                  ("accessCode", pd_access_code d);
                  ("status", VStr "pending");
                  ("amount", of_num (amount intentData));
                  ("currency", of_str (currency intentData))]))
        (fun error => formatError rt gatewayName error).
End Methods.

Definition getSupportedCurrencies : list string :=
  ["NGN"; "GHS"; "ZAR"; "USD"; "EUR"; "GBP"; "KES"; "UGX"; "TZS"; "ZMW";
   "MAD"; "EGP"; "XOF"; "XAF"; "CDF"; "RWF"; "BIF"; "DJF"; "KMF"; "MGA";
   "MUR"; "SCR"; "SZL"; "MWK"; "BWP"; "NAD"; "LSL"; "STN"; "AOA"; "CVE";
   "GMD"; "GNF"; "GW"; "MRT"; "ML"; "BF"; "BJ"; "TG"; "CI"; "SN"; "GM";
   "GN"; "SL"; "LR"; "CM"; "CF"; "TD"; "NE"; "SD"; "ER"; "ET"; "SO"; "DJ";
   "YT"; "KM"; "MG"; "RE"; "MU"; "SC"; "COM"].

Definition getSupportedPaymentMethods : list string :=
  ["card"; "bank"; "ussd"; "qr"; "mobile_money"; "bank_transfer";
   "payattitude"; "paga"; "1voucher"; "gt_bank"; "internet_banking";
   "cashenvoy"; "providus_bank"; "pay_with_bank"; "pay_with_bank_transfer";
   "standard_bank"; "zenith_bank"; "access_bank"; "gt_bank"; "first_bank";
   "fidelity_bank"; "ecobank"; "stanbic_bank"; "union_bank"; "wema_bank";
   "heritage_bank"; "keystone_bank"; "polaris_bank"; "unity_bank";
   "jaiz_bank"; "stanbic_ibtc_bank"; "diamond_bank"; "mainstreet_bank";
   "fcmb_bank"; "uba_bank"; "fidelity_bank"; "ecobank"; "stanbic_bank";
   "union_bank"; "wema_bank"; "heritage_bank"; "keystone_bank";
   "polaris_bank"; "unity_bank"; "jaiz_bank"; "stanbic_ibtc_bank";
   "diamond_bank"; "mainstreet_bank"; "fcmb_bank"; "uba_bank"].

End PaystackAdapter.

(** ** The adapter interface: one dispatch over the two implementers *)

Inductive Adapter : Type :=
| Stripe (config : StripeAdapter.Config)
| Paystack (config : PaystackAdapter.Config).

Definition gatewayName (a : Adapter) : string :=
  match a with
  | Stripe _ => StripeAdapter.gatewayName
  | Paystack _ => PaystackAdapter.gatewayName
  end.

Definition processPayment (rt : Runtime) (a : Adapter) : PaymentData -> M Envelope :=
  match a with
  | Stripe c => StripeAdapter.processPayment rt
  | Paystack c => PaystackAdapter.processPayment rt c
  end.

Definition createPaymentIntent (rt : Runtime) (a : Adapter)
    : PaymentData -> M Envelope :=
  match a with
  | Stripe c => StripeAdapter.createPaymentIntent rt
  | Paystack c => PaystackAdapter.createPaymentIntent rt c
  end.

Definition verifyWebhook (rt : Runtime) (a : Adapter)
    : WebhookData -> M WebhookResult :=
  match a with
  | Stripe c => StripeAdapter.verifyWebhook rt c
  | Paystack c => PaystackAdapter.verifyWebhook rt c
  end.

Definition getSupportedCurrencies (a : Adapter) : list string :=
  match a with
  | Stripe _ => StripeAdapter.getSupportedCurrencies
  | Paystack _ => PaystackAdapter.getSupportedCurrencies
  end.

Definition getSupportedPaymentMethods (a : Adapter) : list string :=
  match a with
  | Stripe _ => StripeAdapter.getSupportedPaymentMethods
  | Paystack _ => PaystackAdapter.getSupportedPaymentMethods
  end.

(** A fresh world: nothing read, nothing called. *)
Definition initial : World :=
  {| clock_reads := 0; random_draws := 0; trace := [] |}.

(** Synchronous code that may throw. *)
#[global] Instance Completion_ret : MRet Completion := fun A a => Normal a.

#[global] Instance Completion_bind : MBind Completion := fun A B f c =>
  match c with Normal a => f a | Throw e => Throw e end.

#[global] Instance Completion_fmap : FMap Completion := fun A B f c =>
  match c with Normal a => Normal (f a) | Throw e => Throw e end.

(** ** GatewayFactory *)

Module GatewayFactory.

(** The [adapters] member: a JavaScript [Map], which keeps its keys in
    insertion order. *)
Definition Adapters : Type := list (string * Adapter).

Fixpoint Map_set (key : string) (a : Adapter) (m : Adapters) : Adapters :=
  match m with
  | [] => [(key, a)]
  | (k, b) :: rest =>
      if String.eqb k key then (k, a) :: rest else (k, b) :: Map_set key a rest
  end.

Fixpoint Map_has (key : string) (m : Adapters) : bool :=
  match m with
  | [] => false
  | (k, _) :: rest => String.eqb k key || Map_has key rest
  end.

Fixpoint Map_get (key : string) (m : Adapters) : option Adapter :=
  match m with
  | [] => None
  | (k, a) :: rest => if String.eqb k key then Some a else Map_get key rest
  end.

Definition Map_keys (m : Adapters) : list string := List.map fst m.

Definition initializeAdapters (env : gmap string string) (adapters : Adapters)
    : Adapters :=
  let adapters :=
    if truthy (getenv env "STRIPE_SECRET_KEY") then
      Map_set "stripe"
        (Stripe
           {| StripeAdapter.secretKey := getenv env "STRIPE_SECRET_KEY";
              StripeAdapter.publishableKey := getenv env "STRIPE_PUBLISHABLE_KEY";
              StripeAdapter.webhookSecret := getenv env "STRIPE_WEBHOOK_SECRET" |})
        adapters
    else adapters in
  if truthy (getenv env "PAYSTACK_SECRET_KEY") then
    Map_set "paystack"
      (Paystack
         {| PaystackAdapter.secretKey := getenv env "PAYSTACK_SECRET_KEY";
            PaystackAdapter.publicKey := getenv env "PAYSTACK_PUBLIC_KEY" |})
      adapters
  else adapters.

(** [new GatewayFactory()] in a process whose environment is [env]. *)
Definition constructor (env : gmap string string) : Adapters :=
  initializeAdapters env [].

Record Features : Type := mkFeatures {
  refunds : bool;
  webhooks : bool;
  paymentIntents : bool;
  statusChecking : bool
}.

Record Capabilities : Type := mkCapabilities {
  name : value;
  supportedCurrencies : list string;
  supportedPaymentMethods : list string;
  features : Features
}.

Record ConfigurationStatus : Type := mkConfigurationStatus {
  isValid : bool;
  errors : list string;
  warnings : list string;
  availableGateways : list string
}.

Record Stats : Type := mkStats {
  totalGateways : nat;
  stats_availableGateways : list string;
  configurationStatus : ConfigurationStatus
}.

Section Methods.
Variable rt : Runtime.
Variable this : Adapters.

(** [gatewayName.toLowerCase()], the first step of [getGateway] and of
    [isGatewayAvailable], on whatever value the caller passed: only a string
    has the method. *)
Definition normalize (gatewayName : value) : Completion string :=
  match gatewayName with
  | VStr text => Normal (toLowerCase rt text)
  | VUndefined =>
      Throw (TypeError
        "Cannot read properties of undefined (reading 'toLowerCase')")
  | VNull =>
      Throw (TypeError "Cannot read properties of null (reading 'toLowerCase')")
  | _ => Throw (TypeError "gatewayName.toLowerCase is not a function")
  end.

(** The guard [!this.adapters.has(name)] and the read
    [this.adapters.get(name)] that follows it.  Past the guard the read
    always finds the adapter; its other branch stands for [undefined], on
    which every use of the returned gateway would raise a [TypeError]. *)
Definition getGateway (gatewayName : value) : Completion Adapter :=
  normalizedName ← normalize gatewayName;
  if negb (Map_has normalizedName this) then
    text ← template_value rt gatewayName;
    Throw (new_Error ("Unsupported payment gateway: " +:+ text))
  else
    match Map_get normalizedName this with
    | Some adapter => Normal adapter
    | None => Throw (TypeError "undefined is not a gateway adapter")
    end.

Definition getAvailableGateways : list string := Map_keys this.

Definition isGatewayAvailable (gatewayName : value) : Completion bool :=
  normalizedName ← normalize gatewayName;
  mret (Map_has normalizedName this).

Definition getGatewayCapabilities (gatewayName : value)
    : Completion Capabilities :=
  gateway ← getGateway gatewayName;
  mret {| name := gatewayName;
          supportedCurrencies := getSupportedCurrencies gateway;
          supportedPaymentMethods := getSupportedPaymentMethods gateway;
          features :=
            {| refunds := true; webhooks := true; paymentIntents := true;
               statusChecking := true |} |}.

(** The loop [for (const [name, adapter] of this.adapters)] filling the
    [capabilities] object. *)
Fixpoint capabilities_loop (entries : Adapters)
    (capabilities : list (string * Capabilities))
    : Completion (list (string * Capabilities)) :=
  match entries with
  | [] => mret capabilities
  | (name, _) :: rest =>
      c ← getGatewayCapabilities (VStr name);
      capabilities_loop rest (capabilities ++ [(name, c)])%list
  end.

Definition getAllGatewayCapabilities
    : Completion (list (string * Capabilities)) :=
  capabilities_loop this [].

Definition validateConfiguration (env : gmap string string)
    : ConfigurationStatus :=
  let errors : list string := [] in
  let warnings : list string := [] in
  let warnings :=
    if negb (truthy (getenv env "STRIPE_SECRET_KEY")) then
      (warnings ++ ["Stripe is not configured (STRIPE_SECRET_KEY missing)"])%list
    else warnings in
  let warnings :=
    if negb (truthy (getenv env "PAYSTACK_SECRET_KEY")) then
      (warnings ++ ["Paystack is not configured (PAYSTACK_SECRET_KEY missing)"])%list
    else warnings in
  let warnings :=
    if (length warnings =? 0)%nat then
      (warnings ++ ["All supported gateways are configured"])%list
    else warnings in
  {| isValid := (length errors =? 0)%nat;
     errors := errors;
     warnings := warnings;
     availableGateways := getAvailableGateways |}.

Definition getGatewayStats (env : gmap string string) : Stats :=
  {| totalGateways := length this;
     stats_availableGateways := getAvailableGateways;
     configurationStatus := validateConfiguration env |}.

(** The public methods of the factory and what each returns. *)
Inductive Call : Type :=
| CallGetGateway (gatewayName : value)
| CallGetAvailableGateways
| CallIsGatewayAvailable (gatewayName : value)
| CallGetGatewayCapabilities (gatewayName : value)
| CallGetAllGatewayCapabilities
| CallValidateConfiguration
| CallGetGatewayStats.

Inductive Answer : Type :=
| AnsAdapter (a : Adapter)
| AnsNames (l : list string)
| AnsBool (b : bool)
| AnsCapabilities (c : Capabilities)
| AnsAllCapabilities (l : list (string * Capabilities))
| AnsConfiguration (s : ConfigurationStatus)
| AnsStats (s : Stats).

Definition invoke (env : gmap string string) (c : Call) : Completion Answer :=
  match c with
  | CallGetGateway n => AnsAdapter <$> getGateway n
  | CallGetAvailableGateways => Normal (AnsNames getAvailableGateways)
  | CallIsGatewayAvailable n => AnsBool <$> isGatewayAvailable n
  | CallGetGatewayCapabilities n => AnsCapabilities <$> getGatewayCapabilities n
  | CallGetAllGatewayCapabilities =>
      AnsAllCapabilities <$> getAllGatewayCapabilities
  | CallValidateConfiguration => Normal (AnsConfiguration (validateConfiguration env))
  | CallGetGatewayStats => Normal (AnsStats (getGatewayStats env))
  end.
End Methods.

End GatewayFactory.

(** ** The shape of a unified id and of the worlds a call leaves behind *)

(** [unified_<gateway>_<base-36 clock reading>_<random suffix>], the text
    [generateUnifiedId] assembles from one clock reading and one draw. *)
Definition unified_id (rt : Runtime) (name : string) (now : N)
    (printed : string) : string :=
  "unified_" +:+ toLowerCase rt name +:+ "_" +:+ toString36 now +:+ "_"
    +:+ substr 2 5 printed.

(** The world after [c] more clock readings and [r] more draws, with no new
    transport or cryptographic call. *)
Definition advance (c r : nat) (w : World) : World :=
  {| clock_reads := c + clock_reads w;
     random_draws := r + random_draws w;
     trace := trace w |}.

Definition result {A} (run : Completion A * World) : Completion A := fst run.
Definition calls_after {A} (run : Completion A * World) : list Event :=
  trace (snd run).

(** Every character is a lower-case base-36 digit. *)
Fixpoint digits36 (s : string) : bool :=
  match s with
  | EmptyString => true
  | String c r =>
      match value36 c with Some _ => digits36 r | None => false end
  end.

(** The transaction body a logged call posts to Paystack, if it posts one. *)
Definition sent_transaction (ev : Event) : option TransactionData :=
  match ev with
  | EvFetch req =>
      match fr_body req with
      | Some (BodyTransaction t) => Some t
      | _ => None
      end
  | _ => None
  end.

(** ** Sample inputs *)

Module Sample.

Definition record : PaystackRecord :=
  {| pd_id := VNum 7%float; pd_reference := VStr "ref_1";
     pd_authorization_url := VStr "https://checkout.paystack.com/x";
     pd_access_code := VStr "x"; pd_status := VStr "success";
     pd_amount := Some 5000%float; pd_currency := VStr "NGN";
     pd_gateway := VUndefined; pd_channel := VStr "card";
     pd_paid_at := VNull; pd_created_at := VNull |}.

Definition intent : PaymentIntent :=
  {| pi_id := VStr "pi_1"; pi_status := VStr "requires_payment_method";
     pi_amount := VNum 1000%float; pi_currency := VStr "usd";
     pi_client_secret := VStr "pi_1_secret"; pi_next_action := VNull |}.

(** A process whose clock advances one millisecond per reading, whose
    random source yields 0.5 (printed ["0.i"]) at its second draw, and whose
    providers accept every call. *)
Definition rt : Runtime :=
  {| Date_now := fun k => (1730000000000 + N.of_nat k)%N;
     Math_random_toString36 := fun k =>
       match k with
       | 0 => "0.4fzyo82mvyr"
       | 1 => "0.i"
       | _ => "0.k2tm9xq01b"
       end;
     process_env := {[ "BASE_URL" := "https://pay.example" ]};
     fetch := fun _ =>
       FetchResolves true 200
         (Normal {| reply_message := None; reply_data := Some record |});
     stripe_paymentIntents_create := fun _ => Normal intent;
     stripe_paymentIntents_confirm := fun _ => Normal intent;
     stripe_webhooks_constructEvent := fun payload _ _ => Normal payload;
     JSON_stringify := fun _ => Some "{}";
     hmac_sha512_hex := fun _ _ => "5f1d";
     String_toLowerCase := fun s => s;
     String_toUpperCase := fun s => s;
     ToString := fun _ => Normal "[object Object]" |}.

Definition stripe : Adapter :=
  Stripe {| StripeAdapter.secretKey := Some "sk_test";
            StripeAdapter.publishableKey := None;
            StripeAdapter.webhookSecret := Some "whsec" |}.

Definition paystack_config : PaystackAdapter.Config :=
  {| PaystackAdapter.secretKey := Some "sk_test";
     PaystackAdapter.publicKey := None |}.

Definition paystack : Adapter := Paystack paystack_config.

Definition request (a : option float) (c : option string) : PaymentData :=
  {| amount := a; currency := c; customerEmail := Some "ada@example.com";
     description := None; paymentMethodId := None; paymentIntentId := None;
     callbackUrl := None; channel := None; metadata := ∅ |}.

(** A negative amount, a two-letter currency, and a well-formed request of
    50.00 major units. *)
Definition negative : PaymentData := request (Some (-1)%float) (Some "usd").
Definition fifty : PaymentData := request (Some 50%float) (Some "ngn").

(** A request whose metadata carries its own [unified_payment_id]. *)
Definition tagged : PaymentData :=
  {| amount := Some 50%float; currency := Some "ngn";
     customerEmail := Some "ada@example.com";
     description := None; paymentMethodId := None; paymentIntentId := None;
     callbackUrl := None; channel := None;
     metadata := {[ "unified_payment_id" := VStr "order-17" ]} |}.

(** A request carrying both a payment-method token and an intent id. *)
Definition token_and_intent : PaymentData :=
  {| amount := Some 1000%float; currency := Some "USD";
     customerEmail := None; description := None;
     paymentMethodId := Some "pm_1"; paymentIntentId := Some "pi_9";
     callbackUrl := None; channel := None; metadata := ∅ |}.

End Sample.

(** * The rest of the adapter layer and its callers *)

(** ** Stripe refunds and status reads

    The two SDK endpoints that only [processRefund] and [getPaymentStatus]
    use are oracles of their own, and the calls made to them are logged
    beside the world. *)

(** The refund request as the Stripe adapter reads it. *)
Record StripeRefundData : Type := mkStripeRefundData {
  srd_paymentIntentId : option string;
  srd_amount : option float;
  srd_reason : option string
}.

(** Argument of [stripe.refunds.create]. *)
Record StripeRefundParams : Type := mkStripeRefundParams {
  srp_payment_intent : option string;
  srp_amount : option float;
  srp_reason : string;
  srp_metadata : gmap string value
}.

Record StripeRefund : Type := mkStripeRefund {
  rf_id : value;
  rf_status : value;
  rf_amount : value;
  rf_currency : value
}.

(** The fields [getPaymentStatus] reads of a retrieved intent. *)
Record RetrievedIntent : Type := mkRetrievedIntent {
  ri_status : value;
  ri_amount : value;
  ri_currency : value;
  ri_created : value;
  ri_last_payment_error : value
}.

Record StripeSdk : Type := mkStripeSdk {
  stripe_refunds_create : StripeRefundParams -> Completion StripeRefund;
  stripe_paymentIntents_retrieve : option string -> Completion RetrievedIntent
}.

Inductive SdkEvent : Type :=
| EvStripeRefundsCreate (params : StripeRefundParams)
| EvStripeRetrieve (id : option string).

(** The world together with the log of those SDK calls. *)
Record Ledger : Type := mkLedger {
  world : World;
  sdk_calls : list SdkEvent
}.

Definition MX (A : Type) : Type := Ledger -> Completion A * Ledger.

#[global] Instance MX_ret : MRet MX := fun A a l => (Normal a, l).

#[global] Instance MX_bind : MBind MX := fun A B f m l =>
  match m l with
  | (Normal a, l') => f a l'
  | (Throw e, l') => (Throw e, l')
  end.

Definition throwX {A} (e : JsError) : MX A := fun l => (Throw e, l).

Definition try_catchX {A} (body : MX A) (handler : JsError -> MX A) : MX A :=
  fun l =>
    match body l with
    | (Normal a, l') => (Normal a, l')
    | (Throw e, l') => handler e l'
    end.

(** Run a computation of the world inside the ledger. *)
Definition lift {A} (m : M A) : MX A := fun l =>
  let (c, w') := m (world l) in
  (c, {| world := w'; sdk_calls := sdk_calls l |}).

Definition emitX (e : SdkEvent) : MX unit := fun l =>
  (Normal tt, {| world := world l; sdk_calls := (sdk_calls l ++ [e])%list |}).

Definition settleX {A} (c : Completion A) : MX A := fun l => (c, l).

Definition fresh : Ledger := {| world := initial; sdk_calls := [] |}.

Module StripeAdapterMore.

Section Methods.
Variable rt : Runtime.
Variable sdk : StripeSdk.

Definition processRefund (refundData : StripeRefundData) : MX Envelope :=
  try_catchX
    ((if negb (truthy (srd_paymentIntentId refundData)) then
        throwX (new_Error "paymentIntentId is required for refunds")
      else mret tt);;
     id ← lift (BaseGatewayAdapter.generateUnifiedId rt StripeAdapter.gatewayName);
     let params :=
       {| srp_payment_intent := srd_paymentIntentId refundData;
          srp_amount :=
            if truthy (srd_amount refundData) then srd_amount refundData
            else None;
          srp_reason := or_else (srd_reason refundData) "requested_by_customer";
          srp_metadata :=
            <["unified_refund_id" := VStr id]>
              (<["reason" := of_str (srd_reason refundData)]> ∅) |} in
     emitX (EvStripeRefundsCreate params);;
     refund ← settleX (stripe_refunds_create sdk params);
     lift (BaseGatewayAdapter.formatResponse rt StripeAdapter.gatewayName
             (VObj [("refundId", rf_id refund);
                    ("status", rf_status refund);
                    ("amount", rf_amount refund);
                    ("currency", rf_currency refund)])))
    (fun error =>
       lift (BaseGatewayAdapter.formatError rt StripeAdapter.gatewayName error)).

Definition getPaymentStatus (paymentId : option string) : MX Envelope :=
  try_catchX
    (emitX (EvStripeRetrieve paymentId);;
     paymentIntent ← settleX (stripe_paymentIntents_retrieve sdk paymentId);
     lift (BaseGatewayAdapter.formatResponse rt StripeAdapter.gatewayName
             (VObj [("status", ri_status paymentIntent);
                    ("amount", ri_amount paymentIntent);
                    ("currency", ri_currency paymentIntent);
                    ("created", ri_created paymentIntent);
                    ("lastPaymentError", ri_last_payment_error paymentIntent)])))
    (fun error =>
       lift (BaseGatewayAdapter.formatError rt StripeAdapter.gatewayName error)).
End Methods.

End StripeAdapterMore.

(** The refund request as a caller hands it to either adapter: each adapter
    reads its own reference field. *)
Record RefundRequest : Type := mkRefundRequest {
  rr_paymentIntentId : option string;
  rr_transactionReference : option string;
  rr_amount : option float;
  rr_reason : option string
}.

Definition processRefund (rt : Runtime) (sdk : StripeSdk) (a : Adapter)
    (refundData : RefundRequest) : MX Envelope :=
  match a with
  | Stripe _ =>
      StripeAdapterMore.processRefund rt sdk
        {| srd_paymentIntentId := rr_paymentIntentId refundData;
           srd_amount := rr_amount refundData;
           srd_reason := rr_reason refundData |}
  | Paystack c =>
      lift (PaystackAdapter.processRefund rt c
              {| transactionReference := rr_transactionReference refundData;
                 refund_amount := rr_amount refundData;
                 reason := rr_reason refundData |})
  end.

Definition getPaymentStatus (rt : Runtime) (sdk : StripeSdk) (a : Adapter)
    (paymentId : option string) : MX Envelope :=
  match a with
  | Stripe _ => StripeAdapterMore.getPaymentStatus rt sdk paymentId
  | Paystack c => lift (PaystackAdapter.getPaymentStatus rt c paymentId)
  end.

(** ** The route handlers that call the factory and the adapters

    Each handler is the final function of its route: what runs once the
    middleware before it (authentication, the express-validator chain) has
    passed the request on.  The verdict of the validator chain is an input,
    and so is the [gateway] member of a JSON body, which may be a value of
    any type; a gateway taken from the URL is a string.  A handler's answer
    is the status it sets and the JSON body it sends; what it prints on the
    console is left out. *)

(** [v.key] for the property names the handlers read (none of them is a
    built-in property of strings, numbers, booleans or arrays): a
    [TypeError] on [undefined] and [null]. *)
Definition get (v : value) (key : string) : Completion value :=
  match v with
  | VUndefined =>
      Throw (TypeError
        ("Cannot read properties of undefined (reading '" +:+ key +:+ "')"))
  | VNull =>
      Throw (TypeError
        ("Cannot read properties of null (reading '" +:+ key +:+ "')"))
  | VObj fields => Normal (assoc key fields)
  | _ => Normal VUndefined
  end.

(** [v === "text"] *)
Definition is_string (v : value) (text : string) : bool :=
  match v with VStr s => String.eqb s text | _ => false end.

(** The request headers the webhook routes read. *)
Record Headers : Type := mkHeaders {
  stripe_signature : option string;
  x_paystack_signature : option string
}.

(** An entry of [gatewayDetails] in GET /api/health/gateways. *)
Inductive GatewayDetail : Type :=
| DetailAvailable (capabilities : GatewayFactory.Capabilities)
    (supportedCurrencies supportedPaymentMethods : nat) (lastChecked : N)
| DetailError (error : string) (lastChecked : N).

Definition is_error (g : GatewayDetail) : bool :=
  match g with DetailError _ _ => true | DetailAvailable _ _ _ _ => false end.

Inductive Payload : Type :=
| JsonEnvelope (e : Envelope)
| JsonFailure (error : string) (message : option string)
    (details : option (list value))
| JsonWebhookAck (message : string) (gateway : option value)
    (eventType : value)
| JsonCapabilities (c : GatewayFactory.Capabilities)
| JsonReadiness (status message : string) (timestamp : N)
    (availableGateways : list string) (totalGateways : nat)
| JsonGatewayHealth (timestamp : N) (totalGateways : nat)
    (gateways : list (string * GatewayDetail)) (available errors : nat)
| JsonHealthFailure (error message : string) (timestamp : N).

Record Response : Type := mkResponse {
  res_status : N;
  res_json : Payload
}.

Definition failure (status : N) (error : string) : Response :=
  {| res_status := status; res_json := JsonFailure error None None |}.

Definition failure_with (status : N) (error : string) (e : JsError) : Response :=
  {| res_status := status;
     res_json := JsonFailure error (Some (message e)) None |}.

(** [res.status(result.success ? 200 : 400).json(result)] *)
Definition send_envelope (result : Envelope) : Response :=
  {| res_status := if success result then 200%N else 400%N;
     res_json := JsonEnvelope result |}.

Module Routes.

Section Handlers.
Variable rt : Runtime.
Variable sdk : StripeSdk.
(** The factory singleton, built when the module is loaded. *)
Variable gatewayFactory : GatewayFactory.Adapters.

(** POST /api/payments/process *)
Definition process (errors : list value) (gateway : value)
    (paymentData : PaymentData) : M Response :=
  try_catch
    (if (0 <? length errors)%nat then
       mret {| res_status := 400;
               res_json := JsonFailure "Validation failed" None (Some errors) |}
     else
       available ←
         settle (GatewayFactory.isGatewayAvailable rt gatewayFactory gateway);
       if negb available then
         text ← settle (template_value rt gateway);
         mret (failure 400
                 ("Gateway '" +:+ text +:+ "' is not available or not configured"))
       else
         gatewayAdapter ←
           settle (GatewayFactory.getGateway rt gatewayFactory gateway);
         result ← processPayment rt gatewayAdapter paymentData;
         mret (send_envelope result))
    (fun error => mret (failure_with 500 "Internal server error" error)).

(** POST /api/payments/intent *)
Definition intent (errors : list value) (gateway : value)
    (intentData : PaymentData) : M Response :=
  try_catch
    (if (0 <? length errors)%nat then
       mret {| res_status := 400;
               res_json := JsonFailure "Validation failed" None (Some errors) |}
     else
       available ←
         settle (GatewayFactory.isGatewayAvailable rt gatewayFactory gateway);
       if negb available then
         text ← settle (template_value rt gateway);
         mret (failure 400 ("Gateway '" +:+ text +:+ "' is not available"))
       else
         gatewayAdapter ←
           settle (GatewayFactory.getGateway rt gatewayFactory gateway);
         result ← createPaymentIntent rt gatewayAdapter intentData;
         mret (send_envelope result))
    (fun error => mret (failure_with 500 "Internal server error" error)).

(** POST /api/payments/refund *)
Definition refund (errors : list value) (gateway : value)
    (refundData : RefundRequest) : MX Response :=
  try_catchX
    (if (0 <? length errors)%nat then
       mret {| res_status := 400;
               res_json := JsonFailure "Validation failed" None (Some errors) |}
     else
       available ←
         settleX (GatewayFactory.isGatewayAvailable rt gatewayFactory gateway);
       if negb available then
         text ← settleX (template_value rt gateway);
         mret (failure 400 ("Gateway '" +:+ text +:+ "' is not available"))
       else
         gatewayAdapter ←
           settleX (GatewayFactory.getGateway rt gatewayFactory gateway);
         result ← processRefund rt sdk gatewayAdapter refundData;
         mret (send_envelope result))
    (fun error => mret (failure_with 500 "Internal server error" error)).

(** GET /api/payments/status/:gateway/:paymentId *)
Definition status (gateway paymentId : string) : MX Response :=
  try_catchX
    (available ←
       settleX (GatewayFactory.isGatewayAvailable rt gatewayFactory
                  (VStr gateway));
     if negb available then
       mret (failure 400 ("Gateway '" +:+ gateway +:+ "' is not available"))
     else
       gatewayAdapter ←
         settleX (GatewayFactory.getGateway rt gatewayFactory (VStr gateway));
       result ← getPaymentStatus rt sdk gatewayAdapter (Some paymentId);
       mret (send_envelope result))
    (fun error => mret (failure_with 500 "Internal server error" error)).

(** GET /api/payments/gateways/:gateway *)
Definition gateway_capabilities (gateway : string) : Response :=
  let answer : Completion Response :=
    available ←
      GatewayFactory.isGatewayAvailable rt gatewayFactory (VStr gateway);
    if negb available then
      mret (failure 404 ("Gateway '" +:+ gateway +:+ "' not found"))
    else
      capabilities ←
        GatewayFactory.getGatewayCapabilities rt gatewayFactory (VStr gateway);
      mret {| res_status := 200; res_json := JsonCapabilities capabilities |} in
  match answer with
  | Normal r => r
  | Throw error => failure_with 500 "Internal server error" error
  end.

(** GET /api/health/ready *)
Definition ready : M Response :=
  try_catch
    (let gatewayStatus :=
       GatewayFactory.validateConfiguration gatewayFactory (process_env rt) in
     let availableGateways :=
       GatewayFactory.getAvailableGateways gatewayFactory in
     let isReady := (0 <? length availableGateways)%nat in
     now ← read_clock rt;
     if isReady then
       mret {| res_status := 200;
               res_json :=
                 JsonReadiness "ready" "System is ready to handle requests"
                   now availableGateways (length availableGateways) |}
     else
       mret {| res_status := 503;
               res_json :=
                 JsonReadiness "not_ready" "No payment gateways are available"
                   now [] 0 |})
    (fun error =>
       mret {| res_status := 503;
               res_json :=
                 JsonFailure "System health check failed"
                   (Some (message error)) None |}).

(** The loop of GET /api/health/gateways over the registered names, each
    in its own [try]. *)
Fixpoint health_loop (names : list string)
    (gatewayDetails : list (string * GatewayDetail))
    : M (list (string * GatewayDetail)) :=
  match names with
  | [] => mret gatewayDetails
  | gatewayName :: rest =>
      detail ←
        try_catch
          (gateway ←
             settle (GatewayFactory.getGateway rt gatewayFactory
                       (VStr gatewayName));
           capabilities ←
             settle (GatewayFactory.getGatewayCapabilities rt gatewayFactory
                       (VStr gatewayName));
           now ← read_clock rt;
           mret (DetailAvailable capabilities
                   (length (getSupportedCurrencies gateway))
                   (length (getSupportedPaymentMethods gateway)) now))
          (fun error =>
             now ← read_clock rt;
             mret (DetailError (message error) now));
      health_loop rest (gatewayDetails ++ [(gatewayName, detail)])%list
  end.

(** GET /api/health/gateways *)
Definition health_gateways : M Response :=
  try_catch
    (let availableGateways :=
       GatewayFactory.getAvailableGateways gatewayFactory in
     gatewayDetails ← health_loop availableGateways [];
     now ← read_clock rt;
     mret {| res_status := 200;
             res_json :=
               JsonGatewayHealth now (length availableGateways) gatewayDetails
                 (length availableGateways)
                 (length (List.filter (fun g => is_error (snd g))
                            gatewayDetails)) |})
    (fun error =>
       now ← read_clock rt;
       mret {| res_status := 500;
               res_json :=
                 JsonHealthFailure "Failed to get gateway health status"
                   (message error) now |}).

(** The [switch] of the Stripe webhook route: the cases that print
    [event.data.object.id] read that chain of properties. *)
Definition stripe_switch (cases : list string) (event : value) : M unit :=
  type ← settle (get event "type");
  if existsb (is_string type) cases then
    data ← settle (get event "data");
    object ← settle (get data "object");
    _ ← settle (get object "id");
    mret tt
  else mret tt.

(** The [switch] of the Paystack webhook route, whose cases print
    [event.data.reference]. *)
Definition paystack_switch (cases : list string) (event : value) : M unit :=
  kind ← settle (get event "event");
  if existsb (is_string kind) cases then
    data ← settle (get event "data");
    _ ← settle (get data "reference");
    mret tt
  else mret tt.

Definition event_of (verification : WebhookResult) : value :=
  match event verification with Some ev => ev | None => VUndefined end.

(** POST /api/webhooks/stripe *)
Definition stripe_webhook (headers : Headers) (body : value) : M Response :=
  try_catch
    (let signature := stripe_signature headers in
     if negb (truthy signature) then
       mret (failure 400 "No signature provided")
     else
       stripeAdapter ← settle (GatewayFactory.getGateway rt gatewayFactory (VStr "stripe"));
       verification ←
         verifyWebhook rt stripeAdapter
           {| body := body; signature := signature |};
       if negb (isValid verification) then
         mret (failure 400 "Invalid webhook signature")
       else
         let event := event_of verification in
         stripe_switch
           ["payment_intent.succeeded"; "payment_intent.payment_failed";
            "charge.refunded"] event;;
         eventType ← settle (get event "type");
         mret {| res_status := 200;
                 res_json :=
                   JsonWebhookAck "Webhook processed successfully" None
                     eventType |})
    (fun error => mret (failure_with 400 "Webhook processing failed" error)).

(** POST /api/webhooks/paystack *)
Definition paystack_webhook (headers : Headers) (body : value) : M Response :=
  try_catch
    (let signature := x_paystack_signature headers in
     if negb (truthy signature) then
       mret (failure 400 "No signature provided")
     else
       paystackAdapter ←
         settle (GatewayFactory.getGateway rt gatewayFactory (VStr "paystack"));
       verification ←
         verifyWebhook rt paystackAdapter
           {| body := body; signature := signature |};
       if negb (isValid verification) then
         mret (failure 400 "Invalid webhook signature")
       else
         let event := event_of verification in
         paystack_switch
           ["charge.success"; "charge.failed"; "transfer.success";
            "refund.processed"] event;;
         eventType ← settle (get event "event");
         mret {| res_status := 200;
                 res_json :=
                   JsonWebhookAck "Webhook processed successfully" None
                     eventType |})
    (fun error => mret (failure_with 400 "Webhook processing failed" error)).

(** POST /api/webhooks/unified *)
Definition unified_webhook (headers : Headers) (body : value) : M Response :=
  try_catch
    (gateway ←
       match body with
       | VUndefined =>
           throw (TypeError
             "Cannot destructure property 'gateway' of 'req.body' as it is undefined.")
       | VNull =>
           throw (TypeError
             "Cannot destructure property 'gateway' of 'req.body' as it is null.")
       | _ => mret (prop "gateway" body)
       end;
     if negb (truthy gateway) then
       mret (failure 400 "Gateway parameter is required")
     else
       available ←
         settle (GatewayFactory.isGatewayAvailable rt gatewayFactory gateway);
       if negb available then
         text ← settle (template_value rt gateway);
         mret (failure 400 ("Gateway '" +:+ text +:+ "' is not supported"))
       else
         gatewayAdapter ←
           settle (GatewayFactory.getGateway rt gatewayFactory gateway);
         let signature :=
           if is_string gateway "stripe" then stripe_signature headers
           else if is_string gateway "paystack" then x_paystack_signature headers
           else None in
         if negb (truthy signature) then
           mret (failure 400 "No signature provided")
         else
           verification ←
             verifyWebhook rt gatewayAdapter
               {| body := body; signature := signature |};
           if negb (isValid verification) then
             mret (failure 400 "Invalid webhook signature")
           else
             let event := event_of verification in
             (if is_string gateway "stripe" then
                stripe_switch
                  ["payment_intent.succeeded"; "payment_intent.payment_failed"]
                  event
              else if is_string gateway "paystack" then
                paystack_switch ["charge.success"; "charge.failed"] event
              else mret tt);;
             type ← settle (get event "type");
             eventType ←
               (if truthy type then mret type else settle (get event "event"));
             mret {| res_status := 200;
                     res_json :=
                       JsonWebhookAck "Unified webhook processed successfully"
                         (Some gateway) eventType |})
    (fun error => mret (failure_with 400 "Webhook processing failed" error)).
End Handlers.

End Routes.

(** ** The error-handling middleware *)

(** [hay.includes(needle)] *)
Fixpoint includes (needle hay : string) : bool :=
  if String.prefix needle hay then true
  else
    match hay with
    | EmptyString => false
    | String _ rest => includes needle rest
    end.

(** [values.map((val) => val.message)]: the reads are made in order, and the
    first entry that is [undefined] or [null] raises the [TypeError]. *)
Fixpoint map_message (values : list value) : Completion (list value) :=
  match values with
  | [] => Normal []
  | val :: rest =>
      message ← get val "message";
      messages ← map_message rest;
      mret (message :: messages)
  end.

(** The text of each element as [Array.prototype.join] takes it:
    [undefined] and [null] give the empty text, every other element is
    converted to a string. *)
Fixpoint element_texts (rt : Runtime) (items : list value)
    : Completion (list string) :=
  match items with
  | [] => Normal []
  | item :: rest =>
      text ←
        match item with
        | VUndefined | VNull => Normal ""
        | _ => template_value rt item
        end;
      texts ← element_texts rt rest;
      mret (text :: texts)
  end.

(** [items.join(sep)] on an array of values *)
Definition join_values (rt : Runtime) (sep : string) (items : list value)
    : Completion string :=
  texts ← element_texts rt items;
  mret (join sep texts).

Module ErrorHandler.

(** What the handler reads of the error it is given, each property as the
    value the read yields ([undefined] when the error has no such
    property).  [e_errors] is the array [Object.values(err.errors)], and
    [None] when [err.errors] is [undefined] or [null], on which
    [Object.values] throws.  [statusCode] and [code] are own enumerable
    properties where the error has them, so the copy [{...err}] holds
    them. *)
Record Err : Type := mkErr {
  e_name : value;
  e_code : value;
  e_type : value;
  e_message : value;
  e_statusCode : value;
  e_errors : option (list value);
  e_stack : value
}.

(** The working copy [error]: of [{...err}] only these three properties are
    read afterwards. *)
Record Working : Type := mkWorking {
  w_message : value;
  w_statusCode : value;
  w_code : value
}.

(** The JSON body passed to [res.json]; [body_stack] is present only when
    the spread adds it. *)
Record Body : Type := mkBody {
  body_message : value;
  body_code : value;
  body_stack : option value;
  body_timestamp : N;
  body_path : string;
  body_method : string
}.

(** The call [res.status(statusCode).json(body)] the handler ends with. *)
Record Sent : Type := mkSent {
  sent_status : value;
  sent_body : Body
}.

Definition name_is (err : Err) (text : string) : bool :=
  is_string (e_name err) text.

Definition type_is (err : Err) (text : string) : bool :=
  is_string (e_type err) text.

(** [err.code === 11000] *)
Definition code_is_11000 (err : Err) : bool :=
  match e_code err with VNum f => PrimFloat.eqb f 11000%float | _ => false end.

(** [Object.values(err.errors).map((val) => val.message).join(", ")] *)
Definition validation_message (rt : Runtime) (err : Err) : Completion string :=
  match e_errors err with
  | Some values =>
      messages ← map_message values;
      join_values rt ", " messages
  | None => Throw (TypeError "Cannot convert undefined or null to object")
  end.

(** [err.message && err.message.includes("Paystack")]: strings and arrays
    have the method, other truthy values do not. *)
Definition mentions_Paystack (err : Err) : Completion bool :=
  if negb (truthy (e_message err)) then Normal false
  else
    match e_message err with
    | VStr text => Normal (includes "Paystack" text)
    | VArr items => Normal (existsb (fun item => is_string item "Paystack") items)
    | _ => Throw (TypeError "err.message.includes is not a function")
    end.

(** The chain of [if] statements, each of which may replace [error]. *)
Definition classify (rt : Runtime) (err : Err) : Completion Working :=
  let error :=
    {| w_message := e_message err; w_statusCode := e_statusCode err;
       w_code := e_code err |} in
  let error :=
    if name_is err "CastError" then
      {| w_message := VStr "Resource not found";
         w_statusCode := VNum 404%float; w_code := VUndefined |}
    else error in
  let error :=
    if code_is_11000 err then
      {| w_message := VStr "Duplicate field value entered";
         w_statusCode := VNum 400%float; w_code := VUndefined |}
    else error in
  error ←
    (if name_is err "ValidationError" then
       text ← validation_message rt err;
       mret {| w_message := VStr text; w_statusCode := VNum 400%float;
               w_code := VUndefined |}
     else mret error);
  let error :=
    if name_is err "JsonWebTokenError" then
      {| w_message := VStr "Invalid token"; w_statusCode := VNum 401%float;
         w_code := VUndefined |}
    else error in
  let error :=
    if name_is err "TokenExpiredError" then
      {| w_message := VStr "Token expired"; w_statusCode := VNum 401%float;
         w_code := VUndefined |}
    else error in
  let error :=
    if type_is err "StripeCardError" then
      {| w_message := e_message err; w_statusCode := VNum 400%float;
         w_code := VStr "CARD_ERROR" |}
    else error in
  let error :=
    if type_is err "StripeInvalidRequestError" then
      {| w_message := e_message err; w_statusCode := VNum 400%float;
         w_code := VStr "INVALID_REQUEST" |}
    else error in
  let error :=
    if type_is err "StripeAPIError" then
      {| w_message := VStr "Payment service error";
         w_statusCode := VNum 500%float;
         w_code := VStr "PAYMENT_SERVICE_ERROR" |}
    else error in
  paystack ← mentions_Paystack err;
  let error :=
    if (paystack : bool) then
      {| w_message := e_message err; w_statusCode := VNum 400%float;
         w_code := VStr "PAYSTACK_ERROR" |}
    else error in
  mret error.

(** [errorHandler(err, req, res, next)] for a request to [url] by [method],
    up to its closing call [res.status(statusCode).json(body)], whose two
    arguments are the result: one clock reading for the console record, one
    for the body. *)
Definition errorHandler (rt : Runtime) (err : Err) (url method : string)
    : M Sent :=
  _ ← read_clock rt;
  error ← settle (classify rt err);
  let statusCode :=
    if truthy (w_statusCode error) then w_statusCode error
    else VNum 500%float in
  let message :=
    if truthy (w_message error) then w_message error
    else VStr "Internal Server Error" in
  now ← read_clock rt;
  mret {| sent_status := statusCode;
          sent_body :=
            {| body_message := message;
               body_code :=
                 if truthy (w_code error) then w_code error
                 else VStr "INTERNAL_ERROR";
               body_stack :=
                 if bool_decide
                      (getenv (process_env rt) "NODE_ENV" = Some "development")
                 then Some (e_stack err) else None;
               body_timestamp := now;
               body_path := url;
               body_method := method |} |}.

(** [new AppError(message, statusCode, code)] as the handler sees it;
    [message] is the text the [Error] constructor stores, an omitted [code]
    is [null], and [captured] is the stack text that
    [Error.captureStackTrace] records. *)
Definition AppError (message : string) (statusCode code : value)
    (captured : string) : Err :=
  {| e_name := VStr "Error"; e_code := code; e_type := VUndefined;
     e_message := VStr message; e_statusCode := statusCode;
     e_errors := None; e_stack := VStr captured |}.

(** [handleValidationError(err)] *)
Definition handleValidationError (rt : Runtime) (err : Err)
    (captured : string) : Completion Err :=
  match e_errors err with
  | Some values =>
      errors ← map_message values;
      text ← join_values rt ". " errors;
      mret (AppError ("Invalid input data. " +:+ text) (VNum 400%float)
              (VStr "VALIDATION_ERROR") captured)
  | None => Throw (TypeError "Cannot convert undefined or null to object")
  end.

End ErrorHandler.

(** ** More sample inputs *)

Module More.

(** A Paystack payment that carries the payer's address under [email]
    instead of [customerEmail], as the client example of the repository
    sends it. *)
Definition no_email : PaymentData :=
  {| amount := Some 5000%float; currency := Some "NGN";
     customerEmail := None; description := None;
     paymentMethodId := None; paymentIntentId := None;
     callbackUrl := Some "https://yourapp.com/callback"; channel := None;
     metadata := {[ "orderId" := VStr "order_123" ]} |}.

(** A payment restricted to the card channel. *)
Definition card_only : PaymentData :=
  {| amount := Some 50%float; currency := Some "ngn";
     customerEmail := Some "ada@example.com"; description := None;
     paymentMethodId := None; paymentIntentId := None;
     callbackUrl := None; channel := Some "card"; metadata := ∅ |}.

Definition refund_error : JsError :=
  {| message := "No such payment_intent: 'pi_404'";
     code := Some "resource_missing"; details := None |}.

Definition sdk : StripeSdk :=
  {| stripe_refunds_create := fun _ =>
       Normal {| rf_id := VStr "re_1"; rf_status := VStr "succeeded";
                 rf_amount := VNum 400%float; rf_currency := VStr "usd" |};
     stripe_paymentIntents_retrieve := fun id =>
       match id with
       | Some "pi_1" =>
           Normal {| ri_status := VStr "succeeded"; ri_amount := VNum 1000%float;
                     ri_currency := VStr "usd"; ri_created := VNum 1730000000%float;
                     ri_last_payment_error := VNull |}
       | _ => Throw refund_error
       end |}.


(** Both secrets set, and only the Stripe secret set. *)
Definition env_both : gmap string string :=
  {[ "STRIPE_SECRET_KEY" := "sk_test"; "PAYSTACK_SECRET_KEY" := "sk_test";
     "STRIPE_WEBHOOK_SECRET" := "whsec" ]}.

Definition env_stripe : gmap string string :=
  {[ "STRIPE_SECRET_KEY" := "sk_test" ]}.

Definition charge_success : value :=
  VObj [("event", VStr "charge.success");
        ("data", VObj [("reference", VStr "ref_1")])].

Definition signed (sig : string) : Headers :=
  {| stripe_signature := Some sig; x_paystack_signature := Some sig |}.

Definition unsigned : Headers :=
  {| stripe_signature := None; x_paystack_signature := None |}.

(** What [makeRequest] raises when the transport fails, wrapped by a route
    as an operational error of status 502. *)
Definition gateway_timeout : ErrorHandler.Err :=
  ErrorHandler.AppError "Paystack request failed: timeout" (VNum 502%float)
    VNull
    "Error: Paystack request failed: timeout".

(** A request body naming the gateway with a capital letter. *)
Definition capitalised : value :=
  VObj [("gateway", VStr "Stripe"); ("type", VStr "payment_intent.succeeded")].

End More.


(** The error member of the envelope [formatError] builds. *)
Definition error_body (e : JsError) : ErrorBody :=
  {| err_message := message e;
     err_code := or_else (code e) "UNKNOWN_ERROR";
     err_details :=
       match details e with
       | Some d => if truthy d then d else VNull
       | None => VNull
       end |}.
(** * Properties *)

Import BaseGatewayAdapter.

Ltac run :=
  cbv [mbind M_bind mret M_ret try_catch throw emit settle read_clock
       draw_random36 generateUnifiedId formatResponse formatError call_method];
  cbn [fst snd clock_reads random_draws trace].

(** ** Shared facts about the base helpers *)

Lemma generateUnifiedId_run rt g w :
  generateUnifiedId rt g w =
  (Normal (unified_id rt g (Date_now rt (clock_reads w))
             (Math_random_toString36 rt (random_draws w))),
   advance 1 1 w).
Proof. reflexivity. Qed.

Lemma formatError_run rt g e w :
  formatError rt g e w =
  (Normal
     (UnifiedError (toLowerCase rt g)
        {| err_message := message e;
           err_code := or_else (code e) "UNKNOWN_ERROR";
           err_details :=
             match details e with
             | Some d => if truthy d then d else VNull
             | None => VNull
             end |}
        (Date_now rt (clock_reads w))
        (unified_id rt g (Date_now rt (S (clock_reads w)))
           (Math_random_toString36 rt (random_draws w)))),
   advance 2 1 w).
Proof. reflexivity. Qed.

Lemma formatResponse_run rt g r w :
  formatResponse rt g r w =
  (Normal
     (UnifiedResponse (toLowerCase rt g) r (Date_now rt (clock_reads w))
        (unified_id rt g (Date_now rt (S (clock_reads w)))
           (Math_random_toString36 rt (random_draws w)))),
   advance 2 1 w).
Proof. reflexivity. Qed.

(** The validator accepts exactly the requests whose [amount] and [currency]
    are truthy and whose amount is not [<= 0]. *)
Lemma validatePaymentData_valid d :
  valid (validatePaymentData d) = true <->
  truthy (amount d) = true /\ truthy (currency d) = true /\
  PrimFloat.leb (ToNumber (amount d)) 0%float = false.
Proof.
  unfold validatePaymentData, field_truthy.
  cbn [List.filter String.eqb Ascii.eqb Bool.eqb].
  destruct (truthy (amount d)), (truthy (currency d)); cbn;
    try (split; [discriminate | intros (? & ? & ?); discriminate]).
  destruct (PrimFloat.leb _ _); cbn; split; auto; try discriminate.
  intros (? & ? & ?); discriminate.
Qed.

Lemma validatePaymentData_rejects d :
  (exists x, amount d = Some x /\ PrimFloat.leb x 0%float = true) \/
  currency d = None ->
  valid (validatePaymentData d) = false.
Proof.
  intros H. destruct (valid (validatePaymentData d)) eqn:E; [|reflexivity].
  apply validatePaymentData_valid in E as (_ & Hc & Ha).
  destruct H as [(x & Hx & Hle) | Hn].
  - rewrite Hx in Ha. cbn in Ha. congruence.
  - rewrite Hn in Hc. discriminate.
Qed.

(** A request the validator rejects is answered by [formatError] on the
    "Validation failed" error, by both methods of both adapters. *)
Lemma rejected_request_run rt a d w :
  valid (validatePaymentData d) = false ->
  let e := new_Error
             ("Validation failed: " +:+ join ", " (errors (validatePaymentData d))) in
  processPayment rt a d w = formatError rt (gatewayName a) e w /\
  createPaymentIntent rt a d w = formatError rt (gatewayName a) e w.
Proof.
  intros H e. subst e.
  destruct a as [c | c]; cbn [processPayment createPaymentIntent gatewayName];
    unfold StripeAdapter.processPayment, StripeAdapter.createPaymentIntent,
      PaystackAdapter.processPayment, PaystackAdapter.createPaymentIntent;
    rewrite H; split; reflexivity.
Qed.

(** ** C1 *)

(** C1. A payment request whose amount is [<= 0] or whose currency is
    missing is answered, by [processPayment] and [createPaymentIntent] of
    either adapter, with a unified error ([success] false), and the log of
    transport calls is left as it was. *)
Theorem C1_invalid_request_fails_before_transport
    (rt : Runtime) (a : Adapter) (d : PaymentData) (w : World) :
  (exists x, amount d = Some x /\ PrimFloat.leb x 0%float = true) \/
  currency d = None ->
  (exists e, result (processPayment rt a d w) = Normal e /\ success e = false) /\
  calls_after (processPayment rt a d w) = trace w /\
  (exists e, result (createPaymentIntent rt a d w) = Normal e /\ success e = false) /\
  calls_after (createPaymentIntent rt a d w) = trace w.
Proof.
  intros H. apply validatePaymentData_rejects in H.
  destruct (rejected_request_run rt a d w H) as [Hp Hc].
  rewrite Hp, Hc, formatError_run. unfold result, calls_after. cbn.
  repeat split; eexists; split; reflexivity.
Qed.

Lemma C1_witness :
  ((exists x, amount Sample.negative = Some x /\ PrimFloat.leb x 0%float = true) \/
   currency Sample.negative = None) /\
  (exists e, result (processPayment Sample.rt Sample.stripe Sample.negative initial)
             = Normal e /\ success e = false) /\
  calls_after (processPayment Sample.rt Sample.stripe Sample.negative initial) = [].
Proof.
  assert (H : (exists x, amount Sample.negative = Some x /\
                         PrimFloat.leb x 0%float = true) \/
              currency Sample.negative = None).
  { left. exists (-1)%float. split; reflexivity. }
  split; [exact H|].
  destruct (C1_invalid_request_fails_before_transport
              Sample.rt Sample.stripe Sample.negative initial H)
    as (Hp & Ht & _).
  split; assumption.
Defined.

(** ** C4 *)

Lemma validation_errors_named d :
  Forall (fun m => In m ["amount is required"; "currency is required";
                         "amount must be greater than 0"])
         (errors (validatePaymentData d)).
Proof.
  unfold validatePaymentData, field_truthy.
  cbn [List.filter String.eqb Ascii.eqb Bool.eqb].
  destruct (truthy (amount d)), (truthy (currency d)); cbn;
    try destruct (PrimFloat.leb _ _); cbn;
    repeat first [apply List.Forall_nil | apply List.Forall_cons; [cbn; auto 6|]].
Qed.

Lemma validation_errors_nonempty d :
  valid (validatePaymentData d) = false ->
  (0 <? length (errors (validatePaymentData d)))%nat = true.
Proof.
  unfold validatePaymentData, field_truthy.
  cbn [List.filter String.eqb Ascii.eqb Bool.eqb].
  destruct (truthy (amount d)), (truthy (currency d)); cbn;
    try destruct (PrimFloat.leb _ _); cbn; congruence.
Qed.

(** C4, as the code has it.  A request rejected by the shared validator is
    answered with a unified error whose code is ["UNKNOWN_ERROR"], the code
    [formatError] gives to every error that carries none, whose details are
    [null], and whose message is ["Validation failed: "] followed by the
    comma-separated validator messages; that list is not empty and each entry
    names the offending field.  No transport call is made. *)
Theorem C4_validation_failure_is_unknown_error
    (rt : Runtime) (a : Adapter) (d : PaymentData) (w : World) :
  valid (validatePaymentData d) = false ->
  let body :=
    {| err_message :=
         "Validation failed: " +:+ join ", " (errors (validatePaymentData d));
       err_code := "UNKNOWN_ERROR";
       err_details := VNull |} in
  (exists ts id,
      processPayment rt a d w =
      (Normal (UnifiedError (toLowerCase rt (gatewayName a)) body ts id),
       advance 2 1 w)) /\
  (exists ts id,
      createPaymentIntent rt a d w =
      (Normal (UnifiedError (toLowerCase rt (gatewayName a)) body ts id),
       advance 2 1 w)) /\
  (0 <? length (errors (validatePaymentData d)))%nat = true /\
  Forall (fun m => In m ["amount is required"; "currency is required";
                         "amount must be greater than 0"])
         (errors (validatePaymentData d)) /\
  (forall e w', truthy (code e) = false ->
      exists b ts id,
        formatError rt (gatewayName a) e w' =
        (Normal (UnifiedError (toLowerCase rt (gatewayName a)) b ts id),
         advance 2 1 w') /\
        err_code b = "UNKNOWN_ERROR").
Proof.
  intros H body.
  destruct (rejected_request_run rt a d w H) as [Hp Hc].
  rewrite Hp, Hc, formatError_run.
  split; [do 2 eexists; reflexivity|].
  split; [do 2 eexists; reflexivity|].
  split; [exact (validation_errors_nonempty d H)|].
  split; [exact (validation_errors_named d)|].
  intros e w' He. rewrite formatError_run. do 3 eexists. split; [reflexivity|].
  cbn. unfold or_else. destruct (code e) as [c|]; [|reflexivity].
  cbn in He. rewrite He. reflexivity.
Qed.

Lemma C4_witness :
  valid (validatePaymentData Sample.negative) = false /\
  exists ts id,
    processPayment Sample.rt Sample.stripe Sample.negative initial =
    (Normal
       (UnifiedError "stripeadapter"
          {| err_message := "Validation failed: amount must be greater than 0";
             err_code := "UNKNOWN_ERROR";
             err_details := VNull |} ts id),
     advance 2 1 initial).
Proof.
  split; [reflexivity|].
  exact (proj1 (C4_validation_failure_is_unknown_error
                  Sample.rt Sample.stripe Sample.negative initial eq_refl)).
Defined.

(** C4 as worded does not hold: the request with amount -1 is rejected
    locally, and the error it gets carries ["UNKNOWN_ERROR"], not
    ["VALIDATION_ERROR"]. *)
Lemma C4_counterexample :
  valid (validatePaymentData Sample.negative) = false /\
  result (processPayment Sample.rt Sample.stripe Sample.negative initial) =
    Normal
      (UnifiedError "stripeadapter"
         {| err_message := "Validation failed: amount must be greater than 0";
            err_code := "UNKNOWN_ERROR";
            err_details := VNull |}
         1730000000000 "unified_stripeadapter_m2r1bz7l_4fzyo") /\
  "UNKNOWN_ERROR" <> "VALIDATION_ERROR".
Proof. split; [reflexivity|]. split; [reflexivity|]. discriminate. Qed.

(** ** Base-36 rendering: what [toString36] prints reads back *)

Lemma value36_digit36 d : (d < 36)%N -> value36 (digit36 d) = Some d.
Proof.
  intros H. destruct d as [|p]; [reflexivity|].
  repeat (destruct p as [p|p|]; try reflexivity; try lia).
Qed.

Lemma append_cons c s1 s2 : String c s1 +:+ s2 = String c (s1 +:+ s2).
Proof. reflexivity. Qed.

Lemma append_empty_r s : s +:+ EmptyString = s.
Proof. induction s as [|c s IH]; [reflexivity|]. rewrite append_cons, IH. reflexivity. Qed.

Lemma parse36_go_app s1 s2 a :
  parse36_go (s1 +:+ s2) a =
  match parse36_go s1 a with Some a' => parse36_go s2 a' | None => None end.
Proof.
  revert a. induction s1 as [|c s1 IH]; intros a; [reflexivity|].
  rewrite append_cons. cbn [parse36_go].
  destruct (value36 c); [apply IH | reflexivity].
Qed.

Lemma append_assoc s1 s2 s3 : (s1 +:+ s2) +:+ s3 = s1 +:+ (s2 +:+ s3).
Proof.
  induction s1 as [|c s1 IH]; [reflexivity|].
  rewrite !append_cons, IH. reflexivity.
Qed.

Lemma toString36_go_S k n acc :
  toString36_go (S k) n acc =
  if (n / 36 =? 0)%N then String (digit36 (n mod 36)) acc
  else toString36_go k (n / 36) (String (digit36 (n mod 36)) acc).
Proof. reflexivity. Qed.

Lemma toString36_go_spec k : forall n acc,
  (n < 36 ^ N.of_nat (S k))%N ->
  exists c ds m,
    toString36_go (S k) n acc = String c ds +:+ acc /\
    forall a, parse36_go (String c ds) a = Some (a * m + n)%N.
Proof.
  induction k as [|k IH]; intros n acc Hn.
  - assert (n < 36)%N by (cbn in Hn; lia).
    rewrite toString36_go_S, N.div_small, N.mod_small by lia. cbn [N.eqb].
    exists (digit36 n), EmptyString, 36%N. split; [reflexivity|].
    intros a. cbn [parse36_go]. rewrite value36_digit36 by lia. reflexivity.
  - rewrite toString36_go_S. destruct (N.eqb_spec (n / 36) 0) as [E|E].
    + assert (n < 36)%N by (apply N.div_small_iff in E; lia).
      rewrite N.mod_small by lia.
      exists (digit36 n), EmptyString, 36%N. split; [reflexivity|].
      intros a. cbn [parse36_go]. rewrite value36_digit36 by lia. reflexivity.
    + assert (Hq : (n / 36 < 36 ^ N.of_nat (S k))%N).
      { apply N.Div0.div_lt_upper_bound.
        rewrite <- N.pow_succ_r'. rewrite <- Nat2N.inj_succ. exact Hn. }
      destruct (IH (n / 36)%N (String (digit36 (n mod 36)) acc) Hq)
        as (c & ds & m & Heq & Hparse).
      exists c, (ds +:+ String (digit36 (n mod 36)) EmptyString), (m * 36)%N.
      split.
      * rewrite Heq, !append_cons, append_assoc. reflexivity.
      * intros a.
        change (String c (ds +:+ String (digit36 (n mod 36)) EmptyString))
          with (String c ds +:+ String (digit36 (n mod 36)) EmptyString).
        rewrite parse36_go_app, Hparse. cbn [parse36_go].
        rewrite value36_digit36 by (apply N.mod_lt; lia).
        f_equal. pose proof (N.div_mod n 36). lia.
Qed.

Lemma pos_lt_pow36 p : (N.pos p < 36 ^ N.of_nat (Pos.size_nat p))%N.
Proof.
  induction p as [p IH|p IH|]; cbn [Pos.size_nat];
    rewrite Nat2N.inj_succ, N.pow_succ_r'; lia.
Qed.

Lemma toString36_fuel n : (n < 36 ^ N.of_nat (S (N.size_nat n)))%N.
Proof.
  rewrite Nat2N.inj_succ, N.pow_succ_r'.
  destruct n as [|p]; [cbn; lia|].
  pose proof (pos_lt_pow36 p). cbn [N.size_nat]. lia.
Qed.

Lemma parse36_toString36 n : parse36 (toString36 n) = Some n.
Proof.
  unfold toString36.
  destruct (toString36_go_spec (N.size_nat n) n EmptyString (toString36_fuel n))
    as (c & ds & m & Heq & Hparse).
  rewrite Heq, append_empty_r. unfold parse36.
  rewrite Hparse. f_equal.
Qed.

Lemma parse36_go_digits s : forall a r, parse36_go s a = Some r -> digits36 s = true.
Proof.
  induction s as [|c s IH]; intros a r H; [reflexivity|].
  cbn [parse36_go digits36] in *. destruct (value36 c); [eauto | discriminate].
Qed.

Lemma toString36_digits n : digits36 (toString36 n) = true.
Proof.
  pose proof (parse36_toString36 n) as H. unfold parse36 in H.
  destruct (toString36 n) eqn:E; [discriminate|].
  eapply parse36_go_digits; eauto.
Qed.

Lemma toString36_inj n m : toString36 n = toString36 m -> n = m.
Proof.
  intros H. pose proof (parse36_toString36 n) as Hn.
  rewrite H, parse36_toString36 in Hn. congruence.
Qed.

(** A text of base-36 digits followed by an underscore splits in one way. *)
Lemma underscore_split a : forall c b d,
  digits36 a = true -> digits36 c = true ->
  a +:+ String "_" b = c +:+ String "_" d -> a = c /\ b = d.
Proof.
  induction a as [|x a IH]; intros [|y c] b d Ha Hc H.
  - injection H as ->. auto.
  - rewrite append_cons in H. injection H as <- _. discriminate.
  - rewrite append_cons in H. injection H as -> _. discriminate.
  - rewrite !append_cons in H. injection H as -> H.
    cbn [digits36] in Ha, Hc. destruct (value36 y); [|discriminate].
    destruct (IH c b d Ha Hc H) as [-> ->]. auto.
Qed.

Lemma append_inj_l s x y : s +:+ x = s +:+ y -> x = y.
Proof.
  induction s as [|c s IH]; [auto|].
  rewrite !append_cons. intros H. injection H as H. auto.
Qed.

Lemma unified_id_inj rt g t1 p1 t2 p2 :
  unified_id rt g t1 p1 = unified_id rt g t2 p2 <->
  t1 = t2 /\ substr 2 5 p1 = substr 2 5 p2.
Proof.
  unfold unified_id. split.
  - intros H. do 3 apply append_inj_l in H.
    apply underscore_split in H; try apply toString36_digits.
    destruct H as [H1 H2]. split; [apply toString36_inj, H1 | exact H2].
  - intros [-> ->]. reflexivity.
Qed.

Lemma length_substring_le s : forall n m, String.length (String.substring n m s) <= m.
Proof.
  induction s as [|c s IH]; intros [|n] [|m]; cbn; try lia.
  - specialize (IH 0 m). lia.
  - apply IH.
  - apply IH.
Qed.

Lemma length_substring_eq s : forall n m,
  n + m <= String.length s -> String.length (String.substring n m s) = m.
Proof.
  induction s as [|c s IH]; intros [|n] [|m]; cbn; try lia.
  - intros H. rewrite IH; lia.
  - intros H. apply IH. lia.
  - intros H. apply IH. lia.
Qed.

(** ** C9 *)

(** C9, as the code has it.  [generateUnifiedId] returns
    [unified_<gateway>_<timestamp>_<suffix>] where [<gateway>] is the
    lower-cased adapter name, the very text the envelopes carry in their
    [gateway] field; [<timestamp>] is the clock reading in base 36 (it reads
    back to that reading); and [<suffix>] is what [substr(2, 5)] keeps of the
    printed random draw: at most 5 characters, exactly 5 when the draw prints
    at least 5 digits after ["0."].  Success and error envelopes carry an id
    of this form. *)
Theorem C9_unified_id_shape (rt : Runtime) (a : Adapter) (w : World) :
  let now := Date_now rt (clock_reads w) in
  let printed := Math_random_toString36 rt (random_draws w) in
  let suffix := substr 2 5 printed in
  generateUnifiedId rt (gatewayName a) w =
    (Normal ("unified_" +:+ toLowerCase rt (gatewayName a) +:+ "_"
               +:+ toString36 now +:+ "_" +:+ suffix),
     advance 1 1 w) /\
  parse36 (toString36 now) = Some now /\
  digits36 (toString36 now) = true /\
  String.length suffix <= 5 /\
  (7 <= String.length printed -> String.length suffix = 5) /\
  (forall r, exists e,
      result (formatResponse rt (gatewayName a) r w) = Normal e /\
      success e = true /\
      gateway e = toLowerCase rt (gatewayName a) /\
      unifiedId e =
        unified_id rt (gatewayName a) (Date_now rt (S (clock_reads w))) printed) /\
  (forall err, exists e,
      result (formatError rt (gatewayName a) err w) = Normal e /\
      success e = false /\
      gateway e = toLowerCase rt (gatewayName a) /\
      unifiedId e =
        unified_id rt (gatewayName a) (Date_now rt (S (clock_reads w))) printed).
Proof.
  intros now printed suffix.
  split; [reflexivity|].
  split; [apply parse36_toString36|].
  split; [apply toString36_digits|].
  split; [apply length_substring_le|].
  split; [intros H; apply length_substring_eq; lia|].
  split.
  - intros r. rewrite formatResponse_run. eexists. repeat split.
  - intros err. rewrite formatError_run. eexists. repeat split.
Qed.

(** C9 as worded does not hold: when the random source yields 0.5, printed
    ["0.i"], the suffix is the single character ["i"], and no reading of the
    id as [unified_paystackadapter_<timestamp>_<suffix>] has a suffix of 5
    characters. *)
Lemma C9_counterexample :
  Math_random_toString36 Sample.rt 1 = "0.i" /\
  result (generateUnifiedId Sample.rt (gatewayName Sample.paystack)
            (advance 0 1 initial))
    = Normal "unified_paystackadapter_m2r1bz7k_i" /\
  String.length (substr 2 5 "0.i") = 1 /\
  (forall timestamp suffix,
      "unified_paystackadapter_m2r1bz7k_i" =
        "unified_paystackadapter_" +:+ timestamp +:+ "_" +:+ suffix ->
      String.length suffix <> 5).
Proof.
  split; [reflexivity|]. split; [reflexivity|]. split; [reflexivity|].
  intros ts suffix H.
  apply (append_inj_l "unified_paystackadapter_") in H.
  repeat (destruct ts as [|? ts];
          [ change (EmptyString +:+ "_" +:+ suffix) with (String "_" suffix) in H;
            first [discriminate H | injection H as <-; cbn; lia]
          | rewrite append_cons in H;
            first [discriminate H | injection H as _ H] ]).
Qed.

(** ** The Paystack paths, step by step *)

Lemma truthy_currency_some d :
  truthy (currency d) = true -> exists c, currency d = Some c.
Proof. destruct (currency d); [eauto | discriminate]. Qed.

Ltac simp :=
  cbv beta iota;
  cbn [fst snd trace clock_reads random_draws negb orb unifiedId gateway
       success gatewayResponse fr_body td_amount td_reference td_metadata
       rp_amount Nat.add message].

Ltac settle_fetch rt :=
  match goal with
  | |- context [fetch rt ?r] =>
      exists r;
      destruct (fetch rt r) as [err | [|] st [reply | err]] eqn:F; simp;
      [ | destruct (reply_data reply) as [rec|] eqn:R; simp | | | ]
  end.

Ltac close_case :=
  unfold unified_id; simp; repeat split; try reflexivity;
  try (intros; first [discriminate | congruence | simplify_eq; reflexivity]).

Lemma paystack_processPayment_run rt c d w :
  valid (validatePaymentData d) = true ->
  truthy (customerEmail d) = true ->
  exists req t e,
    result (PaystackAdapter.processPayment rt c d w) = Normal e /\
    calls_after (PaystackAdapter.processPayment rt c d w)
      = (trace w ++ [EvFetch req])%list /\
    fr_body req = Some (BodyTransaction t) /\
    td_amount t = PrimFloat.mul (ToNumber (amount d)) 100%float /\
    td_reference t =
      unified_id rt PaystackAdapter.gatewayName (Date_now rt (clock_reads w))
        (Math_random_toString36 rt (random_draws w)) /\
    td_metadata t =
      payment_metadata
        (unified_id rt PaystackAdapter.gatewayName
           (Date_now rt (1 + clock_reads w))
           (Math_random_toString36 rt (1 + random_draws w)))
        (customerEmail d) (metadata d) /\
    unifiedId e =
      unified_id rt PaystackAdapter.gatewayName (Date_now rt (3 + clock_reads w))
        (Math_random_toString36 rt (2 + random_draws w)) /\
    (forall st reply rec,
        fetch rt req = FetchResolves true st (Normal reply) ->
        reply_data reply = Some rec ->
        success e = true /\
        gatewayResponse e =
          Some (VObj [("transactionId", pd_id rec);
                      ("reference", pd_reference rec);
                      ("authorizationUrl", pd_authorization_url rec);
                      ("accessCode", pd_access_code rec);
                      ("status", VStr "pending");
                      ("amount", of_num (amount d));
                      ("currency", of_str (currency d))])).
Proof.
  intros Hv He.
  apply validatePaymentData_valid in Hv as Hv'. destruct Hv' as (_ & Hc & _).
  destruct (truthy_currency_some d Hc) as [cur Hcur].
  unfold PaystackAdapter.processPayment, result, calls_after.
  rewrite Hv, He, Hcur.
  unfold PaystackAdapter.makeRequest, PaystackAdapter.data_of. run.
  cbn [negb String.eqb Ascii.eqb Bool.eqb orb].
  settle_fetch rt; eexists _, _; close_case.
Qed.

Lemma paystack_createPaymentIntent_run rt c d w :
  valid (validatePaymentData d) = true ->
  truthy (customerEmail d) = true ->
  exists req t e,
    result (PaystackAdapter.createPaymentIntent rt c d w) = Normal e /\
    calls_after (PaystackAdapter.createPaymentIntent rt c d w)
      = (trace w ++ [EvFetch req])%list /\
    fr_body req = Some (BodyTransaction t) /\
    td_amount t = PrimFloat.mul (ToNumber (amount d)) 100%float /\
    td_reference t =
      unified_id rt PaystackAdapter.gatewayName (Date_now rt (clock_reads w))
        (Math_random_toString36 rt (random_draws w)) /\
    td_metadata t =
      payment_metadata
        (unified_id rt PaystackAdapter.gatewayName
           (Date_now rt (1 + clock_reads w))
           (Math_random_toString36 rt (1 + random_draws w)))
        (customerEmail d) (metadata d) /\
    unifiedId e =
      unified_id rt PaystackAdapter.gatewayName (Date_now rt (3 + clock_reads w))
        (Math_random_toString36 rt (2 + random_draws w)) /\
    (forall st reply rec,
        fetch rt req = FetchResolves true st (Normal reply) ->
        reply_data reply = Some rec ->
        success e = true /\
        gatewayResponse e =
          Some (VObj [("transactionId", pd_id rec);
                      ("reference", pd_reference rec);
                      ("authorizationUrl", pd_authorization_url rec);
                      ("accessCode", pd_access_code rec);
                      ("status", VStr "pending");
                      ("amount", of_num (amount d));
                      ("currency", of_str (currency d))])).
Proof.
  intros Hv He.
  apply validatePaymentData_valid in Hv as Hv'. destruct Hv' as (_ & Hc & _).
  destruct (truthy_currency_some d Hc) as [cur Hcur].
  unfold PaystackAdapter.createPaymentIntent, result, calls_after.
  rewrite Hv, He, Hcur.
  unfold PaystackAdapter.makeRequest, PaystackAdapter.data_of. run.
  cbn [negb String.eqb Ascii.eqb Bool.eqb orb].
  settle_fetch rt; eexists _, _; close_case.
Qed.

Lemma paystack_processRefund_run rt c r w :
  truthy (transactionReference r) = true ->
  exists req p e,
    result (PaystackAdapter.processRefund rt c r w) = Normal e /\
    calls_after (PaystackAdapter.processRefund rt c r w)
      = (trace w ++ [EvFetch req])%list /\
    fr_body req = Some (BodyRefund p) /\
    rp_amount p =
      (if truthy (refund_amount r)
       then Some (PrimFloat.mul (ToNumber (refund_amount r)) 100%float)
       else None) /\
    (forall st reply rec,
        fetch rt req = FetchResolves true st (Normal reply) ->
        reply_data reply = Some rec ->
        success e = true /\
        prop "amount" <$> gatewayResponse e =
          Some (VNum (PrimFloat.div (ToNumber (pd_amount rec)) 100%float))).
Proof.
  intros Hr.
  unfold PaystackAdapter.processRefund, result, calls_after.
  rewrite Hr.
  unfold PaystackAdapter.makeRequest, PaystackAdapter.data_of. run.
  cbn [negb String.eqb Ascii.eqb Bool.eqb orb].
  settle_fetch rt; eexists _, _; close_case.
Qed.

Lemma paystack_getPaymentStatus_run rt c ref w :
  truthy ref = true ->
  exists req e,
    result (PaystackAdapter.getPaymentStatus rt c ref w) = Normal e /\
    calls_after (PaystackAdapter.getPaymentStatus rt c ref w)
      = (trace w ++ [EvFetch req])%list /\
    fr_method req = "GET" /\
    fr_body req = None /\
    (forall st reply rec,
        fetch rt req = FetchResolves true st (Normal reply) ->
        reply_data reply = Some rec ->
        success e = true /\
        prop "amount" <$> gatewayResponse e =
          Some (VNum (PrimFloat.div (ToNumber (pd_amount rec)) 100%float))).
Proof.
  intros Hr.
  unfold PaystackAdapter.getPaymentStatus, result, calls_after.
  rewrite Hr.
  unfold PaystackAdapter.makeRequest, PaystackAdapter.data_of. run.
  cbn [negb String.eqb Ascii.eqb Bool.eqb orb].
  settle_fetch rt; eexists _; close_case.
Qed.

(** ** C2 *)

(** C2. The Paystack adapter sends [amount * 100] on the payment and
    intent paths (and answers with the caller's own amount, in major units),
    sends [amount * 100] on the refund path when an amount is given, and
    reports [data.amount / 100] on the refund and status paths; 50 is sent as
    5000 and 5000 is reported as 50. *)
Theorem C2_paystack_converts_units
    (rt : Runtime) (c : PaystackAdapter.Config) :
  (forall d w,
      valid (validatePaymentData d) = true ->
      truthy (customerEmail d) = true ->
      (exists req t e,
          result (PaystackAdapter.processPayment rt c d w) = Normal e /\
          calls_after (PaystackAdapter.processPayment rt c d w)
            = (trace w ++ [EvFetch req])%list /\
          fr_body req = Some (BodyTransaction t) /\
          td_amount t = PrimFloat.mul (ToNumber (amount d)) 100%float /\
          (forall st reply rec,
              fetch rt req = FetchResolves true st (Normal reply) ->
              reply_data reply = Some rec ->
              success e = true /\
              prop "amount" <$> gatewayResponse e = Some (of_num (amount d)))) /\
      (exists req t e,
          result (PaystackAdapter.createPaymentIntent rt c d w) = Normal e /\
          calls_after (PaystackAdapter.createPaymentIntent rt c d w)
            = (trace w ++ [EvFetch req])%list /\
          fr_body req = Some (BodyTransaction t) /\
          td_amount t = PrimFloat.mul (ToNumber (amount d)) 100%float /\
          (forall st reply rec,
              fetch rt req = FetchResolves true st (Normal reply) ->
              reply_data reply = Some rec ->
              success e = true /\
              prop "amount" <$> gatewayResponse e = Some (of_num (amount d))))) /\
  (forall r w,
      truthy (transactionReference r) = true ->
      exists req p e,
        result (PaystackAdapter.processRefund rt c r w) = Normal e /\
        calls_after (PaystackAdapter.processRefund rt c r w)
          = (trace w ++ [EvFetch req])%list /\
        fr_body req = Some (BodyRefund p) /\
        rp_amount p =
          (if truthy (refund_amount r)
           then Some (PrimFloat.mul (ToNumber (refund_amount r)) 100%float)
           else None) /\
        (forall st reply rec,
            fetch rt req = FetchResolves true st (Normal reply) ->
            reply_data reply = Some rec ->
            success e = true /\
            prop "amount" <$> gatewayResponse e =
              Some (VNum (PrimFloat.div (ToNumber (pd_amount rec)) 100%float)))) /\
  (forall ref w,
      truthy ref = true ->
      exists req e,
        result (PaystackAdapter.getPaymentStatus rt c ref w) = Normal e /\
        calls_after (PaystackAdapter.getPaymentStatus rt c ref w)
          = (trace w ++ [EvFetch req])%list /\
        (forall st reply rec,
            fetch rt req = FetchResolves true st (Normal reply) ->
            reply_data reply = Some rec ->
            success e = true /\
            prop "amount" <$> gatewayResponse e =
              Some (VNum (PrimFloat.div (ToNumber (pd_amount rec)) 100%float)))) /\
  PrimFloat.mul (ToNumber (Some 50%float)) 100%float = 5000%float /\
  PrimFloat.div (ToNumber (Some 5000%float)) 100%float = 50%float.
Proof.
  split; [|split; [|split; [|split; reflexivity]]].
  - intros d w Hv He. split.
    + destruct (paystack_processPayment_run rt c d w Hv He)
        as (req & t & e & Hres & Hcalls & Hbody & Hamount & _ & _ & _ & Hok).
      exists req, t, e. split_and!; auto.
      intros st reply rec F R. destruct (Hok st reply rec F R) as [Hs Hr].
      rewrite Hr. auto.
    + destruct (paystack_createPaymentIntent_run rt c d w Hv He)
        as (req & t & e & Hres & Hcalls & Hbody & Hamount & _ & _ & _ & Hok).
      exists req, t, e. split_and!; auto.
      intros st reply rec F R. destruct (Hok st reply rec F R) as [Hs Hr].
      rewrite Hr. auto.
  - intros r w Hr. apply paystack_processRefund_run, Hr.
  - intros ref w Hr.
    destruct (paystack_getPaymentStatus_run rt c ref w Hr)
      as (req & e & Hres & Hcalls & _ & _ & Hok).
    exists req, e. auto.
Qed.

(** On the sample process: a payment of 50.00 is posted as 5000, and the
    provider's 5000 is read back as 50. *)
Lemma C2_witness :
  List.map (fmap td_amount ∘ sent_transaction)
    (calls_after (PaystackAdapter.processPayment Sample.rt Sample.paystack_config
                    Sample.fifty initial))
    = [Some 5000%float] /\
  (exists e,
      result (PaystackAdapter.getPaymentStatus Sample.rt Sample.paystack_config
                (Some "ref_1") initial) = Normal e /\
      prop "amount" <$> gatewayResponse e = Some (VNum 50%float)).
Proof.
  pose proof (C2_paystack_converts_units Sample.rt Sample.paystack_config)
    as (Hpay & _ & Hstatus & _).
  split.
  - destruct (Hpay Sample.fifty initial eq_refl eq_refl)
      as [(req & t & e & _ & Hcalls & Hbody & Hamount & _) _].
    rewrite Hcalls. cbn. unfold sent_transaction. rewrite Hbody. cbn.
    rewrite Hamount. reflexivity.
  - destruct (Hstatus (Some "ref_1") initial eq_refl)
      as (req & e & Hres & _ & Hok).
    exists e. split; [exact Hres|].
    exact (proj2 (Hok 200%N _ Sample.record eq_refl eq_refl)).
Defined.

(** ** C10 *)

Lemma payment_metadata_unified_payment_id id email md :
  payment_metadata id email md !! "unified_payment_id" =
  Some (default (VStr id) (md !! "unified_payment_id")).
Proof.
  unfold payment_metadata. rewrite lookup_union, lookup_insert_eq.
  destruct (md !! "unified_payment_id"); reflexivity.
Qed.

(** C10, as the code has it.  On a request that passes the local checks,
    [processPayment] and [createPaymentIntent] of the Paystack adapter post
    one transaction whose [reference] is the id of a first invocation of
    [generateUnifiedId]; its [metadata.unified_payment_id] is the id of a
    second invocation, unless the caller's metadata has an entry of that
    name, which takes its place; and the envelope returned carries the id of
    a third invocation.  The envelope id equals the posted reference only
    when both invocations read the same clock value and keep the same random
    suffix. *)
Theorem C10_three_separate_ids
    (rt : Runtime) (c : PaystackAdapter.Config) (d : PaymentData) (w : World) :
  valid (validatePaymentData d) = true ->
  truthy (customerEmail d) = true ->
  let id := fun k j =>
    unified_id rt PaystackAdapter.gatewayName (Date_now rt (k + clock_reads w))
      (Math_random_toString36 rt (j + random_draws w)) in
  let separate := fun run : Completion Envelope * World =>
    exists req t e,
      result run = Normal e /\
      calls_after run = (trace w ++ [EvFetch req])%list /\
      fr_body req = Some (BodyTransaction t) /\
      td_reference t = id 0 0 /\
      td_metadata t !! "unified_payment_id" =
        Some (default (VStr (id 1 1)) (metadata d !! "unified_payment_id")) /\
      unifiedId e = id 3 2 /\
      (unifiedId e = td_reference t <->
       Date_now rt (3 + clock_reads w) = Date_now rt (clock_reads w) /\
       substr 2 5 (Math_random_toString36 rt (2 + random_draws w)) =
       substr 2 5 (Math_random_toString36 rt (random_draws w))) in
  separate (PaystackAdapter.processPayment rt c d w) /\
  separate (PaystackAdapter.createPaymentIntent rt c d w).
Proof.
  intros Hv He id separate. subst separate id. cbv beta. split.
  - destruct (paystack_processPayment_run rt c d w Hv He)
      as (req & t & e & Hres & Hcalls & Hbody & _ & Href & Hmd & Hid & _).
    exists req, t, e. rewrite Hmd, Hid, Href.
    split_and!; auto using payment_metadata_unified_payment_id.
    apply unified_id_inj.
  - destruct (paystack_createPaymentIntent_run rt c d w Hv He)
      as (req & t & e & Hres & Hcalls & Hbody & _ & Href & Hmd & Hid & _).
    exists req, t, e. rewrite Hmd, Hid, Href.
    split_and!; auto using payment_metadata_unified_payment_id.
    apply unified_id_inj.
Qed.

(** On the sample process the three ids are pairwise different. *)
Lemma C10_witness :
  valid (validatePaymentData Sample.fifty) = true /\
  truthy (customerEmail Sample.fifty) = true /\
  exists req t e,
    result (PaystackAdapter.processPayment Sample.rt Sample.paystack_config
              Sample.fifty initial) = Normal e /\
    calls_after (PaystackAdapter.processPayment Sample.rt Sample.paystack_config
                   Sample.fifty initial) = [EvFetch req] /\
    fr_body req = Some (BodyTransaction t) /\
    td_reference t = "unified_paystackadapter_m2r1bz7k_4fzyo" /\
    td_metadata t !! "unified_payment_id" =
      Some (VStr "unified_paystackadapter_m2r1bz7l_i") /\
    unifiedId e = "unified_paystackadapter_m2r1bz7n_k2tm9".
Proof.
  split; [reflexivity|]. split; [reflexivity|].
  destruct (C10_three_separate_ids Sample.rt Sample.paystack_config
              Sample.fifty initial eq_refl eq_refl)
    as [(req & t & e & Hres & Hcalls & Hbody & Href & Hmd & Hid & _) _].
  exists req, t, e. repeat split; assumption.
Defined.

(** C10 as worded does not hold: when the caller's metadata has its own
    [unified_payment_id], that entry is what the provider receives, not an
    id made by [generateUnifiedId]. *)
Lemma C10_counterexample :
  metadata Sample.tagged !! "unified_payment_id" = Some (VStr "order-17") /\
  List.map (fun ev => t ← sent_transaction ev;
                      td_metadata t !! "unified_payment_id")
    (calls_after (PaystackAdapter.processPayment Sample.rt
                    Sample.paystack_config Sample.tagged initial))
    = [Some (VStr "order-17")] /\
  List.map (fmap td_reference ∘ sent_transaction)
    (calls_after (PaystackAdapter.processPayment Sample.rt
                    Sample.paystack_config Sample.tagged initial))
    = [Some "unified_paystackadapter_m2r1bz7k_4fzyo"].
Proof. repeat split; vm_compute; reflexivity. Qed.

(** ** C5 *)

(** C5. On a request that passes validation, Stripe's [processPayment]
    makes exactly one SDK call, chosen in this order: with a payment-method
    token it creates an intent with [confirm: true] and that token, whether
    or not an intent id is present as well; otherwise, with an intent id, it
    confirms that intent; otherwise it creates an intent without [confirm]
    and without a payment method. *)
Theorem C5_stripe_branch_order
    (rt : Runtime) (d : PaymentData) (w : World) :
  valid (validatePaymentData d) = true ->
  (truthy (paymentMethodId d) = true ->
   exists p,
     calls_after (StripeAdapter.processPayment rt d w)
       = (trace w ++ [EvStripeCreate p])%list /\
     sc_confirm p = Some true /\
     sc_payment_method p = paymentMethodId d /\
     sc_amount p = amount d) /\
  (truthy (paymentMethodId d) = false ->
   forall intent,
     paymentIntentId d = Some intent -> truthy intent = true ->
     calls_after (StripeAdapter.processPayment rt d w)
       = (trace w ++ [EvStripeConfirm intent])%list) /\
  (truthy (paymentMethodId d) = false ->
   truthy (paymentIntentId d) = false ->
   exists p,
     calls_after (StripeAdapter.processPayment rt d w)
       = (trace w ++ [EvStripeCreate p])%list /\
     sc_confirm p = None /\
     sc_payment_method p = None /\
     sc_amount p = amount d).
Proof.
  intros Hv.
  apply validatePaymentData_valid in Hv as Hv'. destruct Hv' as (_ & Hc & _).
  destruct (truthy_currency_some d Hc) as [cur Hcur].
  unfold StripeAdapter.processPayment, StripeAdapter.create,
    StripeAdapter.confirm, calls_after.
  rewrite Hv, Hcur. split; [|split].
  - intros Hpm. rewrite Hpm. cbn [negb]. run.
    match goal with
    | |- context [stripe_paymentIntents_create rt ?p] =>
        exists p; destruct (stripe_paymentIntents_create rt p)
    end; simp; auto.
  - intros Hpm intent Hpi Hti. rewrite Hpm, Hpi, Hti. cbn [negb]. run.
    destruct (stripe_paymentIntents_confirm rt intent); reflexivity.
  - intros Hpm Hpi. rewrite Hpm.
    assert (Hgo :
      match paymentIntentId d with
      | Some intent => truthy intent
      | None => false
      end = false) by exact Hpi.
    destruct (paymentIntentId d) as [intent|]; [rewrite Hgo|]; cbn [negb]; run;
      match goal with
      | |- context [stripe_paymentIntents_create rt ?p] =>
          exists p; destruct (stripe_paymentIntents_create rt p)
      end; simp; auto.
Qed.

(** A request with both a token and an intent id: the token wins. *)
Lemma C5_witness :
  valid (validatePaymentData Sample.token_and_intent) = true /\
  truthy (paymentMethodId Sample.token_and_intent) = true /\
  truthy (paymentIntentId Sample.token_and_intent) = true /\
  exists p,
    calls_after (StripeAdapter.processPayment Sample.rt
                   Sample.token_and_intent initial) = [EvStripeCreate p] /\
    sc_confirm p = Some true /\
    sc_payment_method p = Some "pm_1".
Proof.
  split; [reflexivity|]. split; [reflexivity|]. split; [reflexivity|].
  destruct (proj1 (C5_stripe_branch_order Sample.rt Sample.token_and_intent
                     initial eq_refl) eq_refl)
    as (p & Hcalls & Hconfirm & Hpm & _).
  exists p. auto.
Defined.

(** ** C8 *)



(** ** C3 *)

(** C3. [verifyWebhook] of either adapter always completes normally, with
    [{isValid: true, event}] or [{isValid: false, error}].  Without a
    signature the verdict is invalid with the message "No signature
    provided" and the world is untouched: no cryptographic and no network
    call.  An exception of the Stripe SDK's [constructEvent] becomes an
    invalid verdict carrying its message. *)
Theorem C3_verifyWebhook_never_throws
    (rt : Runtime) (a : Adapter) (d : WebhookData) (w : World) :
  exists r,
    result (verifyWebhook rt a d w) = Normal r /\
    (isValid r = true /\ is_Some (event r) /\ error r = None \/
     isValid r = false /\ event r = None /\ is_Some (error r)) /\
    (truthy (signature d) = false ->
     r = {| isValid := false; event := None;
            error := Some "No signature provided" |} /\
     snd (verifyWebhook rt a d w) = w) /\
    (forall c sig e,
        a = Stripe c -> signature d = Some sig -> truthy sig = true ->
        stripe_webhooks_constructEvent rt (body d) sig
          (StripeAdapter.webhookSecret c) = Throw e ->
        r = {| isValid := false; event := None; error := Some (message e) |}).
Proof.
  destruct a as [c | c]; unfold verifyWebhook, result.
  - unfold StripeAdapter.verifyWebhook.
    destruct (signature d) as [sig|] eqn:Hs;
      [destruct (truthy sig) eqn:Ht|]; run.
    + destruct (stripe_webhooks_constructEvent rt (body d) sig
                  (StripeAdapter.webhookSecret c)) as [ev | e] eqn:Hc;
        eexists; (split; [reflexivity|]); cbn.
      * split; [left; eauto|]. split; [cbn in *; congruence|].
        intros c' sig' e' Ha Hsig _ Hthrow. simplify_eq. congruence.
      * split; [right; eauto|]. split; [cbn in *; congruence|].
        intros c' sig' e' Ha Hsig _ Hthrow. simplify_eq. congruence.
    + eexists; (split; [reflexivity|]); cbn.
      split; [right; eauto|]. split; [auto|].
      intros c' sig' e' _ Hsig Ht'. congruence.
    + eexists; (split; [reflexivity|]); cbn.
      split; [right; eauto|]. split; [auto|]. intros; discriminate.
  - unfold PaystackAdapter.verifyWebhook.
    destruct (truthy (signature d)) eqn:Ht; cbn [negb]; run.
    + destruct (PaystackAdapter.secretKey c) as [key|];
        [destruct (JSON_stringify rt (body d)) as [text|];
         [destruct (bool_decide
                      (signature d = Some (hmac_sha512_hex rt key text)))|]|];
        cbn [negb]; eexists; (split; [reflexivity|]); cbn;
        (split; [first [left; by eauto | right; by eauto]|]);
        (split; [intros; discriminate|]); intros; discriminate.
    + eexists; (split; [reflexivity|]); cbn.
      split; [right; eauto|]. split; [auto|]. intros; discriminate.
Qed.

(** ** C6 *)

Import GatewayFactory.

Lemma Map_has_get key (m : Adapters) :
  Map_has key m = true <-> exists a, Map_get key m = Some a.
Proof.
  induction m as [|[k b] m IH]; cbn.
  - split; [discriminate | intros [a H]; discriminate].
  - destruct (String.eqb k key); cbn; [split; eauto | exact IH].
Qed.

Lemma lower_upper_char c : lower_char (upper_char c) = lower_char c.
Proof. destruct c as [[] [] [] [] [] [] [] []]; reflexivity. Qed.

Lemma lower_lower_char c : lower_char (lower_char c) = lower_char c.
Proof. destruct c as [[] [] [] [] [] [] [] []]; reflexivity. Qed.

Lemma ascii_lower_char c :
  (nat_of_ascii (lower_char c) <? 128)%nat = (nat_of_ascii c <? 128)%nat.
Proof. destruct c as [[] [] [] [] [] [] [] []]; reflexivity. Qed.

Lemma ascii_upper_char c :
  (nat_of_ascii (upper_char c) <? 128)%nat = (nat_of_ascii c <? 128)%nat.
Proof. destruct c as [[] [] [] [] [] [] [] []]; reflexivity. Qed.

Lemma ascii_only_lower s : ascii_only (map_string lower_char s) = ascii_only s.
Proof.
  induction s as [|c s IH]; [reflexivity|].
  cbn [map_string ascii_only]. rewrite ascii_lower_char, IH. reflexivity.
Qed.

Lemma ascii_only_upper s : ascii_only (map_string upper_char s) = ascii_only s.
Proof.
  induction s as [|c s IH]; [reflexivity|].
  cbn [map_string ascii_only]. rewrite ascii_upper_char, IH. reflexivity.
Qed.

Lemma toLowerCase_toUpperCase rt s :
  ascii_only s = true ->
  toLowerCase rt (toUpperCase rt s) = toLowerCase rt s.
Proof.
  intros H. unfold toLowerCase, toUpperCase.
  rewrite H, ascii_only_upper, H. clear H.
  induction s as [|c s IH]; [reflexivity|].
  cbn [map_string]. rewrite lower_upper_char. f_equal. exact IH.
Qed.

Lemma toLowerCase_idempotent rt s :
  ascii_only s = true ->
  toLowerCase rt (toLowerCase rt s) = toLowerCase rt s.
Proof.
  intros H. unfold toLowerCase.
  rewrite H, ascii_only_lower, H. clear H.
  induction s as [|c s IH]; [reflexivity|].
  cbn [map_string]. rewrite lower_lower_char. f_equal. exact IH.
Qed.

(** On a string the two lookups agree: either the name is available and
    [getGateway] returns an adapter, or it is not and [getGateway] throws
    the lookup error. *)
Lemma getGateway_cases rt (this : Adapters) n :
  (isGatewayAvailable rt this (VStr n) = Normal true /\
   exists a, getGateway rt this (VStr n) = Normal a) \/
  (isGatewayAvailable rt this (VStr n) = Normal false /\
   getGateway rt this (VStr n) =
     Throw (new_Error ("Unsupported payment gateway: " +:+ n))).
Proof.
  unfold isGatewayAvailable, getGateway. cbn.
  destruct (Map_has (toLowerCase rt n) this) eqn:H; cbn [negb].
  - left. split; [reflexivity|].
    apply Map_has_get in H as [a Ha]. rewrite Ha. eauto.
  - right. auto.
Qed.

(** On anything but a string both lookups throw the [TypeError] of the
    method call they start with. *)
Lemma not_a_string_cases rt (this : Adapters) v :
  (forall s, v <> VStr s) ->
  exists msg,
    normalize rt v = Throw (TypeError msg) /\
    isGatewayAvailable rt this v = Throw (TypeError msg) /\
    getGateway rt this v = Throw (TypeError msg) /\
    getGatewayCapabilities rt this v = Throw (TypeError msg).
Proof.
  intros Hv. unfold getGatewayCapabilities, isGatewayAvailable, getGateway.
  destruct v; try (eexists; split_and!; reflexivity).
  now destruct (Hv s).
Qed.

(** The factory built from any environment holds only the keys ["stripe"]
    and ["paystack"], so the capability loop finds every key it asks for. *)
Lemma constructed_capabilities rt env :
  exists l, getAllGatewayCapabilities rt (constructor env) = Normal l.
Proof.
  unfold constructor, initializeAdapters.
  destruct (truthy (getenv env "STRIPE_SECRET_KEY")),
    (truthy (getenv env "PAYSTACK_SECRET_KEY")); eexists; reflexivity.
Qed.

(** C6, as the code has it.  On a string, [isGatewayAvailable] returns a
    boolean, true exactly when [getGateway] returns an adapter; otherwise
    [getGateway] throws "Unsupported payment gateway: <name>".  For a name
    of ASCII characters the answer does not depend on its letter case.  On
    a value that is not a string both methods throw the [TypeError] of
    [gatewayName.toLowerCase()], [isGatewayAvailable] included.  On a factory
    built by its constructor these two are the only errors that leave the
    factory: the lookup of an unavailable string name by [getGateway]
    (directly or through [getGatewayCapabilities]), and the [TypeError] of a
    name that is not a string. *)
Theorem C6_lookup_agrees_on_strings
    (rt : Runtime) (this : Adapters) (env env' : gmap string string)
    (n : string) :
  (exists b,
      isGatewayAvailable rt this (VStr n) = Normal b /\
      (b = true <-> exists a, getGateway rt this (VStr n) = Normal a) /\
      (b = false ->
       getGateway rt this (VStr n) =
         Throw (new_Error ("Unsupported payment gateway: " +:+ n)))) /\
  (ascii_only n = true ->
   isGatewayAvailable rt this (VStr (toUpperCase rt n))
     = isGatewayAvailable rt this (VStr n) /\
   isGatewayAvailable rt this (VStr (toLowerCase rt n))
     = isGatewayAvailable rt this (VStr n)) /\
  (forall v,
      (forall s, v <> VStr s) ->
      let msg :=
        match v with
        | VUndefined =>
            "Cannot read properties of undefined (reading 'toLowerCase')"
        | VNull => "Cannot read properties of null (reading 'toLowerCase')"
        | _ => "gatewayName.toLowerCase is not a function"
        end in
      isGatewayAvailable rt this v = Throw (TypeError msg) /\
      getGateway rt this v = Throw (TypeError msg) /\
      getGatewayCapabilities rt this v = Throw (TypeError msg) /\
      invoke rt this env' (CallIsGatewayAvailable v) = Throw (TypeError msg)) /\
  (forall call e,
      invoke rt (constructor env) env' call = Throw e ->
      exists m,
        (call = CallGetGateway m \/ call = CallIsGatewayAvailable m \/
         call = CallGetGatewayCapabilities m) /\
        ((exists s,
             m = VStr s /\
             call <> CallIsGatewayAvailable m /\
             isGatewayAvailable rt (constructor env) m = Normal false /\
             e = new_Error ("Unsupported payment gateway: " +:+ s)) \/
         ((forall s, m <> VStr s) /\
          isGatewayAvailable rt (constructor env) m = Throw e))).
Proof.
  split_and!.
  - destruct (getGateway_cases rt this n) as [[Ha Hg] | [Ha Hg]];
      rewrite Ha; eexists; (split; [reflexivity|]).
    + split; [tauto | discriminate].
    + split; [|auto]. split; [discriminate|]. intros [a H]. congruence.
  - intros Hn. unfold isGatewayAvailable. cbn [normalize].
    rewrite toLowerCase_toUpperCase, toLowerCase_idempotent by exact Hn.
    split; reflexivity.
  - intros v Hv msg. subst msg.
    destruct v; try (split_and!; reflexivity).
    now destruct (Hv s).
  - intros call e H.
    assert (Hstr : forall m,
      (exists s, m = VStr s) \/ (forall s, m <> VStr s)).
    { intros [| |b|f|s|items|fields]; try (right; intros s' [=]; fail).
      left. eauto. }
    destruct call as [m| |m|m| | |]; cbn [invoke] in H;
      try discriminate.
    + exists m. split; [auto|].
      destruct (Hstr m) as [[s ->] | Hm].
      * destruct (getGateway_cases rt (constructor env) s)
          as [[_ [a Hg]] | [Ha Hg]];
          rewrite Hg in H; cbn in H; [discriminate|].
        left. exists s. split_and!; [reflexivity | discriminate | exact Ha |
                                      congruence].
      * destruct (not_a_string_cases rt (constructor env) m Hm)
          as (msg & _ & Ha & Hg & _).
        rewrite Hg in H. cbn in H. right. split; [exact Hm|]. congruence.
    + exists m. split; [auto|].
      destruct (Hstr m) as [[s ->] | Hm].
      * destruct (getGateway_cases rt (constructor env) s)
          as [[Ha _] | [Ha _]]; rewrite Ha in H; discriminate.
      * destruct (not_a_string_cases rt (constructor env) m Hm)
          as (msg & _ & Ha & _).
        rewrite Ha in H. cbn in H. right. split; [exact Hm|]. congruence.
    + exists m. split; [auto|].
      destruct (Hstr m) as [[s ->] | Hm].
      * unfold getGatewayCapabilities in H.
        destruct (getGateway_cases rt (constructor env) s)
          as [[_ [a Hg]] | [Ha Hg]];
          rewrite Hg in H; cbn in H; [discriminate|].
        left. exists s. split_and!; [reflexivity | discriminate | exact Ha |
                                      congruence].
      * destruct (not_a_string_cases rt (constructor env) m Hm)
          as (msg & _ & Ha & _ & Hc).
        rewrite Hc in H. cbn in H. right. split; [exact Hm|]. congruence.
    + destruct (constructed_capabilities rt env) as [l Hl].
      rewrite Hl in H. discriminate.
Qed.

(** C6 as worded does not hold on a name that is not a string: for the
    array [["stripe"]] [isGatewayAvailable] throws. *)
Lemma C6_counterexample :
  isGatewayAvailable Sample.rt (constructor More.env_both)
    (VArr [VStr "stripe"])
  = Throw (TypeError "gatewayName.toLowerCase is not a function").
Proof. reflexivity. Qed.

(** ** C7 *)

(** C7. Whatever the environment and the registered adapters,
    [validateConfiguration] returns no errors and [isValid] true, lists the
    available gateways, and reports each missing secret key as a warning
    that names it; with no gateway configured both warnings are present and
    the verdict is still valid. *)
Theorem C7_validateConfiguration_only_warns
    (this : Adapters) (env : gmap string string) :
  let r := validateConfiguration this env in
  GatewayFactory.errors r = [] /\
  GatewayFactory.isValid r = true /\
  availableGateways r = getAvailableGateways this /\
  (truthy (getenv env "STRIPE_SECRET_KEY") = false ->
   In "Stripe is not configured (STRIPE_SECRET_KEY missing)" (warnings r)) /\
  (truthy (getenv env "PAYSTACK_SECRET_KEY") = false ->
   In "Paystack is not configured (PAYSTACK_SECRET_KEY missing)" (warnings r)) /\
  (truthy (getenv env "STRIPE_SECRET_KEY") = true ->
   truthy (getenv env "PAYSTACK_SECRET_KEY") = true ->
   warnings r = ["All supported gateways are configured"]) /\
  validateConfiguration (constructor ∅) ∅ =
    {| GatewayFactory.isValid := true;
       GatewayFactory.errors := [];
       warnings := ["Stripe is not configured (STRIPE_SECRET_KEY missing)";
                    "Paystack is not configured (PAYSTACK_SECRET_KEY missing)"];
       availableGateways := [] |}.
Proof.
  intros r. subst r. unfold validateConfiguration.
  cbn [GatewayFactory.errors GatewayFactory.isValid availableGateways warnings].
  split_and!; try reflexivity.
  - intros ->. cbn.
    destruct (truthy (getenv env "PAYSTACK_SECRET_KEY")); cbn; auto.
  - intros ->.
    destruct (truthy (getenv env "STRIPE_SECRET_KEY")); cbn; auto.
  - intros -> ->. reflexivity.
Qed.

(** ** Worked examples *)

(** Only the Stripe secret is set: one gateway, Paystack unavailable, and a
    warning that names the missing Paystack key. *)
Example only_stripe_configured :
  let env : gmap string string := {[ "STRIPE_SECRET_KEY" := "sk_test" ]} in
  let this := constructor env in
  totalGateways (getGatewayStats this env) = 1 /\
  getAvailableGateways this = ["stripe"] /\
  isGatewayAvailable Sample.rt this (VStr "PayStack") = Normal false /\
  isGatewayAvailable Sample.rt this (VStr "STRIPE") = Normal true /\
  warnings (validateConfiguration this env) =
    ["Paystack is not configured (PAYSTACK_SECRET_KEY missing)"].
Proof. repeat split; vm_compute; reflexivity. Qed.

(** The [gateway] field of an envelope is the lower-cased class name, not
    the registry key. *)
Example envelope_gateway_names :
  toLowerCase Sample.rt (gatewayName Sample.stripe) = "stripeadapter" /\
  toLowerCase Sample.rt (gatewayName Sample.paystack) = "paystackadapter".
Proof. split; reflexivity. Qed.

(** A webhook whose signature matches the recomputed digest is valid; one
    without a signature is refused before any call. *)
Example paystack_webhook_verdicts :
  PaystackAdapter.verifyWebhook Sample.rt Sample.paystack_config
    {| body := VObj [("event", VStr "charge.success")];
       signature := Some "5f1d" |} initial
  = (Normal (mkWebhookResult true
               (Some (VObj [("event", VStr "charge.success")])) None),
     {| clock_reads := 0; random_draws := 0;
        trace := [EvCreateHmac "sha512" (Some "sk_test"); EvHmacUpdate "{}"] |}) /\
  PaystackAdapter.verifyWebhook Sample.rt Sample.paystack_config
    {| body := VObj [("event", VStr "charge.success")];
       signature := None |} initial
  = (Normal (mkWebhookResult false None (Some "No signature provided")),
     initial).
Proof. split; reflexivity. Qed.

(** The conversion to minor units is the binary64 product: 50 becomes 5000
    exactly, while 19.99 becomes the double next below 1999. *)
Example minor_units_are_binary64_products :
  PrimFloat.mul 50%float 100%float = 5000%float /\
  PrimFloat.mul 0x1.3fd70a3d70a3dp+4%float 100%float
    = 0x1.f3bffffffffffp+10%float /\
  PrimFloat.ltb 0x1.f3bffffffffffp+10%float 1999%float = true.
Proof. repeat split; reflexivity. Qed.

(** * Further properties of the adapters *)

(** ** Local checks of the Paystack adapter *)

(** X1. A request that passes the shared validator but has no customer
    e-mail is refused by the Paystack adapter before any call, by
    [processPayment] and by [createPaymentIntent], each with its own
    message; the Stripe adapter does not ask for the e-mail and goes on to
    create the intent. *)
Theorem X1_paystack_requires_customer_email
    (rt : Runtime) (c : PaystackAdapter.Config) (d : PaymentData) (w : World) :
  valid (validatePaymentData d) = true ->
  truthy (customerEmail d) = false ->
  PaystackAdapter.processPayment rt c d w =
    formatError rt PaystackAdapter.gatewayName
      (new_Error "customerEmail is required for Paystack payments") w /\
  PaystackAdapter.createPaymentIntent rt c d w =
    formatError rt PaystackAdapter.gatewayName
      (new_Error "customerEmail is required for Paystack payment intents") w /\
  calls_after (PaystackAdapter.processPayment rt c d w) = trace w /\
  calls_after (PaystackAdapter.createPaymentIntent rt c d w) = trace w /\
  (exists p,
      calls_after (StripeAdapter.createPaymentIntent rt d w)
        = (trace w ++ [EvStripeCreate p])%list /\
      sc_metadata p !! "customer_email" =
        Some (default (of_str (customerEmail d))
                (metadata d !! "customer_email"))).
Proof.
  intros Hv He.
  assert (Hp : PaystackAdapter.processPayment rt c d w =
               formatError rt PaystackAdapter.gatewayName
                 (new_Error "customerEmail is required for Paystack payments") w).
  { unfold PaystackAdapter.processPayment. rewrite Hv, He. reflexivity. }
  assert (Hi : PaystackAdapter.createPaymentIntent rt c d w =
               formatError rt PaystackAdapter.gatewayName
                 (new_Error
                    "customerEmail is required for Paystack payment intents") w).
  { unfold PaystackAdapter.createPaymentIntent. rewrite Hv, He. reflexivity. }
  split_and!; try assumption.
  - rewrite Hp. reflexivity.
  - rewrite Hi. reflexivity.
  - apply validatePaymentData_valid in Hv as Hv'. destruct Hv' as (_ & Hc & _).
    destruct (truthy_currency_some d Hc) as [cur Hcur].
    unfold StripeAdapter.createPaymentIntent, StripeAdapter.create, calls_after.
    rewrite Hv, Hcur. cbn [negb]. run.
    match goal with
    | |- context [stripe_paymentIntents_create rt ?p] =>
        exists p; destruct (stripe_paymentIntents_create rt p)
    end; simp; (split; [reflexivity|]); cbn [sc_metadata];
      unfold payment_metadata;
      rewrite lookup_union, lookup_insert_ne, lookup_insert_eq by discriminate;
      destruct (metadata d !! "customer_email"); reflexivity.
Qed.

Lemma X1_witness :
  valid (validatePaymentData More.no_email) = true /\
  truthy (customerEmail More.no_email) = false /\
  PaystackAdapter.processPayment Sample.rt Sample.paystack_config
    More.no_email initial =
    formatError Sample.rt PaystackAdapter.gatewayName
      (new_Error "customerEmail is required for Paystack payments") initial /\
  calls_after (PaystackAdapter.processPayment Sample.rt Sample.paystack_config
                 More.no_email initial) = [].
Proof.
  split; [reflexivity|]. split; [reflexivity|].
  destruct (X1_paystack_requires_customer_email Sample.rt
              Sample.paystack_config More.no_email initial eq_refl eq_refl)
    as (Hp & _ & Hc & _).
  split; [exact Hp | exact Hc].
Defined.

(** X2. Without a transaction reference the Paystack adapter refuses a
    refund, and without a payment reference it refuses a status read: each
    answers with a unified error that names what is missing, under the code
    "UNKNOWN_ERROR", and makes no call. *)
Theorem X2_paystack_reference_guards
    (rt : Runtime) (c : PaystackAdapter.Config) (w : World) :
  (forall r,
      truthy (transactionReference r) = false ->
      exists ts id,
        PaystackAdapter.processRefund rt c r w =
        (Normal
           (UnifiedError "paystackadapter"
              {| err_message :=
                   "transactionReference is required for Paystack refunds";
                 err_code := "UNKNOWN_ERROR"; err_details := VNull |} ts id),
         advance 2 1 w)) /\
  (forall ref,
      truthy ref = false ->
      exists ts id,
        PaystackAdapter.getPaymentStatus rt c ref w =
        (Normal
           (UnifiedError "paystackadapter"
              {| err_message := "Payment reference is required";
                 err_code := "UNKNOWN_ERROR"; err_details := VNull |} ts id),
         advance 2 1 w)).
Proof.
  split.
  - intros r Hr. unfold PaystackAdapter.processRefund. rewrite Hr.
    do 2 eexists. reflexivity.
  - intros ref Hr. unfold PaystackAdapter.getPaymentStatus. rewrite Hr.
    do 2 eexists. reflexivity.
Qed.

(** ** [makeRequest] *)

(** X3. [makeRequest] performs exactly one [fetch], to the base URL followed
    by the endpoint, with the bearer key, and with the data as body only for
    POST and PUT.  It returns the parsed reply when the response is [ok];
    every other outcome is rethrown as a new error whose message is
    "Paystack request failed: " followed by the cause (the rejection's
    message, the JSON error's message, the reply's [message], or
    "Paystack API error: <status>"), so no error code of the cause
    survives. *)
Theorem X3_makeRequest_outcomes
    (rt : Runtime) (c : PaystackAdapter.Config)
    (endpoint method : string) (data : option PaystackBody) (w : World) :
  let request :=
    {| fr_url := "https://api.paystack.co" +:+ endpoint;
       fr_method := method;
       fr_authorization := "Bearer " +:+ template (PaystackAdapter.secretKey c);
       fr_body :=
         if String.eqb method "POST" || String.eqb method "PUT"
         then data else None |} in
  snd (PaystackAdapter.makeRequest rt c endpoint method data w) =
    {| clock_reads := clock_reads w; random_draws := random_draws w;
       trace := (trace w ++ [EvFetch request])%list |} /\
  result (PaystackAdapter.makeRequest rt c endpoint method data w) =
    match fetch rt request with
    | FetchResolves true _ (Normal reply) => Normal reply
    | FetchResolves false status (Normal reply) =>
        Throw (new_Error
                 ("Paystack request failed: " +:+
                  or_else (reply_message reply)
                    ("Paystack API error: " +:+ pretty status)))
    | FetchResolves _ _ (Throw e) | FetchRejects e =>
        Throw (new_Error ("Paystack request failed: " +:+ message e))
    end.
Proof.
  intros request. subst request.
  unfold PaystackAdapter.makeRequest, PaystackAdapter.baseUrl, result. run.
  destruct (fetch rt _) as [e | [|] st [reply | e]]; simp; split; reflexivity.
Qed.

(** ** What the Paystack envelopes say about the provider's answer *)




(** ** The request the Paystack adapter posts *)

(** X5. The transaction that [processPayment] and [createPaymentIntent]
    post to "/transaction/initialize" carries the currency in upper case
    and the caller's callback URL, or, when none is given, the configured
    base URL followed by "/api/payments/callback" (with the word
    "undefined" in its place when [BASE_URL] is not set).  [processPayment]
    passes a given channel on as a one-element list; [createPaymentIntent]
    never sends channels. *)
Theorem X5_paystack_initialize_request
    (rt : Runtime) (c : PaystackAdapter.Config) (d : PaymentData)
    (cur : string) (w : World) :
  valid (validatePaymentData d) = true ->
  truthy (customerEmail d) = true ->
  currency d = Some cur ->
  let posted := fun (run : Completion Envelope * World) channels =>
    exists t,
      calls_after run =
        (trace w ++
         [EvFetch
            {| fr_url := "https://api.paystack.co/transaction/initialize";
               fr_method := "POST";
               fr_authorization :=
                 "Bearer " +:+ template (PaystackAdapter.secretKey c);
               fr_body := Some (BodyTransaction t) |}])%list /\
      td_currency t = toUpperCase rt cur /\
      td_email t = customerEmail d /\
      td_channels t = channels /\
      (truthy (callbackUrl d) = true -> Some (td_callback_url t) = callbackUrl d) /\
      (truthy (callbackUrl d) = false ->
       td_callback_url t =
         match getenv (process_env rt) "BASE_URL" with
         | Some base => base +:+ "/api/payments/callback"
         | None => "undefined/api/payments/callback"
         end) in
  posted (PaystackAdapter.processPayment rt c d w)
    (match channel d with
     | Some ch => if truthy ch then Some [ch] else None
     | None => None
     end) /\
  posted (PaystackAdapter.createPaymentIntent rt c d w) None.
Proof.
  intros Hv He Hcur posted. subst posted. cbv beta.
  assert (Hcb1 : truthy (callbackUrl d) = true ->
                 Some (PaystackAdapter.callback_url rt d) = callbackUrl d).
  { unfold PaystackAdapter.callback_url, or_else.
    destruct (callbackUrl d) as [u|]; cbn; [|discriminate].
    intros ->. reflexivity. }
  assert (Hcb2 : truthy (callbackUrl d) = false ->
                 PaystackAdapter.callback_url rt d =
                 match getenv (process_env rt) "BASE_URL" with
                 | Some base => base +:+ "/api/payments/callback"
                 | None => "undefined/api/payments/callback"
                 end).
  { unfold PaystackAdapter.callback_url, or_else.
    destruct (callbackUrl d) as [u|]; cbn; [intros ->|intros _];
      destruct (getenv (process_env rt) "BASE_URL"); reflexivity. }
  split.
  - unfold PaystackAdapter.processPayment, calls_after. rewrite Hv, He, Hcur.
    unfold PaystackAdapter.makeRequest, PaystackAdapter.data_of. run.
    cbn [negb String.eqb Ascii.eqb Bool.eqb orb].
    match goal with
    | |- context [fetch rt ?r] =>
        destruct (fetch rt r) as [err | [|] st [reply | err]]; simp;
        [ | destruct (reply_data reply) as [rec|]; simp | | | ]
    end; eexists; (split; [reflexivity|]); cbn; auto.
  - unfold PaystackAdapter.createPaymentIntent, calls_after.
    rewrite Hv, He, Hcur.
    unfold PaystackAdapter.makeRequest, PaystackAdapter.data_of. run.
    cbn [negb String.eqb Ascii.eqb Bool.eqb orb].
    match goal with
    | |- context [fetch rt ?r] =>
        destruct (fetch rt r) as [err | [|] st [reply | err]]; simp;
        [ | destruct (reply_data reply) as [rec|]; simp | | | ]
    end; eexists; (split; [reflexivity|]); cbn; auto.
Qed.

Lemma X5_witness :
  valid (validatePaymentData More.card_only) = true /\
  truthy (customerEmail More.card_only) = true /\
  exists t,
    calls_after (PaystackAdapter.processPayment Sample.rt Sample.paystack_config
                   More.card_only initial) =
      [EvFetch
         {| fr_url := "https://api.paystack.co/transaction/initialize";
            fr_method := "POST";
            fr_authorization :=
              "Bearer " +:+
              template (PaystackAdapter.secretKey Sample.paystack_config);
            fr_body := Some (BodyTransaction t) |}] /\
    td_currency t = "NGN" /\
    td_channels t = Some ["card"].
Proof.
  split; [reflexivity|]. split; [reflexivity|].
  destruct (X5_paystack_initialize_request Sample.rt Sample.paystack_config
              More.card_only "ngn" initial eq_refl eq_refl eq_refl)
    as [(t & Hcalls & Hcur & _ & Hch & _) _].
  exists t. split; [exact Hcalls|]. split; [exact Hcur | exact Hch].
Defined.

(** ** No exception crosses the adapter boundary *)

Ltac bash :=
  repeat
    (simp;
     match goal with
     | |- context [negb true] => cbn [negb]
     | |- context [negb false] => cbn [negb]
     | |- context [match ?x with _ => _ end] =>
         lazymatch x with
         | context [match _ with _ => _ end] => fail
         | _ => destruct x eqn:?
         end
     end).

(** X6. [processPayment] and [createPaymentIntent] of either adapter
    always return an envelope, never an exception.  The envelope's
    [gateway] is the adapter's lower-cased class name; at most one provider
    call is made; and a success envelope is never returned without one. *)
Theorem X6_payment_methods_never_throw
    (rt : Runtime) (a : Adapter) (d : PaymentData) (w : World) :
  let settles := fun run : Completion Envelope * World =>
    exists e,
      result run = Normal e /\
      gateway e = toLowerCase rt (gatewayName a) /\
      (calls_after run = trace w /\ success e = false \/
       exists ev,
         calls_after run = (trace w ++ [ev])%list /\ is_network ev = true) in
  settles (processPayment rt a d w) /\
  settles (createPaymentIntent rt a d w).
Proof.
  intros settles. subst settles. cbv beta.
  destruct a as [c | c];
    cbn [processPayment createPaymentIntent gatewayName];
    unfold StripeAdapter.processPayment, StripeAdapter.createPaymentIntent,
      StripeAdapter.create, StripeAdapter.confirm,
      PaystackAdapter.processPayment, PaystackAdapter.createPaymentIntent,
      PaystackAdapter.makeRequest, PaystackAdapter.data_of,
      result, calls_after;
    split; run; bash;
    eexists; (split; [reflexivity|]); (split; [reflexivity|]);
    first [ left; split; reflexivity
          | right; eexists; split; reflexivity ].
Qed.

(** ** The Stripe adapter: outcomes and requests *)



(** X8. Stripe's [createPaymentIntent] creates an intent that is never
    confirmed and never carries a payment method, whatever token or intent id
    the request has; the amount goes out as given, the currency in lower
    case, and the description defaults to "Payment intent via Unified
    Payments API". *)
Theorem X8_stripe_intent_is_unconfirmed
    (rt : Runtime) (d : PaymentData) (cur : string) (w : World) :
  valid (validatePaymentData d) = true ->
  currency d = Some cur ->
  exists p,
    calls_after (StripeAdapter.createPaymentIntent rt d w)
      = (trace w ++ [EvStripeCreate p])%list /\
    sc_confirm p = None /\
    sc_payment_method p = None /\
    sc_amount p = amount d /\
    sc_currency p = toLowerCase rt cur /\
    sc_description p =
      or_else (description d) "Payment intent via Unified Payments API" /\
    sc_metadata p !! "unified_payment_id" =
      Some (default
              (VStr (unified_id rt StripeAdapter.gatewayName
                       (Date_now rt (clock_reads w))
                       (Math_random_toString36 rt (random_draws w))))
              (metadata d !! "unified_payment_id")).
Proof.
  intros Hv Hcur.
  unfold StripeAdapter.createPaymentIntent, StripeAdapter.create, calls_after.
  rewrite Hv, Hcur. cbn [negb]. run. bash;
    eexists; (split; [reflexivity|]); split_and!; try reflexivity;
    apply payment_metadata_unified_payment_id.
Qed.

Lemma X8_witness :
  valid (validatePaymentData Sample.token_and_intent) = true /\
  currency Sample.token_and_intent = Some "USD" /\
  exists p,
    calls_after (StripeAdapter.createPaymentIntent Sample.rt
                   Sample.token_and_intent initial) = [EvStripeCreate p] /\
    sc_confirm p = None /\ sc_payment_method p = None /\
    sc_currency p = "usd".
Proof.
  split; [reflexivity|]. split; [reflexivity|].
  destruct (X8_stripe_intent_is_unconfirmed Sample.rt Sample.token_and_intent
              "USD" initial eq_refl eq_refl)
    as (p & Hcalls & Hconfirm & Hpm & _ & Hcur & _).
  exists p. auto.
Defined.

(** ** Stripe refunds and status reads *)

Ltac runX :=
  cbv [mbind MX_bind mret MX_ret try_catchX throwX emitX settleX lift
       M_bind M_ret try_catch throw emit settle read_clock
       draw_random36 generateUnifiedId formatResponse formatError call_method];
  cbn [fst snd clock_reads random_draws trace world sdk_calls].

(** X9. Without a payment-intent id the Stripe adapter refuses a refund
    with a unified error that says so, and calls neither the SDK nor the
    network. *)
Theorem X9_stripe_refund_requires_intent
    (rt : Runtime) (sdk : StripeSdk) (r : StripeRefundData) (l : Ledger) :
  truthy (srd_paymentIntentId r) = false ->
  exists ts id,
    StripeAdapterMore.processRefund rt sdk r l =
    (Normal
       (UnifiedError "stripeadapter"
          {| err_message := "paymentIntentId is required for refunds";
             err_code := "UNKNOWN_ERROR"; err_details := VNull |} ts id),
     {| world := advance 2 1 (world l); sdk_calls := sdk_calls l |}).
Proof.
  intros Hr. unfold StripeAdapterMore.processRefund. rewrite Hr.
  do 2 eexists. reflexivity.
Qed.

Lemma X9_witness :
  exists ts id,
    StripeAdapterMore.processRefund Sample.rt More.sdk
      {| srd_paymentIntentId := None; srd_amount := Some 400%float;
         srd_reason := None |} fresh =
    (Normal
       (UnifiedError "stripeadapter"
          {| err_message := "paymentIntentId is required for refunds";
             err_code := "UNKNOWN_ERROR"; err_details := VNull |} ts id),
     {| world := advance 2 1 initial; sdk_calls := [] |}).
Proof.
  exact (X9_stripe_refund_requires_intent Sample.rt More.sdk
           {| srd_paymentIntentId := None; srd_amount := Some 400%float;
              srd_reason := None |} fresh eq_refl).
Defined.

(** X10. With a payment-intent id, Stripe's [processRefund] makes one call
    to [refunds.create] and no network call of its own: for that intent,
    with the amount as given (not multiplied) or no amount when it is
    absent or zero, with the reason or "requested_by_customer", and with a
    fresh unified id in the metadata.  The envelope is a success carrying
    the refund's fields when the call resolves, and otherwise a unified error
    carrying the SDK's message and code. *)
Theorem X10_stripe_refund_request_and_outcome
    (rt : Runtime) (sdk : StripeSdk) (r : StripeRefundData) (l : Ledger) :
  truthy (srd_paymentIntentId r) = true ->
  let params :=
    {| srp_payment_intent := srd_paymentIntentId r;
       srp_amount := if truthy (srd_amount r) then srd_amount r else None;
       srp_reason := or_else (srd_reason r) "requested_by_customer";
       srp_metadata :=
         <["unified_refund_id" :=
             VStr (unified_id rt StripeAdapter.gatewayName
                     (Date_now rt (clock_reads (world l)))
                     (Math_random_toString36 rt (random_draws (world l))))]>
           (<["reason" := of_str (srd_reason r)]> ∅) |} in
  exists e l',
    StripeAdapterMore.processRefund rt sdk r l = (Normal e, l') /\
    sdk_calls l' = (sdk_calls l ++ [EvStripeRefundsCreate params])%list /\
    trace (world l') = trace (world l) /\
    (forall refund,
        stripe_refunds_create sdk params = Normal refund ->
        gatewayResponse e =
          Some (VObj [("refundId", rf_id refund); ("status", rf_status refund);
                      ("amount", rf_amount refund);
                      ("currency", rf_currency refund)])) /\
    (forall err,
        stripe_refunds_create sdk params = Throw err ->
        envelope_error e = Some (error_body err)).
Proof.
  intros Hr params. subst params.
  unfold StripeAdapterMore.processRefund. rewrite Hr. cbn [negb]. runX.
  unfold unified_id.
  destruct (stripe_refunds_create sdk _) as [refund | err] eqn:Hc;
    eexists _, _; (split; [reflexivity|]); cbn;
    split_and!; try reflexivity; intros ? H; simplify_eq; reflexivity.
Qed.

Lemma X10_witness :
  exists e l',
    StripeAdapterMore.processRefund Sample.rt More.sdk
      {| srd_paymentIntentId := Some "pi_1"; srd_amount := Some 0%float;
         srd_reason := None |} fresh = (Normal e, l') /\
    List.map (fun ev => match ev with
                        | EvStripeRefundsCreate p =>
                            (srp_payment_intent p, srp_amount p, srp_reason p)
                        | EvStripeRetrieve _ => (None, None, "")
                        end) (sdk_calls l')
      = [(Some "pi_1", None, "requested_by_customer")] /\
    success e = true.
Proof.
  destruct (X10_stripe_refund_request_and_outcome Sample.rt More.sdk
              {| srd_paymentIntentId := Some "pi_1"; srd_amount := Some 0%float;
                 srd_reason := None |} fresh eq_refl)
    as (e & l' & Hrun & Hcalls & _ & Hok & _).
  exists e, l'. split; [exact Hrun|]. split.
  - rewrite Hcalls. reflexivity.
  - specialize (Hok _ eq_refl). destruct e; [reflexivity | discriminate].
Defined.

(** X11. Stripe's [getPaymentStatus] has no local check: whatever id it is
    given, even none, it asks the SDK to retrieve it, once.  When the intent
    is found the envelope carries its status, amount, currency, creation
    time and last payment error as they came; when the SDK throws, the
    envelope is a unified error with the SDK's message and code. *)
Theorem X11_stripe_status_passes_through
    (rt : Runtime) (sdk : StripeSdk) (paymentId : option string) (l : Ledger) :
  exists e l',
    StripeAdapterMore.getPaymentStatus rt sdk paymentId l = (Normal e, l') /\
    sdk_calls l' = (sdk_calls l ++ [EvStripeRetrieve paymentId])%list /\
    trace (world l') = trace (world l) /\
    (forall found,
        stripe_paymentIntents_retrieve sdk paymentId = Normal found ->
        gatewayResponse e =
          Some (VObj [("status", ri_status found); ("amount", ri_amount found);
                      ("currency", ri_currency found);
                      ("created", ri_created found);
                      ("lastPaymentError", ri_last_payment_error found)])) /\
    (forall err,
        stripe_paymentIntents_retrieve sdk paymentId = Throw err ->
        envelope_error e = Some (error_body err)).
Proof.
  unfold StripeAdapterMore.getPaymentStatus. runX.
  destruct (stripe_paymentIntents_retrieve sdk paymentId) as [found | err] eqn:Hc;
    eexists _, _; (split; [reflexivity|]); cbn;
    split_and!; try reflexivity; intros ? H; simplify_eq; reflexivity.
Qed.

(** * Further properties of the factory *)

(** X12. The factory built from an environment registers the Stripe
    adapter exactly when [STRIPE_SECRET_KEY] is set and not empty, and the
    Paystack adapter exactly when [PAYSTACK_SECRET_KEY] is; nothing else is
    ever available: not a string whose lower-case form, as the engine
    computes it, is neither "stripe" nor "paystack", and not a value that is
    not a string, on which the test throws.  The registered names come in
    the order stripe, paystack, and each adapter holds the keys read from
    the environment. *)
Theorem X12_registration_follows_secret_keys
    (rt : Runtime) (env : gmap string string) :
  let this := constructor env in
  let stripe_set := truthy (getenv env "STRIPE_SECRET_KEY") in
  let paystack_set := truthy (getenv env "PAYSTACK_SECRET_KEY") in
  isGatewayAvailable rt this (VStr "stripe") = Normal stripe_set /\
  isGatewayAvailable rt this (VStr "paystack") = Normal paystack_set /\
  (forall n,
      toLowerCase rt n <> "stripe" -> toLowerCase rt n <> "paystack" ->
      isGatewayAvailable rt this (VStr n) = Normal false) /\
  (forall v,
      (forall s, v <> VStr s) ->
      exists msg, isGatewayAvailable rt this v = Throw (TypeError msg)) /\
  getAvailableGateways this =
    ((if stripe_set then ["stripe"] else []) ++
     (if paystack_set then ["paystack"] else []))%list /\
  (stripe_set = true ->
   getGateway rt this (VStr "stripe") =
     Normal (Stripe
               {| StripeAdapter.secretKey := getenv env "STRIPE_SECRET_KEY";
                  StripeAdapter.publishableKey :=
                    getenv env "STRIPE_PUBLISHABLE_KEY";
                  StripeAdapter.webhookSecret :=
                    getenv env "STRIPE_WEBHOOK_SECRET" |})) /\
  (paystack_set = true ->
   getGateway rt this (VStr "paystack") =
     Normal (Paystack
               {| PaystackAdapter.secretKey := getenv env "PAYSTACK_SECRET_KEY";
                  PaystackAdapter.publicKey :=
                    getenv env "PAYSTACK_PUBLIC_KEY" |})).
Proof.
  intros this stripe_set paystack_set. subst this stripe_set paystack_set.
  assert (Hother : forall (this : Adapters) v,
    (forall s, v <> VStr s) ->
    exists msg, isGatewayAvailable rt this v = Throw (TypeError msg)).
  { intros this v Hv.
    destruct (not_a_string_cases rt this v Hv) as (msg & _ & Ha & _). eauto. }
  unfold constructor, initializeAdapters.
  destruct (truthy (getenv env "STRIPE_SECRET_KEY")),
    (truthy (getenv env "PAYSTACK_SECRET_KEY"));
    split_and!; try reflexivity; try discriminate; try apply Hother;
    intros n Hs Hp; unfold isGatewayAvailable; cbn [normalize];
    cbv [mbind mret Completion_bind Completion_ret];
    cbn [Map_set String.eqb Ascii.eqb Bool.eqb]; cbn [Map_has];
    repeat match goal with
           | |- context [String.eqb ?k (toLowerCase rt n)] =>
               destruct (String.eqb_spec k (toLowerCase rt n)); [congruence|]
           end; reflexivity.
Qed.

(** X13. For an available name [getGatewayCapabilities] returns the
    capabilities of the adapter found: the name exactly as the caller wrote
    it (not the normalised key), the adapter's two static lists, neither of
    them empty, and the four features all true.  For any other name it throws
    the lookup error. *)
Theorem X13_capabilities_of_a_gateway
    (rt : Runtime) (this : Adapters) (n : string) :
  (isGatewayAvailable rt this (VStr n) = Normal true ->
   exists a,
     getGateway rt this (VStr n) = Normal a /\
     getGatewayCapabilities rt this (VStr n) =
       Normal {| name := VStr n;
                 supportedCurrencies := getSupportedCurrencies a;
                 supportedPaymentMethods := getSupportedPaymentMethods a;
                 features :=
                   {| refunds := true; webhooks := true;
                      paymentIntents := true; statusChecking := true |} |} /\
     (0 <? length (getSupportedCurrencies a))%nat = true /\
     (0 <? length (getSupportedPaymentMethods a))%nat = true) /\
  (isGatewayAvailable rt this (VStr n) = Normal false ->
   getGatewayCapabilities rt this (VStr n) =
     Throw (new_Error ("Unsupported payment gateway: " +:+ n))).
Proof.
  unfold getGatewayCapabilities.
  destruct (getGateway_cases rt this n) as [[Ha [a Hg]] | [Ha Hg]];
    rewrite Ha, Hg; split; try discriminate; intros _.
  - exists a. split_and!; try reflexivity; destruct a; reflexivity.
  - reflexivity.
Qed.

(** X14. On a factory built by the constructor
    [getAllGatewayCapabilities] never throws: it returns one entry per
    registered name, in registration order, each holding what
    [getGatewayCapabilities] returns for that name. *)
Theorem X14_all_capabilities (rt : Runtime) (env : gmap string string) :
  exists l,
    getAllGatewayCapabilities rt (constructor env) = Normal l /\
    List.map fst l = getAvailableGateways (constructor env) /\
    Forall (fun entry =>
              getGatewayCapabilities rt (constructor env) (VStr (fst entry))
                = Normal (snd entry) /\
              name (snd entry) = VStr (fst entry)) l.
Proof.
  unfold constructor, initializeAdapters.
  destruct (truthy (getenv env "STRIPE_SECRET_KEY")),
    (truthy (getenv env "PAYSTACK_SECRET_KEY"));
    eexists; (split; [reflexivity|]); (split; [reflexivity|]);
    repeat first [apply List.Forall_nil
                 | apply List.Forall_cons; [split; reflexivity|]].
Qed.

(** X15. While the environment is the one the factory was built from, the
    statistics agree with the configuration status: the total is the number
    of registered names and at most 2; a gateway is unavailable exactly when
    the warning naming its key is present; and the only warning is "All
    supported gateways are configured" exactly when the total is 2. *)
Theorem X15_stats_agree_with_configuration
    (rt : Runtime) (env : gmap string string) :
  let this := constructor env in
  let stats := getGatewayStats this env in
  let status := configurationStatus stats in
  totalGateways stats = length (stats_availableGateways stats) /\
  totalGateways stats <= 2 /\
  (isGatewayAvailable rt this (VStr "stripe") = Normal false <->
   In "Stripe is not configured (STRIPE_SECRET_KEY missing)" (warnings status)) /\
  (isGatewayAvailable rt this (VStr "paystack") = Normal false <->
   In "Paystack is not configured (PAYSTACK_SECRET_KEY missing)"
      (warnings status)) /\
  (warnings status = ["All supported gateways are configured"] <->
   totalGateways stats = 2).
Proof.
  intros this stats status. subst this stats status.
  unfold constructor, initializeAdapters, getGatewayStats,
    validateConfiguration, isGatewayAvailable.
  destruct (truthy (getenv env "STRIPE_SECRET_KEY")),
    (truthy (getenv env "PAYSTACK_SECRET_KEY")); cbn;
    split_and!; try reflexivity; try lia;
    (split; [try discriminate; intros; auto 6
            | try discriminate;
              intros H; repeat (destruct H as [H | H]; try discriminate);
              try contradiction; auto]).
Qed.

(** * Webhook verification *)

Lemma paystack_verdict rt c d w ev :
  fst (PaystackAdapter.verifyWebhook rt c d w)
    = Normal (mkWebhookResult true (Some ev) None) <->
  ev = body d /\
  exists key text,
    PaystackAdapter.secretKey c = Some key /\
    JSON_stringify rt (body d) = Some text /\
    signature d = Some (hmac_sha512_hex rt key text) /\
    truthy (hmac_sha512_hex rt key text) = true.
Proof.
  unfold PaystackAdapter.verifyWebhook. split.
  - destruct (truthy (signature d)) eqn:Ht; cbn [negb]; run;
      [|discriminate].
    destruct (PaystackAdapter.secretKey c) as [key|]; [|discriminate].
    destruct (JSON_stringify rt (body d)) as [text|]; [|discriminate].
    simp.
    destruct (bool_decide (signature d = Some (hmac_sha512_hex rt key text)))
      eqn:Hb; cbn [negb]; simp; [|discriminate].
    apply bool_decide_eq_true in Hb.
    intros H. injection H as <-. split; [reflexivity|].
    exists key, text. rewrite Hb in Ht. auto.
  - intros (-> & key & text & Hk & Hj & Hs & Ht).
    rewrite Hs, Hk, Hj. cbn [truthy truthy_option]. rewrite Ht.
    cbn [negb]. run. rewrite bool_decide_eq_true_2 by reflexivity.
    reflexivity.
Qed.

Lemma stripe_verdict rt c d w ev :
  fst (StripeAdapter.verifyWebhook rt c d w)
    = Normal (mkWebhookResult true (Some ev) None) <->
  exists sig,
    signature d = Some sig /\ truthy sig = true /\
    stripe_webhooks_constructEvent rt (body d) sig
      (StripeAdapter.webhookSecret c) = Normal ev.
Proof.
  unfold StripeAdapter.verifyWebhook. split.
  - destruct (signature d) as [sig|]; [|discriminate].
    destruct (truthy sig) eqn:Ht; run; [|discriminate].
    destruct (stripe_webhooks_constructEvent rt (body d) sig
                (StripeAdapter.webhookSecret c)) as [ev' | e] eqn:Hc;
      [|discriminate].
    intros H. injection H as <-. eauto.
  - intros (sig & -> & Ht & Hc). rewrite Ht. run. rewrite Hc. reflexivity.
Qed.

(** Every verdict is [{isValid: true, event}] or [{isValid: false, error}],
    and the only trace a verification leaves is its cryptographic calls. *)
Lemma verifyWebhook_returns rt a d w :
  exists r w',
    verifyWebhook rt a d w = (Normal r, w') /\
    ((exists ev, r = mkWebhookResult true (Some ev) None) \/
     (exists msg, r = mkWebhookResult false None (Some msg))).
Proof.
  destruct a as [c | c]; cbn [verifyWebhook];
    unfold StripeAdapter.verifyWebhook, PaystackAdapter.verifyWebhook;
    run; bash; eexists _, _; (split; [reflexivity|]); eauto.
Qed.

(** X16. The Paystack adapter declares a webhook valid exactly when the
    signature equals the hex HMAC-SHA512, under the adapter's secret key, of
    the JSON text of the body; the event it then returns is the body itself.
    The Stripe adapter declares it valid exactly when a signature is present
    and the SDK's [constructEvent] resolves, and returns the SDK's event. *)
Theorem X16_webhook_verdicts
    (rt : Runtime) (d : WebhookData) (w : World) :
  (forall c ev,
      result (PaystackAdapter.verifyWebhook rt c d w)
        = Normal (mkWebhookResult true (Some ev) None) <->
      ev = body d /\
      exists key text,
        PaystackAdapter.secretKey c = Some key /\
        JSON_stringify rt (body d) = Some text /\
        signature d = Some (hmac_sha512_hex rt key text) /\
        truthy (hmac_sha512_hex rt key text) = true) /\
  (forall c ev,
      result (StripeAdapter.verifyWebhook rt c d w)
        = Normal (mkWebhookResult true (Some ev) None) <->
      exists sig,
        signature d = Some sig /\ truthy sig = true /\
        stripe_webhooks_constructEvent rt (body d) sig
          (StripeAdapter.webhookSecret c) = Normal ev).
Proof.
  split; intros c ev; unfold result.
  - apply paystack_verdict.
  - apply stripe_verdict.
Qed.

(** * The route handlers *)

Lemma processPayment_returns rt a d w :
  exists e w', processPayment rt a d w = (Normal e, w').
Proof.
  destruct a as [c | c]; cbn [processPayment];
    unfold StripeAdapter.processPayment, StripeAdapter.create,
      StripeAdapter.confirm, PaystackAdapter.processPayment,
      PaystackAdapter.makeRequest, PaystackAdapter.data_of;
    run; bash; eexists _, _; reflexivity.
Qed.

Lemma createPaymentIntent_returns rt a d w :
  exists e w', createPaymentIntent rt a d w = (Normal e, w').
Proof.
  destruct a as [c | c]; cbn [createPaymentIntent];
    unfold StripeAdapter.createPaymentIntent, StripeAdapter.create,
      PaystackAdapter.createPaymentIntent,
      PaystackAdapter.makeRequest, PaystackAdapter.data_of;
    run; bash; eexists _, _; reflexivity.
Qed.



Lemma send_envelope_status e :
  (res_status (send_envelope e) = 200%N <-> success e = true) /\
  (res_status (send_envelope e) = 400%N <-> success e = false).
Proof. unfold send_envelope. destruct (success e); cbn; split; split; congruence. Qed.

(** What the two lookups of a handler give for the [gateway] it read from
    the request. *)
Lemma gateway_cases rt (factory : Adapters) (g : value) :
  (exists s a,
      g = VStr s /\
      isGatewayAvailable rt factory g = Normal true /\
      getGateway rt factory g = Normal a) \/
  (exists s,
      g = VStr s /\
      isGatewayAvailable rt factory g = Normal false /\
      template_value rt g = Normal s /\
      getGateway rt factory g =
        Throw (new_Error ("Unsupported payment gateway: " +:+ s))) \/
  (exists msg,
      (forall s, g <> VStr s) /\
      isGatewayAvailable rt factory g = Throw (TypeError msg) /\
      getGateway rt factory g = Throw (TypeError msg)).
Proof.
  assert (Hstr : (exists s, g = VStr s) \/ (forall s, g <> VStr s)).
  { destruct g; try (right; intros s' [=]; fail). left. eauto. }
  destruct Hstr as [[s ->] | Hg].
  - destruct (getGateway_cases rt factory s) as [[Ha [a Hg]] | [Ha Hg]].
    + left. eauto.
    + right. left. exists s. auto.
  - right. right.
    destruct (not_a_string_cases rt factory g Hg) as (msg & _ & Ha & Hgw & _).
    eauto.
Qed.

(** X17. The handlers of POST /process and POST /intent answer 200, 400 or
    500, and 500 exactly when validation reported nothing although the
    [gateway] of the body is not a string: the factory's test then throws,
    and the handler answers 500 "Internal server error" with the
    [TypeError]'s message, nothing else having happened.  Validation errors
    are answered 400 "Validation failed" with the list, and an unavailable
    gateway 400 with a message naming it; in both cases nothing else
    happens.  Otherwise the adapter's method runs once and its envelope is
    sent as it is, with status 200 when it is a success and 400 when it is
    not. *)
Theorem X17_payment_routes
    (rt : Runtime) (factory : Adapters)
    (errors : list value) (gateway : value) (d : PaymentData) (w : World) :
  let answers := fun (run : Completion Response * World)
                     (method : Adapter -> PaymentData -> M Envelope)
                     (unavailable : string -> string) =>
    exists r,
      result run = Normal r /\
      (res_status r = 200%N \/ res_status r = 400%N \/ res_status r = 500%N) /\
      (res_status r = 500%N <-> errors = [] /\ forall s, gateway <> VStr s) /\
      (errors <> [] ->
       r = {| res_status := 400;
              res_json := JsonFailure "Validation failed" None (Some errors) |} /\
       snd run = w) /\
      (errors = [] ->
       isGatewayAvailable rt factory gateway = Normal false ->
       exists s,
         gateway = VStr s /\ r = failure 400 (unavailable s) /\ snd run = w) /\
      (errors = [] -> forall e,
       isGatewayAvailable rt factory gateway = Throw e ->
       r = failure_with 500 "Internal server error" e /\ snd run = w) /\
      (errors = [] -> forall a,
       getGateway rt factory gateway = Normal a ->
       exists e,
         result (method a d w) = Normal e /\
         r = send_envelope e /\
         snd run = snd (method a d w)) in
  answers (Routes.process rt factory errors gateway d w) (processPayment rt)
    (fun s => "Gateway '" +:+ s +:+ "' is not available or not configured") /\
  answers (Routes.intent rt factory errors gateway d w) (createPaymentIntent rt)
    (fun s => "Gateway '" +:+ s +:+ "' is not available").
Proof.
  intros answers. subst answers. cbv beta.
  unfold Routes.process, Routes.intent, result.
  destruct errors as [|v errors]; cbn [length Nat.ltb Nat.leb].
  - destruct (gateway_cases rt factory gateway)
      as [(s & a & -> & Ha & Hg) | [(s & -> & Ha & Ht & Hg) | (msg & Hn & Ha & Hg)]];
      rewrite Ha, Hg; run; cbn [negb template_value]; split.
    + destruct (processPayment_returns rt a d w) as (e & w' & He).
      rewrite He. eexists. split; [reflexivity|]. simp.
      split; [unfold send_envelope; destruct (success e); auto|].
      split; [split; [unfold send_envelope; destruct (success e); discriminate
                     | intros [_ H]; now destruct (H s)]|].
      split; [congruence|]. split; [discriminate|]. split; [discriminate|].
      intros _ a' Ha'. injection Ha' as <-. rewrite He. eauto.
    + destruct (createPaymentIntent_returns rt a d w) as (e & w' & He).
      rewrite He. eexists. split; [reflexivity|]. simp.
      split; [unfold send_envelope; destruct (success e); auto|].
      split; [split; [unfold send_envelope; destruct (success e); discriminate
                     | intros [_ H]; now destruct (H s)]|].
      split; [congruence|]. split; [discriminate|]. split; [discriminate|].
      intros _ a' Ha'. injection Ha' as <-. rewrite He. eauto.
    + eexists. split; [reflexivity|]. cbn.
      split; [auto|].
      split; [split; [discriminate | intros [_ H]; now destruct (H s)]|].
      split; [congruence|]. split; [eauto|]. split; discriminate.
    + eexists. split; [reflexivity|]. cbn.
      split; [auto|].
      split; [split; [discriminate | intros [_ H]; now destruct (H s)]|].
      split; [congruence|]. split; [eauto|]. split; discriminate.
    + eexists. split; [reflexivity|]. cbn.
      split; [auto|]. split; [tauto|]. split; [congruence|].
      split; [discriminate|].
      split; [intros _ e [= <-]; auto | discriminate].
    + eexists. split; [reflexivity|]. cbn.
      split; [auto|]. split; [tauto|]. split; [congruence|].
      split; [discriminate|].
      split; [intros _ e [= <-]; auto | discriminate].
  - run. split; eexists; (split; [reflexivity|]); cbn;
      (split; [auto|]);
      (split; [split; [discriminate | intros [H _]; discriminate H]|]);
      (split; [auto|]); split_and!; discriminate.
Qed.


(** X19. GET /gateways/:gateway answers 404 "Gateway '<name>' not found"
    exactly for an unavailable name, and otherwise 200 with the capabilities
    of the gateway under the name as written in the URL; it never answers
    500. *)
Theorem X19_gateway_capabilities_route
    (rt : Runtime) (factory : Adapters) (gateway : string) :
  let r := Routes.gateway_capabilities rt factory gateway in
  (isGatewayAvailable rt factory (VStr gateway) = Normal false ->
   r = failure 404 ("Gateway '" +:+ gateway +:+ "' not found")) /\
  (isGatewayAvailable rt factory (VStr gateway) = Normal true ->
   exists c,
     getGatewayCapabilities rt factory (VStr gateway) = Normal c /\
     name c = VStr gateway /\
     r = {| res_status := 200; res_json := JsonCapabilities c |}) /\
  (res_status r = 404%N <->
   isGatewayAvailable rt factory (VStr gateway) = Normal false) /\
  (res_status r = 200%N <->
   isGatewayAvailable rt factory (VStr gateway) = Normal true).
Proof.
  intros r. subst r. unfold Routes.gateway_capabilities, getGatewayCapabilities.
  destruct (getGateway_cases rt factory gateway) as [[Ha [a Hg]] | [Ha Hg]];
    rewrite Ha, Hg; cbn; split_and!; try discriminate; try (split; congruence);
    try reflexivity.
  intros _. eexists. split_and!; reflexivity.
Qed.

(** X20. GET /health/ready answers 200 "ready" with the registered names
    when at least one gateway is registered and 503 "not_ready" with an empty
    list otherwise; with a factory built from an environment that is when at
    least one of the two secret keys is set. *)
Theorem X20_ready_route
    (rt : Runtime) (env : gmap string string) (factory : Adapters) (w : World) :
  (exists r,
      result (Routes.ready rt factory w) = Normal r /\
      (factory <> [] ->
       r = {| res_status := 200;
              res_json :=
                JsonReadiness "ready" "System is ready to handle requests"
                  (Date_now rt (clock_reads w))
                  (getAvailableGateways factory) (length factory) |}) /\
      (factory = [] ->
       r = {| res_status := 503;
              res_json :=
                JsonReadiness "not_ready" "No payment gateways are available"
                  (Date_now rt (clock_reads w)) [] 0 |})) /\
  (constructor env = [] <->
   truthy (getenv env "STRIPE_SECRET_KEY") = false /\
   truthy (getenv env "PAYSTACK_SECRET_KEY") = false).
Proof.
  split.
  - unfold Routes.ready, result, getAvailableGateways, Map_keys. run.
    rewrite length_map.
    destruct factory as [|entry rest]; cbn; eexists;
      (split; [reflexivity|]); split; congruence.
  - unfold constructor, initializeAdapters.
    destruct (truthy (getenv env "STRIPE_SECRET_KEY")),
      (truthy (getenv env "PAYSTACK_SECRET_KEY")); cbn;
      (split; [intros H; try discriminate H; auto
              | intros [H1 H2]; try discriminate; reflexivity]).
Qed.

(** ** The webhook routes *)

Lemma constructor_lookup rt env :
  getGateway rt (constructor env) (VStr "stripe") =
    (if truthy (getenv env "STRIPE_SECRET_KEY") then
       Normal (Stripe
                 {| StripeAdapter.secretKey := getenv env "STRIPE_SECRET_KEY";
                    StripeAdapter.publishableKey :=
                      getenv env "STRIPE_PUBLISHABLE_KEY";
                    StripeAdapter.webhookSecret :=
                      getenv env "STRIPE_WEBHOOK_SECRET" |})
     else Throw (new_Error "Unsupported payment gateway: stripe")) /\
  getGateway rt (constructor env) (VStr "paystack") =
    (if truthy (getenv env "PAYSTACK_SECRET_KEY") then
       Normal (Paystack
                 {| PaystackAdapter.secretKey := getenv env "PAYSTACK_SECRET_KEY";
                    PaystackAdapter.publicKey :=
                      getenv env "PAYSTACK_PUBLIC_KEY" |})
     else Throw (new_Error "Unsupported payment gateway: paystack")).
Proof.
  unfold constructor, initializeAdapters, getGateway.
  destruct (truthy (getenv env "STRIPE_SECRET_KEY")),
    (truthy (getenv env "PAYSTACK_SECRET_KEY")); split; reflexivity.
Qed.

Ltac handler_steps :=
  unfold Routes.paystack_switch, Routes.stripe_switch, Routes.event_of, get;
  run; bash.

(** X21. On a factory built from the environment, POST /webhooks/paystack
    answers 200 or 400.  Without the signature header it answers 400 "No
    signature provided" and nothing is computed; when Paystack is not
    configured it answers 400 with the lookup error.  It answers 200 only to
    a body whose signature header equals the hex HMAC-SHA512 of the body's
    JSON text under the configured secret key, and then reports the body's
    [event] as the event type. *)
Theorem X21_paystack_webhook_route
    (rt : Runtime) (env : gmap string string) (h : Headers) (body : value)
    (w : World) :
  let run := Routes.paystack_webhook rt (constructor env) h body w in
  exists r,
    result run = Normal r /\
    (res_status r = 200%N \/ res_status r = 400%N) /\
    (truthy (x_paystack_signature h) = false ->
     r = failure 400 "No signature provided" /\ snd run = w) /\
    (truthy (x_paystack_signature h) = true ->
     truthy (getenv env "PAYSTACK_SECRET_KEY") = false ->
     r = failure_with 400 "Webhook processing failed"
           (new_Error "Unsupported payment gateway: paystack") /\
     snd run = w) /\
    (res_status r = 200%N ->
     exists key text,
       getenv env "PAYSTACK_SECRET_KEY" = Some key /\
       JSON_stringify rt body = Some text /\
       x_paystack_signature h = Some (hmac_sha512_hex rt key text) /\
       res_json r =
         JsonWebhookAck "Webhook processed successfully" None
           (prop "event" body)).
Proof.
  intros run. subst run. unfold Routes.paystack_webhook, result.
  destruct (truthy (x_paystack_signature h)) eqn:Hsig; cbn [negb].
  2:{ run. eexists. split; [reflexivity|]. cbn. split_and!; auto; discriminate. }
  rewrite (proj2 (constructor_lookup rt env)).
  destruct (truthy (getenv env "PAYSTACK_SECRET_KEY")) eqn:Hkey.
  2:{ run. eexists. split; [reflexivity|]. cbn. split_and!; auto; discriminate. }
  run.
  match goal with
  | |- context [verifyWebhook rt ?a ?d w] =>
      destruct (verifyWebhook_returns rt a d w)
        as (r0 & w' & Hv & [[ev ->] | [msg ->]]);
      rewrite Hv
  end.
  2:{ simp. cbn [isValid negb]. eexists. split; [reflexivity|]. cbn.
      split_and!; auto; discriminate. }
  apply (f_equal fst) in Hv. cbn [verifyWebhook fst] in Hv.
  apply paystack_verdict in Hv as (-> & key & text & Hk & Hj & Hs & _).
  unfold Routes.event_of. simpl in Hk, Hj, Hs |- *.
  handler_steps;
    eexists; (split; [reflexivity|]); cbn [res_status res_json failure_with];
    (split; [auto|]); (split; [discriminate|]); (split; [discriminate|]);
    first [ discriminate | intros _; exists key, text; auto ].
Qed.

(** X22. On a factory built from the environment, POST /webhooks/stripe
    answers 200 or 400.  Without the signature header it answers 400 "No
    signature provided" and nothing is computed; when Stripe is not
    configured it answers 400 with the lookup error.  It answers 200 only
    when the SDK's [constructEvent] accepts the body, the header and the
    configured webhook secret, and then reports the event's [type]. *)
Theorem X22_stripe_webhook_route
    (rt : Runtime) (env : gmap string string) (h : Headers) (body : value)
    (w : World) :
  let run := Routes.stripe_webhook rt (constructor env) h body w in
  exists r,
    result run = Normal r /\
    (res_status r = 200%N \/ res_status r = 400%N) /\
    (truthy (stripe_signature h) = false ->
     r = failure 400 "No signature provided" /\ snd run = w) /\
    (truthy (stripe_signature h) = true ->
     truthy (getenv env "STRIPE_SECRET_KEY") = false ->
     r = failure_with 400 "Webhook processing failed"
           (new_Error "Unsupported payment gateway: stripe") /\
     snd run = w) /\
    (res_status r = 200%N ->
     exists sig ev,
       stripe_signature h = Some sig /\
       stripe_webhooks_constructEvent rt body sig
         (getenv env "STRIPE_WEBHOOK_SECRET") = Normal ev /\
       res_json r =
         JsonWebhookAck "Webhook processed successfully" None
           (prop "type" ev)).
Proof.
  intros run. subst run. unfold Routes.stripe_webhook, result.
  destruct (truthy (stripe_signature h)) eqn:Hsig; cbn [negb].
  2:{ run. eexists. split; [reflexivity|]. cbn. split_and!; auto; discriminate. }
  rewrite (proj1 (constructor_lookup rt env)).
  destruct (truthy (getenv env "STRIPE_SECRET_KEY")) eqn:Hkey.
  2:{ run. eexists. split; [reflexivity|]. cbn. split_and!; auto; discriminate. }
  run.
  match goal with
  | |- context [verifyWebhook rt ?a ?d w] =>
      destruct (verifyWebhook_returns rt a d w)
        as (r0 & w' & Hv & [[ev ->] | [msg ->]]);
      rewrite Hv
  end.
  2:{ simpl. eexists. split; [reflexivity|]. cbn.
      split_and!; auto; discriminate. }
  apply (f_equal fst) in Hv. cbn [verifyWebhook fst] in Hv.
  apply stripe_verdict in Hv as (sig & Hs & _ & Hc).
  unfold Routes.event_of. simpl in Hs, Hc |- *.
  handler_steps;
    eexists; (split; [reflexivity|]); cbn [res_status res_json failure_with];
    (split; [auto|]); (split; [discriminate|]); (split; [discriminate|]);
    first [ discriminate | intros _; exists sig, ev; subst; auto ].
Qed.

Lemma constructor_available rt env :
  isGatewayAvailable rt (constructor env) (VStr "stripe")
    = Normal (truthy (getenv env "STRIPE_SECRET_KEY")) /\
  isGatewayAvailable rt (constructor env) (VStr "paystack")
    = Normal (truthy (getenv env "PAYSTACK_SECRET_KEY")).
Proof.
  unfold constructor, initializeAdapters, isGatewayAvailable.
  destruct (truthy (getenv env "STRIPE_SECRET_KEY")),
    (truthy (getenv env "PAYSTACK_SECRET_KEY")); split; reflexivity.
Qed.

(** X23. POST /webhooks/unified answers 200 or 400.  It answers 200 only
    when the body's [gateway] is exactly "stripe" or exactly "paystack" and
    the webhook verifies under that gateway, against the whole body.  A
    gateway name in any other letter case, though the factory finds it, is
    answered 400 "No signature provided" whatever headers the request
    carries, and no verification is attempted. *)
Theorem X23_unified_webhook_route
    (rt : Runtime) (env : gmap string string) (h : Headers) (body : value)
    (w : World) :
  let run := Routes.unified_webhook rt (constructor env) h body w in
  exists r,
    result run = Normal r /\
    (res_status r = 200%N \/ res_status r = 400%N) /\
    (res_status r = 200%N ->
     (prop "gateway" body = VStr "stripe" /\
      exists sig ev,
        stripe_signature h = Some sig /\
        stripe_webhooks_constructEvent rt body sig
          (getenv env "STRIPE_WEBHOOK_SECRET") = Normal ev /\
        res_json r =
          JsonWebhookAck "Unified webhook processed successfully"
            (Some (VStr "stripe"))
            (if truthy (prop "type" ev) then prop "type" ev
             else prop "event" ev)) \/
     (prop "gateway" body = VStr "paystack" /\
      exists key text,
        getenv env "PAYSTACK_SECRET_KEY" = Some key /\
        JSON_stringify rt body = Some text /\
        x_paystack_signature h = Some (hmac_sha512_hex rt key text) /\
        res_json r =
          JsonWebhookAck "Unified webhook processed successfully"
            (Some (VStr "paystack"))
            (if truthy (prop "type" body) then prop "type" body
             else prop "event" body))) /\
    (forall name,
        prop "gateway" body = VStr name ->
        isGatewayAvailable rt (constructor env) (VStr name) = Normal true ->
        name <> "stripe" -> name <> "paystack" ->
        r = failure 400 "No signature provided" /\ snd run = w).
Proof.
  intros run. subst run. unfold Routes.unified_webhook, result.
  assert (Hb : body = VUndefined \/ body = VNull \/
    (match body with
     | VUndefined =>
         throw (TypeError
           "Cannot destructure property 'gateway' of 'req.body' as it is undefined.")
     | VNull =>
         throw (TypeError
           "Cannot destructure property 'gateway' of 'req.body' as it is null.")
     | _ => mret (prop "gateway" body)
     end : M value) = mret (prop "gateway" body)).
  { destruct body; auto. }
  destruct Hb as [-> | [-> | ->]].
  1,2: run; eexists; (split; [reflexivity|]); cbn;
       split_and!; auto; try discriminate; intros name H; discriminate H.
  destruct (prop "gateway" body) as [| |b|f|s|items|fields] eqn:Hg.
  all: try solve
    [ run;
      match goal with
      | |- context [truthy ?v] => destruct (truthy v) eqn:Ht
      end; cbn [negb]; unfold isGatewayAvailable; cbn [normalize]; run;
      eexists; (split; [reflexivity|]); cbn;
      split_and!; auto; try discriminate; intros name H; discriminate H ].
  run. destruct (truthy (VStr s)) eqn:Ht; cbn [negb].
  2:{ eexists. split; [reflexivity|]. cbn. split_and!; auto; try discriminate.
      intros name [= <-] Hav. destruct s; [|discriminate Ht].
      unfold constructor, initializeAdapters, isGatewayAvailable in Hav.
      destruct (truthy (getenv env "STRIPE_SECRET_KEY")),
        (truthy (getenv env "PAYSTACK_SECRET_KEY")); discriminate Hav. }
  destruct (getGateway_cases rt (constructor env) s)
    as [[Hav [a Ha]] | [Hav Ha]];
    rewrite Hav, Ha; run; cbn [negb template_value is_string].
  2:{ eexists. split; [reflexivity|]. cbn. split_and!; auto; try discriminate.
      intros name [= <-] Hav'.
      change (isGatewayAvailable rt (constructor env) (VStr s) = Normal true)
        in Hav'.
      congruence. }
  destruct (String.eqb_spec s "stripe") as [-> | Hns].
  { destruct (constructor_available rt env) as [Hs _].
    destruct (constructor_lookup rt env) as [Hl _].
    rewrite Hs in Hav. injection Hav as Hav. rewrite Hav in Hl.
    rewrite Hl in Ha.
    injection Ha as <-.
    destruct (truthy (stripe_signature h)) eqn:Hsig; cbn [negb].
    2:{ eexists. split; [reflexivity|]. cbn. split_and!; auto; discriminate. }
    match goal with
    | |- context [verifyWebhook rt ?a ?d w] =>
        destruct (verifyWebhook_returns rt a d w)
          as (r0 & w' & Hv & [[ev ->] | [msg ->]]);
        rewrite Hv
    end.
    2:{ simpl. eexists. split; [reflexivity|]. cbn.
        split_and!; auto; try discriminate.
        intros name [= <-] _ Hn. congruence. }
    apply (f_equal fst) in Hv. cbn [verifyWebhook fst] in Hv.
    apply stripe_verdict in Hv as (sig & Hsg & _ & Hc).
    unfold Routes.event_of. simpl in Hsg, Hc |- *.
    handler_steps;
      eexists; (split; [reflexivity|]); cbn [res_status res_json failure_with];
      (split; [auto|]);
      (split; [|intros name [= <-] _ Hn; congruence]);
      first [ discriminate
            | intros _; left; split; [reflexivity|];
              eexists sig, _; (split; [assumption|]);
              (split; [eassumption|]); cbn [prop];
              repeat match goal with
                     | H : truthy _ = _ |- _ => rewrite H
                     end; reflexivity ]. }
  destruct (String.eqb_spec s "paystack") as [-> | Hnp].
  { destruct (constructor_available rt env) as [_ Hs].
    destruct (constructor_lookup rt env) as [_ Hl].
    rewrite Hs in Hav. injection Hav as Hav. rewrite Hav in Hl.
    rewrite Hl in Ha.
    injection Ha as <-.
    destruct (truthy (x_paystack_signature h)) eqn:Hsig; cbn [negb].
    2:{ eexists. split; [reflexivity|]. cbn. split_and!; auto; discriminate. }
    match goal with
    | |- context [verifyWebhook rt ?a ?d w] =>
        destruct (verifyWebhook_returns rt a d w)
          as (r0 & w' & Hv & [[ev ->] | [msg ->]]);
        rewrite Hv
    end.
    2:{ simpl. eexists. split; [reflexivity|]. cbn.
        split_and!; auto; try discriminate.
        intros name [= <-] _ _ Hn. congruence. }
    apply (f_equal fst) in Hv. cbn [verifyWebhook fst] in Hv.
    apply paystack_verdict in Hv as (-> & key & text & Hk & Hj & Hsg & _).
    unfold Routes.event_of. simpl in Hk, Hj, Hsg |- *.
    handler_steps;
      eexists; (split; [reflexivity|]); cbn [res_status res_json failure_with];
      (split; [auto|]);
      (split; [|intros name [= <-] _ _ Hn; congruence]);
      first [ discriminate
            | intros _; right; split; [reflexivity|];
              exists key, text; (split; [assumption|]);
              (split; [assumption|]); (split; [assumption|]); cbn [prop];
              repeat match goal with
                     | H : truthy _ = _ |- _ => rewrite H
                     end;
              first [ reflexivity | cbn [prop] in *; congruence ] ]. }
  eexists. split; [reflexivity|]. cbn.
  split_and!; auto; try discriminate.
Qed.

Example unified_rejects_capitalised_gateway :
  isGatewayAvailable Sample.rt (constructor More.env_both) (VStr "Stripe")
    = Normal true /\
  Routes.unified_webhook Sample.rt (constructor More.env_both)
    (More.signed "t=1,v1=5257a8") More.capitalised initial
  = (Normal (failure 400 "No signature provided"), initial).
Proof. split; reflexivity. Qed.

(** ** The error middleware *)

Lemma includes_truthy needle hay :
  truthy needle = true -> includes needle hay = true -> truthy hay = true.
Proof.
  destruct hay; [|reflexivity]. destruct needle; [discriminate|].
  cbn. discriminate.
Qed.

Ltac handler_run :=
  unfold ErrorHandler.errorHandler, result; run.

Ltac completion :=
  cbv [mbind mret Completion_bind Completion_ret].

Lemma mentions_Paystack_string err m :
  ErrorHandler.e_message err = VStr m ->
  ErrorHandler.mentions_Paystack err = Normal (truthy m && includes "Paystack" m).
Proof.
  intros H. unfold ErrorHandler.mentions_Paystack. rewrite H.
  cbn [truthy truthy_value]. destruct (truthy m); reflexivity.
Qed.

(** X24. Whatever else an error carries (name, type, code, status), when
    its message contains "Paystack" the middleware answers 400 with code
    "PAYSTACK_ERROR" and the error's own message, provided the handler
    gets that far: the Paystack test is the last in the chain and replaces
    every earlier verdict. *)
Theorem X24_paystack_message_overrides
    (rt : Runtime) (err : ErrorHandler.Err) (url method m : string)
    (w : World) :
  ErrorHandler.e_message err = VStr m ->
  includes "Paystack" m = true ->
  (ErrorHandler.name_is err "ValidationError" = true ->
   exists text, ErrorHandler.validation_message rt err = Normal text) ->
  exists sent,
    result (ErrorHandler.errorHandler rt err url method w) = Normal sent /\
    ErrorHandler.sent_status sent = VNum 400%float /\
    ErrorHandler.body_message (ErrorHandler.sent_body sent) = VStr m /\
    ErrorHandler.body_code (ErrorHandler.sent_body sent)
      = VStr "PAYSTACK_ERROR".
Proof.
  intros Hm Hinc Hval.
  assert (Ht : truthy m = true)
    by (apply (includes_truthy "Paystack"); [reflexivity | assumption]).
  handler_run. unfold ErrorHandler.classify.
  rewrite (mentions_Paystack_string err m Hm), Ht, Hinc, Hm. cbn [andb].
  destruct (ErrorHandler.name_is err "ValidationError") eqn:Hn.
  - destruct (Hval eq_refl) as [text ->].
    completion. run. eexists. split; [reflexivity|]. cbn.
    rewrite Ht. auto.
  - completion. run. eexists. split; [reflexivity|]. cbn.
    rewrite Ht. auto.
Qed.

Lemma X24_witness :
  exists sent,
    result (ErrorHandler.errorHandler Sample.rt More.gateway_timeout
              "/api/payments/process" "POST" initial) = Normal sent /\
    ErrorHandler.sent_status sent = VNum 400%float /\
    ErrorHandler.body_message (ErrorHandler.sent_body sent)
      = VStr "Paystack request failed: timeout" /\
    ErrorHandler.body_code (ErrorHandler.sent_body sent)
      = VStr "PAYSTACK_ERROR".
Proof.
  apply (X24_paystack_message_overrides Sample.rt More.gateway_timeout
           "/api/payments/process" "POST" "Paystack request failed: timeout"
           initial);
    [reflexivity | reflexivity | discriminate].
Defined.

Ltac peel :=
  match goal with
  | |- context [ErrorHandler.w_statusCode (if ?c then _ else _)] =>
      destruct c; cbn [ErrorHandler.w_statusCode]
  end.

(** How the chain of tests ends: it throws in the "ValidationError" step or
    in the Paystack test, and otherwise leaves a status that is the error's
    own or one of the four the chain assigns. *)
Lemma classify_cases (rt : Runtime) (err : ErrorHandler.Err) :
  match ErrorHandler.classify rt err with
  | Throw e =>
      (ErrorHandler.name_is err "ValidationError" = true /\
       ErrorHandler.validation_message rt err = Throw e) \/
      ErrorHandler.mentions_Paystack err = Throw e
  | Normal wk =>
      (ErrorHandler.name_is err "ValidationError" = true ->
       exists text, ErrorHandler.validation_message rt err = Normal text) /\
      (exists b, ErrorHandler.mentions_Paystack err = Normal b) /\
      (ErrorHandler.w_statusCode wk = ErrorHandler.e_statusCode err \/
       In (ErrorHandler.w_statusCode wk)
          [VNum 400%float; VNum 401%float; VNum 404%float; VNum 500%float])
  end.
Proof.
  unfold ErrorHandler.classify.
  destruct (ErrorHandler.name_is err "ValidationError") eqn:Hn;
    [destruct (ErrorHandler.validation_message rt err) as [text | e] eqn:Hv|];
    destruct (ErrorHandler.mentions_Paystack err) as [b | e'] eqn:Hp;
    completion; auto;
    (split; [intros; try discriminate; eauto|]);
    (split; [eauto|]);
    repeat peel; cbn; auto 10.
Qed.

(** A [null] or [undefined] entry stops the reading of the messages. *)
Lemma map_message_nullish values v :
  In v values -> v = VNull \/ v = VUndefined ->
  exists e, map_message values = Throw e.
Proof.
  intros Hin Hv. induction values as [|val rest IH]; [destruct Hin|].
  cbn [map_message].
  destruct (get val "message") as [message | e] eqn:Hg; completion;
    [|eauto].
  destruct Hin as [-> | Hin].
  - destruct Hv as [-> | ->]; discriminate Hg.
  - destruct (IH Hin) as [e ->]. eauto.
Qed.

(** X25. Before it answers, the middleware throws only in two places, each
    after one clock reading: in the "ValidationError" step, when the messages
    cannot be collected (no [errors], a [null] or [undefined] entry, a message
    that cannot be made a string), and in the Paystack test, when the message
    is a truthy value without the method [includes].  Otherwise it answers
    after two readings: the status is truthy, and is 400, 401, 404 or 500
    unless it is the error's own [statusCode]; the message and the code are
    truthy; the timestamp is the second reading; and the stack is part of the
    body exactly when NODE_ENV is "development". *)
Theorem X25_errorHandler_outcomes
    (rt : Runtime) (err : ErrorHandler.Err) (url method : string) (w : World) :
  let run := ErrorHandler.errorHandler rt err url method w in
  (forall e,
      result run = Throw e ->
      snd run = advance 1 0 w /\
      ((ErrorHandler.name_is err "ValidationError" = true /\
        ErrorHandler.validation_message rt err = Throw e) \/
       ErrorHandler.mentions_Paystack err = Throw e)) /\
  (ErrorHandler.name_is err "ValidationError" = true ->
   forall e,
     ErrorHandler.validation_message rt err = Throw e ->
     result run = Throw e) /\
  (ErrorHandler.name_is err "ValidationError" = true ->
   (ErrorHandler.e_errors err = None \/
    exists values v,
      ErrorHandler.e_errors err = Some values /\
      In v values /\ (v = VNull \/ v = VUndefined)) ->
   exists e, result run = Throw e) /\
  (forall e,
      ErrorHandler.mentions_Paystack err = Throw e ->
      exists e', result run = Throw e') /\
  (forall sent,
      result run = Normal sent ->
      snd run = advance 2 0 w /\
      truthy (ErrorHandler.sent_status sent) = true /\
      (In (ErrorHandler.sent_status sent)
          [VNum 400%float; VNum 401%float; VNum 404%float; VNum 500%float] \/
       ErrorHandler.sent_status sent = ErrorHandler.e_statusCode err) /\
      truthy (ErrorHandler.body_message (ErrorHandler.sent_body sent)) = true /\
      truthy (ErrorHandler.body_code (ErrorHandler.sent_body sent)) = true /\
      ErrorHandler.body_timestamp (ErrorHandler.sent_body sent)
        = Date_now rt (S (clock_reads w)) /\
      (ErrorHandler.body_stack (ErrorHandler.sent_body sent) <> None <->
       getenv (process_env rt) "NODE_ENV" = Some "development")).
Proof.
  intros run. subst run.
  pose proof (classify_cases rt err) as Hc.
  assert (Hthrow : forall e,
    ErrorHandler.classify rt err = Throw e ->
    ErrorHandler.errorHandler rt err url method w = (Throw e, advance 1 0 w)).
  { intros e He. handler_run. rewrite He. reflexivity. }
  split_and!.
  - intros e He.
    destruct (ErrorHandler.classify rt err) as [wk | e'] eqn:Hk.
    + revert He. handler_run. rewrite Hk. run. discriminate.
    + rewrite (Hthrow e' eq_refl) in He |- *. cbn in He. injection He as <-.
      split; [reflexivity | exact Hc].
  - intros Hn e Hv.
    destruct (ErrorHandler.classify rt err) as [wk | e'] eqn:Hk.
    + destruct Hc as [Hok _]. destruct (Hok Hn) as [text Ht]. congruence.
    + rewrite (Hthrow e' eq_refl). cbn. f_equal.
      revert Hk. unfold ErrorHandler.classify. rewrite Hn, Hv. completion.
      congruence.
  - intros Hn Hbad.
    assert (Hv : exists e, ErrorHandler.validation_message rt err = Throw e).
    { unfold ErrorHandler.validation_message.
      destruct Hbad as [-> | (values & v & -> & Hin & Hv)]; [eauto|].
      destruct (map_message_nullish values v Hin Hv) as [e ->].
      completion. eauto. }
    destruct Hv as [e Hv].
    destruct (ErrorHandler.classify rt err) as [wk | e'] eqn:Hk.
    + destruct Hc as [Hok _]. destruct (Hok Hn) as [text Ht]. congruence.
    + rewrite (Hthrow e' eq_refl). eauto.
  - intros e Hp.
    destruct (ErrorHandler.classify rt err) as [wk | e'] eqn:Hk.
    + destruct Hc as (_ & [b Hb] & _). congruence.
    + rewrite (Hthrow e' eq_refl). eauto.
  - intros sent. handler_run.
    destruct (ErrorHandler.classify rt err) as [wk | e'] eqn:Hk; run;
      [|discriminate].
    destruct Hc as (_ & _ & Hst).
    intros [= <-].
    cbn [ErrorHandler.sent_status ErrorHandler.sent_body
         ErrorHandler.body_message ErrorHandler.body_code
         ErrorHandler.body_stack ErrorHandler.body_timestamp].
    split_and!.
    + reflexivity.
    + destruct (truthy (ErrorHandler.w_statusCode wk)) eqn:Hs;
        [exact Hs | reflexivity].
    + destruct (truthy (ErrorHandler.w_statusCode wk)) eqn:Hs;
        [|left; cbn; auto].
      destruct Hst as [<- | Hin]; [right; reflexivity | left; exact Hin].
    + destruct (truthy (ErrorHandler.w_message wk)) eqn:Hs;
        [exact Hs | reflexivity].
    + destruct (truthy (ErrorHandler.w_code wk)) eqn:Hs;
        [exact Hs | reflexivity].
    + reflexivity.
    + case_bool_decide; split; congruence.
Qed.

Lemma AppError_handled rt m s code captured url method w :
  let err := ErrorHandler.AppError m s code captured in
  let duplicate := ErrorHandler.code_is_11000 err in
  exists sent,
    result (ErrorHandler.errorHandler rt err url method w) = Normal sent /\
    ErrorHandler.sent_status sent
      = (if includes "Paystack" m || duplicate then VNum 400%float
         else if truthy s then s else VNum 500%float) /\
    ErrorHandler.body_message (ErrorHandler.sent_body sent)
      = (if includes "Paystack" m then VStr m
         else if duplicate then VStr "Duplicate field value entered"
         else if truthy m then VStr m else VStr "Internal Server Error") /\
    ErrorHandler.body_code (ErrorHandler.sent_body sent)
      = (if includes "Paystack" m then VStr "PAYSTACK_ERROR"
         else if negb duplicate && truthy code then code
         else VStr "INTERNAL_ERROR").
Proof.
  intros err duplicate. subst err duplicate. handler_run.
  unfold ErrorHandler.classify.
  match goal with
  | |- context [ErrorHandler.mentions_Paystack ?e] =>
      rewrite (mentions_Paystack_string e m eq_refl)
  end.
  destruct (ErrorHandler.code_is_11000
              (ErrorHandler.AppError m s code captured)) eqn:Hdup.
  all: unfold ErrorHandler.AppError, ErrorHandler.name_is, ErrorHandler.type_is.
  all: cbn [ErrorHandler.e_name ErrorHandler.e_code ErrorHandler.e_type
            ErrorHandler.e_message ErrorHandler.e_statusCode
            ErrorHandler.e_errors ErrorHandler.e_stack is_string String.eqb
            Ascii.eqb Bool.eqb].
  all: destruct (includes "Paystack" m) eqn:Hinc;
    [ assert (Ht : truthy m = true)
        by (apply (includes_truthy "Paystack"); [reflexivity | assumption]);
      rewrite Ht; completion; run; cbn; rewrite ?Ht;
      eexists; split_and!; reflexivity
    | rewrite andb_false_r; completion; run; cbn;
      destruct (truthy m) eqn:Ht, (truthy s) eqn:Hs, (truthy code) eqn:Hc;
      cbn; rewrite ?Ht, ?Hs, ?Hc;
      eexists; split_and!; reflexivity ].
Qed.

(** X26. An [AppError] reaches the client with its own status, message and
    code, a falsy status becoming 500, an empty message "Internal Server
    Error" and a falsy code "INTERNAL_ERROR", with two exceptions: the code
    11000 is answered as a duplicate key (400, "Duplicate field value
    entered"), and a message containing "Paystack" is answered 400 with the
    code "PAYSTACK_ERROR".  [handleValidationError] throws exactly when the
    "ValidationError" step of the middleware would, and with the same error:
    the messages cannot be collected.  The error it otherwise builds is
    answered 400 with the message "Invalid input data. " followed by the
    collected messages, and with the code "VALIDATION_ERROR" unless that
    message mentions Paystack. *)
Theorem X26_AppError_answers
    (rt : Runtime) (url method captured : string) (w : World) :
  (forall m s code,
      let err := ErrorHandler.AppError m s code captured in
      let duplicate := ErrorHandler.code_is_11000 err in
      exists sent,
        result (ErrorHandler.errorHandler rt err url method w) = Normal sent /\
        ErrorHandler.sent_status sent
          = (if includes "Paystack" m || duplicate then VNum 400%float
             else if truthy s then s else VNum 500%float) /\
        ErrorHandler.body_message (ErrorHandler.sent_body sent)
          = (if includes "Paystack" m then VStr m
             else if duplicate then VStr "Duplicate field value entered"
             else if truthy m then VStr m else VStr "Internal Server Error") /\
        ErrorHandler.body_code (ErrorHandler.sent_body sent)
          = (if includes "Paystack" m then VStr "PAYSTACK_ERROR"
             else if negb duplicate && truthy code then code
             else VStr "INTERNAL_ERROR")) /\
  (forall err,
      (forall e,
          ErrorHandler.handleValidationError rt err captured = Throw e <->
          ErrorHandler.validation_message rt err = Throw e) /\
      (forall app,
          ErrorHandler.handleValidationError rt err captured = Normal app ->
          exists values messages text sent,
            ErrorHandler.e_errors err = Some values /\
            map_message values = Normal messages /\
            join_values rt ". " messages = Normal text /\
            result (ErrorHandler.errorHandler rt app url method w)
              = Normal sent /\
            ErrorHandler.sent_status sent = VNum 400%float /\
            ErrorHandler.body_message (ErrorHandler.sent_body sent)
              = VStr ("Invalid input data. " +:+ text) /\
            ErrorHandler.body_code (ErrorHandler.sent_body sent)
              = VStr (if includes "Paystack" ("Invalid input data. " +:+ text)
                      then "PAYSTACK_ERROR" else "VALIDATION_ERROR"))).
Proof.
  split.
  - intros m s code. apply AppError_handled.
  - intros err.
    unfold ErrorHandler.handleValidationError, ErrorHandler.validation_message.
    destruct (ErrorHandler.e_errors err) as [values|];
      [|split; [intros e; split; intros [= <-]; reflexivity | discriminate]].
    destruct (map_message values) as [messages | e0] eqn:Hmsg; completion;
      [|split; [intros e; split; intros [= <-]; reflexivity | discriminate]].
    split.
    + intros e. unfold join_values.
      destruct (element_texts rt messages) as [texts | e1]; completion;
        split; try discriminate; intros [= <-]; reflexivity.
    + intros app.
      destruct (join_values rt ". " messages) as [text | e1] eqn:Hj;
        [|discriminate].
      intros [= <-]. exists values, messages, text.
      destruct (AppError_handled rt ("Invalid input data. " +:+ text)
                  (VNum 400%float) (VStr "VALIDATION_ERROR") captured
                  url method w)
        as (sent & Hr & Hs & Hm & Hc).
      exists sent. split_and!; try reflexivity; try assumption.
      * rewrite Hs. cbn. destruct (includes "Paystack" _); reflexivity.
      * rewrite Hm. rewrite !append_cons. cbn.
        destruct (includes "Paystack" _); reflexivity.
      * rewrite Hc. cbn. destruct (includes "Paystack" _); reflexivity.
Qed.

(** ** The gateway health report *)

(** X27. On a factory built from the environment, GET /health/gateways
    always answers 200 and never reports an error: every registered gateway
    is listed as available, with its capabilities and the sizes of its
    currency and method lists, so [summary.errors] is 0 and the two counts
    equal the number of registered gateways.  The clock is read once per
    gateway and once for the answer. *)
Theorem X27_health_gateways_reports_no_error
    (rt : Runtime) (env : gmap string string) (w : World) :
  let factory := constructor env in
  let n := length (getAvailableGateways factory) in
  let run := Routes.health_gateways rt factory w in
  exists details,
    result run =
      Normal {| res_status := 200;
                res_json :=
                  JsonGatewayHealth (Date_now rt (n + clock_reads w)) n
                    details n 0 |} /\
    snd run = advance (S n) 0 w /\
    List.map fst details = getAvailableGateways factory /\
    Forall (fun entry =>
              exists a c now,
                getGateway rt factory (VStr (fst entry)) = Normal a /\
                getGatewayCapabilities rt factory (VStr (fst entry))
                  = Normal c /\
                snd entry =
                  DetailAvailable c (length (getSupportedCurrencies a))
                    (length (getSupportedPaymentMethods a)) now)
           details.
Proof.
  intros factory n run. subst factory n run.
  unfold constructor, initializeAdapters, Routes.health_gateways, result,
    advance.
  destruct (truthy (getenv env "STRIPE_SECRET_KEY")),
    (truthy (getenv env "PAYSTACK_SECRET_KEY"));
    cbn; eexists; (split; [reflexivity|]); (split; [reflexivity|]);
    (split; [reflexivity|]);
    repeat (apply List.Forall_cons; [eexists _, _, _; cbn; split_and!; reflexivity|]);
    apply List.Forall_nil.
Qed.
